(** * Task-management backend: authorization, notification and audit pipeline

    A shallow embedding of the Express/Mongoose code of the repository:

    - [authMiddleware], [adminMiddleware]   (src/middleware/authMiddleware.js)
    - the [Task] schema                      (second document of that file)
    - the [AuditLog] schema                  (src/models/AuditLog.js)
    - three task routers:
        [TaskRoutes]       src/routes/taskRoutes.js          (POST, GET, PUT /:id, DELETE)
        [TaskRoutesNotify] src/unnamed/part_002, lines 1-122  (adds notifications, PUT /:id/status)
        [TaskRoutesAudit]  src/unnamed/part_002, lines 123-311 (adds the limiter, validators and the audit log)
    - two read-only routers:
        [AuditRoutes]        src/routes/auditRoutes.js  (GET /api/audit-logs, admins only)
        [NotificationRoutes] src/unnamed/part_001       (GET /api/notifications)

    Conventions of the model.

    - The Task collection is a finite map from [_id] to document (the unique
      index of MongoDB); notifications and audit entries, which are only ever
      appended, are lists.
    - A request handler is a function in a state-and-exception monad over
      these collections. Every call to a collaborator (store, sinks, logger,
      console) is recorded in a trace, so that the order of the effects of a
      request can be stated. Within one request the [await]s run in sequence;
      requests do not interleave.
    - Whether a call to the persistence engine rejects (connection lost,
      timeout) is decided by the environment of the request, [Env.fails];
      what Mongoose itself rejects (a failed cast, a [required] path, a
      duplicate key) is computed from the schema.
    - [jwt.verify], express-validator's [isISO8601] and Mongoose's casts to
      [Date] and [ObjectId] are parameters ([Collaborators]).
    - A request body carries the six fields the routers and the schema know,
      each one absent or a string; the identity decoded from a token carries
      the user's ObjectId and role, as the credential service issues them. *)

From Stdlib Require Import ZArith.
From stdpp Require Import base tactics option list strings gmap fin_maps sorting.

Open Scope string_scope.

(** ** Identifiers and external collaborators *)

(** An ObjectId is represented by its hexadecimal rendering, the string that
    [toString()] yields and that the credential service puts in a token. *)
Abbreviation ObjectId := string.

(** A [Date] is a number of milliseconds since the epoch. *)
Abbreviation Date := Z.

(** The identity that [jwt.verify] decodes: [req.user]. *)
Record Identity := { userId : ObjectId; role : string }.

(** Library functions the code calls and whose implementation lies outside
    the repository. They are parameters of the whole development. *)
Class Collaborators := {
  (** [jwt.verify(token, process.env.JWT_SECRET)]: the claims, or [None] when
      verification throws (malformed, expired, bad signature). *)
  jwt_verify : string → option Identity;
  (** express-validator's [isISO8601()] on the field's string value. *)
  isISO8601 : string → bool;
  (** Mongoose's cast of a string to a [Date] path. *)
  castDate : string → option Date;
  (** Mongoose's cast of a string to an [ObjectId] path. *)
  castObjectId : string → option ObjectId;
}.

(** ** Errors and outcomes *)

Inductive Error :=
| CastError (path value : string)
| ValidationError (paths : list string)
| DuplicateKey (id : ObjectId)
| DocumentNotFound (id : ObjectId)
| StoreFailure.

Inductive Outcome (A : Type) :=
| Ok (a : A)
| Throw (e : Error).
Arguments Ok {A} a.
Arguments Throw {A} e.

(** ** The models *)

Module User.
(** Modelled from the spec: the User model is not among the sources; the
    routers only select its display fields with [populate(_, "name email")]. *)
Record doc := mk { _id : ObjectId; name : string; email : string }.
End User.

Module Notification.
(** Modelled from the spec: models/Notification.js is not among the sources;
    the spec gives it a recipient, a message and a creation time, and the
    routers write [{ user, message }]. *)
Record doc := mk { user : ObjectId; message : string; createdAt : Date }.
End Notification.

Module AuditLog.
(** src/models/AuditLog.js; [action] is kept as the string the caller
    passes, the schema's enum is [allowed]. *)
Record doc := mk {
  user : ObjectId;
  action : string;
  task : ObjectId;
  timestamp : Date;
  details : string;
}.
Definition allowed : list string := ["CREATE"; "UPDATE"; "DELETE"].
End AuditLog.

(** [req.body]: the fields the routers read, as JSON strings; a field the
    body does not have is [None]. POST and the status route treat a field
    that is [null] like one that is absent (destructuring, falsy tests and
    [required] validators do not tell them apart), so [None] stands for both
    there. PUT /:id does tell them apart, since it would [$set] the [null]:
    for it [None] is an absent field only. *)
Module Req.
Record body := mk {
  title : option string;
  description : option string;
  dueDate : option string;
  assignedTo : option string;
  status : option string;
  createdBy : option string;
}.
End Req.

Module Task.
(** TaskSchema, with [{ timestamps: true }]. *)
Record doc := mk {
  _id : ObjectId;
  title : string;
  description : string;
  status : string;
  dueDate : Date;
  assignedTo : option ObjectId;
  createdBy : ObjectId;
  createdAt : Date;
  updatedAt : Date;
}.

(** [enum: ["Pending", "In Progress", "Completed"]], [default: "Pending"]. *)
Definition statuses : list string := ["Pending"; "In Progress"; "Completed"].
Definition default_status : string := "Pending".

(** [[...].includes(status)] on a body value. *)
Definition includes (l : list string) (v : option string) : bool :=
  match v with
  | Some s => bool_decide (s ∈ l)
  | None => false
  end.

(** What [new Task({ title, description, dueDate, assignedTo, createdBy })]
    holds before it is saved: the raw values of the request body, the id
    the driver generated and the requester. *)
Record draft := mk_draft {
  d_id : ObjectId;
  d_title : option string;
  d_description : option string;
  d_dueDate : option string;
  d_assignedTo : option string;
  d_createdBy : ObjectId;
}.

(** [task.status = status] followed by the timestamp hook of [save]. *)
Definition set_status (s : string) (now : Date) (t : doc) : doc :=
  mk (_id t) (title t) (description t) s (dueDate t) (assignedTo t)
     (createdBy t) (createdAt t) now.

(** [required: true] on a String path: present and not empty. *)
Definition required_string (v : option string) : bool :=
  match v with
  | Some s => negb (String.eqb s "")
  | None => false
  end.

(** A reference in a JSON answer: an id, or what [populate] put there. *)
Inductive ref :=
| RefId (i : ObjectId)
| RefDoc (i : ObjectId) (name email : string)
| RefNull.

Record json := mk_json {
  j_doc : doc;
  j_createdBy : ref;
  j_assignedTo : option ref;
}.

Definition populate_ref (users : gmap string User.doc) (i : ObjectId) : ref :=
  match users !! i with
  | Some u => RefDoc (User._id u) (User.name u) (User.email u)
  | None => RefNull
  end.

(** [.populate("createdBy", "name email")] *)
Definition populate_createdBy (users : gmap string User.doc) (j : json) : json :=
  mk_json (j_doc j) (populate_ref users (createdBy (j_doc j))) (j_assignedTo j).

(** [.populate("assignedTo", "name email")] *)
Definition populate_assignedTo (users : gmap string User.doc) (j : json) : json :=
  mk_json (j_doc j) (j_createdBy j) (populate_ref users <$> assignedTo (j_doc j)).

Definition to_json (t : doc) : json :=
  mk_json t (RefId (createdBy t)) (RefId <$> assignedTo t).

Section Operations.
Context `{C : Collaborators}.

(** The paths that fail the schema's casts and [required] validators when
    a new document is saved. *)
Definition invalid_paths (d : draft) : list string :=
  (if required_string (d_title d) then [] else ["title"]) ++
  (if required_string (d_description d) then [] else ["description"]) ++
  (match d_dueDate d ≫= castDate with Some _ => [] | None => ["dueDate"] end) ++
  (match d_assignedTo d with
   | Some s => match castObjectId s with Some _ => [] | None => ["assignedTo"] end
   | None => []
   end).

Definition validate (now : Date) (d : draft) : Outcome doc :=
  match invalid_paths d with
  | [] =>
      Ok (mk (d_id d) (default "" (d_title d)) (default "" (d_description d))
             default_status (default 0%Z (d_dueDate d ≫= castDate))
             (d_assignedTo d ≫= castObjectId) (d_createdBy d) now now)
  | ps => Throw (ValidationError ps)
  end.

(** [save()] of a new document: validation, then an insert under the
    unique [_id] index. *)
Definition save (now : Date) (d : draft) (c : gmap string doc)
  : Outcome doc * gmap string doc :=
  match validate now d with
  | Throw e => (Throw e, c)
  | Ok t =>
      match c !! _id t with
      | Some _ => (Throw (DuplicateKey (_id t)), c)
      | None => (Ok t, <[_id t := t]> c)
      end
  end.

(** The paths of a loaded document that fail the validators [save()] runs on
    it: the two required strings and the enum of [status]. *)
Definition invalid_doc_paths (t : doc) : list string :=
  (if String.eqb (title t) "" then ["title"] else []) ++
  (if String.eqb (description t) "" then ["description"] else []) ++
  (if bool_decide (status t ∈ statuses) then [] else ["status"]).

(** [task.status = s; task.save()] on a document [t] loaded by [findById]:
    the document is validated; when the assignment changed nothing no write
    is issued; otherwise [status] and [updatedAt] are [$set] on the stored
    document. *)
Definition save_status (now : Date) (s : string) (t : doc) (c : gmap string doc)
  : Outcome doc * gmap string doc :=
  match invalid_doc_paths (set_status s (updatedAt t) t) with
  | (_ :: _) as ps => (Throw (ValidationError ps), c)
  | [] =>
      if String.eqb (status t) s then (Ok t, c)
      else
        match c !! _id t with
        | Some stored => (Ok (set_status s now t), <[_id t := set_status s now stored]> c)
        | None => (Throw (DocumentNotFound (_id t)), c)
        end
  end.

(** [Task.findById(id)] *)
Definition findById (id : string) (c : gmap string doc) : Outcome (option doc) :=
  match castObjectId id with
  | Some i => Ok (c !! i)
  | None => Throw (CastError "_id" id)
  end.

(** [task.deleteOne()] *)
Definition deleteOne (t : doc) (c : gmap string doc) : gmap string doc :=
  delete (_id t) c.

(** [Task.find()] and [Task.find({ createdBy })] *)
Definition find (c : gmap string doc) : list doc := (map_to_list c).*2.

Definition find_createdBy (u : ObjectId) (c : gmap string doc) : list doc :=
  filter (λ t, createdBy t = u) (find c).

Definition cast_with {A} (path : string) (cast : string → option A)
    (v : option string) (old : A) : Outcome A :=
  match v with
  | None => Ok old
  | Some s =>
      match cast s with
      | Some a => Ok a
      | None => Throw (CastError path s)
      end
  end.

(** The [$set] that [findByIdAndUpdate(id, req.body, { new: true })]
    applies: every schema path present in the body, cast but not
    validated, and [updatedAt]. A document here always has a due date, so
    this covers the bodies whose [dueDate] is not the empty string, which
    Mongoose casts to [null]. *)
Definition apply_update (now : Date) (b : Req.body) (t : doc) : Outcome doc :=
  match cast_with "dueDate" castDate (Req.dueDate b) (dueDate t) with
  | Throw e => Throw e
  | Ok due =>
  match cast_with "assignedTo" (λ s, Some <$> castObjectId s)
          (Req.assignedTo b) (assignedTo t) with
  | Throw e => Throw e
  | Ok assignee =>
  match cast_with "createdBy" castObjectId (Req.createdBy b) (createdBy t) with
  | Throw e => Throw e
  | Ok creator =>
      Ok (mk (_id t) (default (title t) (Req.title b))
             (default (description t) (Req.description b))
             (default (status t) (Req.status b))
             due assignee creator (createdAt t) now)
  end end end.

Definition findByIdAndUpdate (now : Date) (id : string) (b : Req.body)
    (c : gmap string doc) : Outcome (option doc) * gmap string doc :=
  match castObjectId id with
  | None => (Throw (CastError "_id" id), c)
  | Some i =>
      match c !! i with
      | None => (Ok None, c)
      | Some t =>
          match apply_update now b t with
          | Throw e => (Throw e, c)
          | Ok t' => (Ok (Some t'), <[i := t']> c)
          end
      end
  end.
End Operations.
End Task.


(** ** The world a request runs in *)

(** The calls to the persistence engine that can fail. *)
Inductive Op :=
| TaskSave
| TaskFind
| TaskFindById
| TaskDeleteOne
| TaskFindByIdAndUpdate
| NotificationCreate
| AuditLogCreate.

#[global] Instance Op_eq_dec : EqDecision Op.
Proof. solve_decision. Defined.

(** What a handler does to its collaborators, in the order it does it. *)
Inductive Event :=
| Called (op : Op)
| LoggerInfo (msg : string)
| ConsoleError (tag : string) (e : Error).

Record World := mkWorld {
  tasks : gmap string Task.doc;
  users : gmap string User.doc;
  notifications : list Notification.doc;
  auditLogs : list AuditLog.doc;
  trace : list Event;
}.

Definition with_tasks (c : gmap string Task.doc) (w : World) : World :=
  mkWorld c (users w) (notifications w) (auditLogs w) (trace w).

Definition with_notifications (l : list Notification.doc) (w : World) : World :=
  mkWorld (tasks w) (users w) l (auditLogs w) (trace w).

Definition with_auditLogs (l : list AuditLog.doc) (w : World) : World :=
  mkWorld (tasks w) (users w) (notifications w) l (trace w).

Definition with_trace (l : list Event) (w : World) : World :=
  mkWorld (tasks w) (users w) (notifications w) (auditLogs w) l.

(** What the environment decides for one request: the clock, the ObjectId
    the driver generates for a new document, whether express-rate-limit has
    already counted [max] requests of this client in the window, and which
    calls to the persistence engine reject. *)
Record Env := mkEnv {
  now : Date;
  fresh_id : ObjectId;
  limited : bool;
  fails : Op → bool;
}.

(** ** Handlers: state and exceptions *)

(** An [async] computation: it runs on the world and either returns or
    throws; what it did before throwing stays done. *)
Definition M (A : Type) : Type := World → Outcome A * World.

Definition ret {A} (a : A) : M A := λ w, (Ok a, w).

Definition bind {A B} (m : M A) (k : A → M B) : M B :=
  λ w, match m w with
       | (Ok a, w') => k a w'
       | (Throw e, w') => (Throw e, w')
       end.

(** [try { m } catch (error) { h error }] *)
Definition try_catch {A} (m : M A) (h : Error → M A) : M A :=
  λ w, match m w with
       | (Ok a, w') => (Ok a, w')
       | (Throw e, w') => h e w'
       end.

Declare Scope handler_scope.
Delimit Scope handler_scope with handler.
Notation "x <- m ;; k" := (bind m (λ x, k))
  (at level 100, m at next level, right associativity) : handler_scope.
Notation "m ;; k" := (bind m (λ _, k))
  (at level 100, right associativity) : handler_scope.
Open Scope handler_scope.

Definition emit (e : Event) : M unit :=
  λ w, (Ok tt, with_trace (trace w ++ [e]) w).

(** ** Responses *)

Inductive Json :=
| JText (text : string)
| JMessage (message : string)
| JMessageError (message : string) (error : Error)
| JErrors (errors : list string)
| JTask (task : Task.doc)
| JTaskOrNull (task : option Task.doc)
| JTasks (tasks : list Task.json)
| JMessageTask (message : string) (task : Task.doc).

Record Response := mkResponse { code : nat; json : Json }.

(** [res.status(c).json(j)] *)
Definition res_status_json (c : nat) (j : Json) : M Response :=
  ret (mkResponse c j).

(** JavaScript's view of a body field. *)
Definition truthy (v : option string) : option string :=
  match v with
  | Some s => if String.eqb s "" then None else Some s
  | None => None
  end.

(** A value inside a template literal. *)
Definition template (v : option string) : string := default "undefined" v.

(** [s.replace(pat, rep)] with a string pattern: the first occurrence. *)
Fixpoint replace (pat rep s : string) : string :=
  if String.prefix pat s then rep ++ String.substring (String.length pat) (String.length s - String.length pat) s
  else match s with
       | EmptyString => EmptyString
       | String c s' => String c (replace pat rep s')
       end.

Section Server.
Context `{C : Collaborators}.

(** *** src/middleware/authMiddleware.js *)

Definition authMiddleware (token : option string) (next : Identity → M Response)
  : M Response :=
  match truthy token with
  | None => res_status_json 401 (JMessage "Access Denied")
  | Some token =>
      match jwt_verify (replace "Bearer " "" token) with
      | Some decoded => next decoded
      | None => res_status_json 400 (JMessage "Invalid Token")
      end
  end.

Definition adminMiddleware (user : Identity) (next : M Response) : M Response :=
  if negb (String.eqb (role user) "admin") then
    res_status_json 403 (JMessage "Admin access required")
  else next.

(** *** Calls to the models *)

Section Request.
Variable env : Env.

(** A call that reaches the persistence engine. When the engine rejects a
    call whose argument Mongoose would itself have refused (a cast or a
    validator), the error reported here is the engine's; the handlers answer
    both with the same code. *)
Definition call {A} (op : Op) (f : World → Outcome A * World) : M A :=
  emit (Called op) ;;
  λ w, if fails env op then (Throw StoreFailure, w) else f w.

Definition Task_save (d : Task.draft) : M Task.doc :=
  call TaskSave (λ w,
    let '(r, c) := Task.save (now env) d (tasks w) in (r, with_tasks c w)).

Definition Task_save_status (s : string) (t : Task.doc) : M Task.doc :=
  call TaskSave (λ w,
    let '(r, c) := Task.save_status (now env) s t (tasks w) in (r, with_tasks c w)).

Definition Task_findById (id : string) : M (option Task.doc) :=
  call TaskFindById (λ w, (Task.findById id (tasks w), w)).

Definition Task_deleteOne (t : Task.doc) : M unit :=
  call TaskDeleteOne (λ w, (Ok tt, with_tasks (Task.deleteOne t (tasks w)) w)).

Definition Task_findByIdAndUpdate (id : string) (b : Req.body) : M (option Task.doc) :=
  call TaskFindByIdAndUpdate (λ w,
    let '(r, c) := Task.findByIdAndUpdate (now env) id b (tasks w) in
    (r, with_tasks c w)).

(** [Task.find().populate("createdBy", ..).populate("assignedTo", ..)] *)
Definition Task_find_all : M (list Task.json) :=
  call TaskFind (λ w,
    (Ok (Task.populate_assignedTo (users w) <$>
         (Task.populate_createdBy (users w) <$>
          (Task.to_json <$> Task.find (tasks w)))), w)).

(** [Task.find({ createdBy }).populate("assignedTo", ..)] *)
Definition Task_find_createdBy (u : ObjectId) : M (list Task.json) :=
  call TaskFind (λ w,
    (Ok (Task.populate_assignedTo (users w) <$>
         (Task.to_json <$> Task.find_createdBy u (tasks w))), w)).

(** [Notification.create({ user, message })] *)
Definition Notification_create (user : string) (message : string) : M unit :=
  call NotificationCreate (λ w,
    match castObjectId user with
    | Some u =>
        (Ok tt, with_notifications
                  (notifications w ++ [Notification.mk u message (now env)]) w)
    | None => (Throw (CastError "user" user), w)
    end).

(** [AuditLog.create({ user, action, task, details })] *)
Definition AuditLog_create (user : ObjectId) (action : string) (task : ObjectId)
    (details : string) : M unit :=
  call AuditLogCreate (λ w,
    if bool_decide (action ∈ AuditLog.allowed) then
      (Ok tt, with_auditLogs
                (auditLogs w ++ [AuditLog.mk user action task (now env) details]) w)
    else (Throw (ValidationError ["action"]), w)).

Definition logger_info (msg : string) : M unit := emit (LoggerInfo msg).

Definition console_error (tag : string) (e : Error) : M unit :=
  emit (ConsoleError tag e).

(** [new Task({ title, description, dueDate, assignedTo, createdBy: req.user.userId })] *)
Definition new_Task (user : Identity) (b : Req.body) : Task.draft :=
  Task.mk_draft (fresh_id env) (Req.title b) (Req.description b) (Req.dueDate b)
                (Req.assignedTo b) (userId user).

(** [task.createdBy.toString() !== req.user.userId && req.user.role !== "admin"] *)
Definition neither_owner_nor_admin (task : Task.doc) (user : Identity) : bool :=
  negb (String.eqb (Task.createdBy task) (userId user))
  && negb (String.eqb (role user) "admin").

End Request.
End Server.

(** A request as the routers see it. *)
Record Request := mkRequest {
  authorization : option string;  (* req.header("Authorization") *)
  params_id : string;             (* req.params.id *)
  body : Req.body;                (* req.body *)
}.

(** ** src/routes/taskRoutes.js *)

Module TaskRoutes.
Section Router.
Context `{C : Collaborators} (env : Env).

(** POST /api/tasks *)
Definition post (user : Identity) (b : Req.body) : M Response :=
  try_catch
    (let task := new_Task env user b in
     task <- Task_save env task ;;
     res_status_json 201 (JTask task))
    (λ error, res_status_json 500 (JMessageError "Error creating task" error)).

(** GET /api/tasks *)
Definition get (user : Identity) : M Response :=
  try_catch
    (tasks <- (if String.eqb (role user) "admin" then Task_find_all env
               else Task_find_createdBy env (userId user)) ;;
     res_status_json 200 (JTasks tasks))
    (λ error, res_status_json 500 (JMessageError "Error fetching tasks" error)).

(** PUT /api/tasks/:id *)
Definition put (user : Identity) (id : string) (b : Req.body) : M Response :=
  try_catch
    (task <- Task_findById env id ;;
     match task with
     | None => res_status_json 404 (JMessage "Task not found")
     | Some task =>
         if neither_owner_nor_admin task user then
           res_status_json 403 (JMessage "Unauthorized to update this task")
         else
           task <- Task_findByIdAndUpdate env id b ;;
           res_status_json 200 (JTaskOrNull task)
     end)
    (λ error, res_status_json 500 (JMessageError "Error updating task" error)).

(** DELETE /api/tasks/:id *)
Definition delete (user : Identity) (id : string) : M Response :=
  try_catch
    (task <- Task_findById env id ;;
     match task with
     | None => res_status_json 404 (JMessage "Task not found")
     | Some task =>
         if neither_owner_nor_admin task user then
           res_status_json 403 (JMessage "Unauthorized to delete this task")
         else
           Task_deleteOne env task ;;
           res_status_json 200 (JMessage "Task deleted successfully")
     end)
    (λ error, res_status_json 500 (JMessageError "Error deleting task" error)).

(** The router: every route runs [authMiddleware] first. *)
Inductive Endpoint := POST | GET | PUT | DELETE.

Definition handler (e : Endpoint) (user : Identity) (req : Request) : M Response :=
  match e with
  | POST => post user (body req)
  | GET => get user
  | PUT => put user (params_id req) (body req)
  | DELETE => delete user (params_id req)
  end.

Definition router (e : Endpoint) (req : Request) : M Response :=
  authMiddleware (authorization req) (λ user, handler e user req).

End Router.
End TaskRoutes.

(** ** src/unnamed/part_002, first router (lines 1-122) *)

Module TaskRoutesNotify.
Section Router.
Context `{C : Collaborators} (env : Env).

Definition createNotification (userId : string) (message : string) : M unit :=
  try_catch
    (Notification_create env userId message)
    (λ error, console_error "Notification Error:" error).

(** POST /api/tasks *)
Definition post (user : Identity) (b : Req.body) : M Response :=
  try_catch
    (let task := new_Task env user b in
     task <- Task_save env task ;;
     match truthy (Req.assignedTo b) with
     | Some assignedTo =>
         createNotification assignedTo
           ("You have been assigned a new task: " ++ template (Req.title b))
     | None => ret tt
     end ;;
     res_status_json 201 (JTask task))
    (λ error, res_status_json 500 (JMessageError "Error creating task" error)).

(** GET /api/tasks *)
Definition get (user : Identity) : M Response :=
  try_catch
    (tasks <- (if String.eqb (role user) "admin" then Task_find_all env
               else Task_find_createdBy env (userId user)) ;;
     res_status_json 200 (JTasks tasks))
    (λ error, res_status_json 500 (JMessageError "Error fetching tasks" error)).

(** PUT /api/tasks/:id/status *)
Definition put_status (user : Identity) (id : string) (b : Req.body) : M Response :=
  try_catch
    (let status := Req.status b in
     if negb (Task.includes Task.statuses status) then
       res_status_json 400 (JMessage "Invalid status update")
     else
       task <- Task_findById env id ;;
       match task with
       | None => res_status_json 404 (JMessage "Task not found")
       | Some task =>
           if neither_owner_nor_admin task user then
             res_status_json 403 (JMessage "Unauthorized to update this task")
           else
             task <- Task_save_status env (template status) task ;;
             res_status_json 200 (JMessageTask "Task status updated" task)
       end)
    (λ error, res_status_json 500 (JMessageError "Error updating task status" error)).

(** DELETE /api/tasks/:id *)
Definition delete (user : Identity) (id : string) : M Response :=
  try_catch
    (task <- Task_findById env id ;;
     match task with
     | None => res_status_json 404 (JMessage "Task not found")
     | Some task =>
         if neither_owner_nor_admin task user then
           res_status_json 403 (JMessage "Unauthorized to delete this task")
         else
           Task_deleteOne env task ;;
           res_status_json 200 (JMessage "Task deleted successfully")
     end)
    (λ error, res_status_json 500 (JMessageError "Error deleting task" error)).

(** The router: every route runs [authMiddleware] first. *)
Inductive Endpoint := POST | GET | PUT_status | DELETE.

Definition handler (e : Endpoint) (user : Identity) (req : Request) : M Response :=
  match e with
  | POST => post user (body req)
  | GET => get user
  | PUT_status => put_status user (params_id req) (body req)
  | DELETE => delete user (params_id req)
  end.

Definition router (e : Endpoint) (req : Request) : M Response :=
  authMiddleware (authorization req) (λ user, handler e user req).

End Router.
End TaskRoutesNotify.

(** ** src/unnamed/part_002, second router (lines 123-311) *)

Module TaskRoutesAudit.
Section Router.
Context `{C : Collaborators} (env : Env).

(** [router.use(taskLimiter)]: beyond [max] requests in the window the
    limiter answers 429 with its [message] and the route is not run. *)
Definition taskLimiter (next : M Response) : M Response :=
  if limited env then
    ret (mkResponse 429 (JText "Too many requests, please try again later"))
  else next.

Definition createNotification (userId : string) (message : string) : M unit :=
  try_catch
    (Notification_create env userId message)
    (λ error, console_error "Notification Error:" error).

Definition logAction (userId : ObjectId) (action : string) (taskId : ObjectId)
    (details : string) : M unit :=
  try_catch
    (AuditLog_create env userId action taskId details)
    (λ error, console_error "Audit Log Error:" error).

(** express-validator turns a field into a string before it checks it. *)
Definition toString (v : option string) : string := default "" v.

(** [body(f).notEmpty()] *)
Definition notEmpty (v : option string) : bool := negb (String.eqb (toString v) "").

(** The three validation chains of POST, and [validationResult(req).array()]
    as the list of their messages. *)
Definition validationResult (b : Req.body) : list string :=
  (if notEmpty (Req.title b) then [] else ["Title is required"]) ++
  (if notEmpty (Req.description b) then [] else ["Description is required"]) ++
  (if isISO8601 (toString (Req.dueDate b)) then []
   else ["Due Date must be a valid date"]).

(** [errors.isEmpty()] *)
Definition isEmpty (errors : list string) : bool :=
  match errors with [] => true | _ => false end.

(** POST /api/tasks *)
Definition post (user : Identity) (b : Req.body) : M Response :=
  logger_info "POST /api/tasks - Creating a new task" ;;
  let errors := validationResult b in
  if negb (isEmpty errors) then res_status_json 400 (JErrors errors)
  else
    try_catch
      (let task := new_Task env user b in
       task <- Task_save env task ;;
       match truthy (Req.assignedTo b) with
       | Some assignedTo =>
           createNotification assignedTo
             ("You have been assigned a new task: " ++ template (Req.title b))
       | None => ret tt
       end ;;
       logAction (userId user) "CREATE" (Task._id task)
         ("Task '" ++ template (Req.title b) ++ "' created") ;;
       res_status_json 201 (JTask task))
      (λ error, res_status_json 500 (JMessageError "Error creating task" error)).

(** GET /api/tasks *)
Definition get (user : Identity) : M Response :=
  logger_info "GET /api/tasks - Fetching tasks" ;;
  try_catch
    (tasks <- (if String.eqb (role user) "admin" then Task_find_all env
               else Task_find_createdBy env (userId user)) ;;
     res_status_json 200 (JTasks tasks))
    (λ error, res_status_json 500 (JMessageError "Error fetching tasks" error)).

(** PUT /api/tasks/:id/status *)
Definition put_status (user : Identity) (id : string) (b : Req.body) : M Response :=
  logger_info ("PUT /api/tasks/" ++ id ++ "/status - Updating task status") ;;
  try_catch
    (let status := Req.status b in
     if negb (Task.includes Task.statuses status) then
       res_status_json 400 (JMessage "Invalid status update")
     else
       task <- Task_findById env id ;;
       match task with
       | None => res_status_json 404 (JMessage "Task not found")
       | Some task =>
           if neither_owner_nor_admin task user then
             res_status_json 403 (JMessage "Unauthorized to update this task")
           else
             task <- Task_save_status env (template status) task ;;
             logAction (userId user) "UPDATE" (Task._id task)
               ("Task status changed to '" ++ template status ++ "'") ;;
             res_status_json 200 (JMessageTask "Task status updated" task)
       end)
    (λ error, res_status_json 500 (JMessageError "Error updating task status" error)).

(** DELETE /api/tasks/:id *)
Definition delete (user : Identity) (id : string) : M Response :=
  logger_info ("DELETE /api/tasks/" ++ id ++ " - Deleting a task") ;;
  try_catch
    (task <- Task_findById env id ;;
     match task with
     | None => res_status_json 404 (JMessage "Task not found")
     | Some task =>
         if neither_owner_nor_admin task user then
           res_status_json 403 (JMessage "Unauthorized to delete this task")
         else
           Task_deleteOne env task ;;
           logAction (userId user) "DELETE" (Task._id task)
             ("Task '" ++ Task.title task ++ "' deleted") ;;
           res_status_json 200 (JMessage "Task deleted successfully")
     end)
    (λ error, res_status_json 500 (JMessageError "Error deleting task" error)).

(** The router: every route runs the limiter, then [authMiddleware]. *)
Inductive Endpoint := POST | GET | PUT_status | DELETE.

Definition handler (e : Endpoint) (user : Identity) (req : Request) : M Response :=
  match e with
  | POST => post user (body req)
  | GET => get user
  | PUT_status => put_status user (params_id req) (body req)
  | DELETE => delete user (params_id req)
  end.

Definition router (e : Endpoint) (req : Request) : M Response :=
  taskLimiter (authMiddleware (authorization req) (λ user, handler e user req)).

End Router.
End TaskRoutesAudit.

(** ** The read-only routers *)

(** The queries of these routers that can reject. *)
Inductive Query := AuditLogFind | NotificationFind.

(** What they answer: [res.status(code).json(items)] with a list of
    documents, or one of the answers of the task routers. *)
Inductive Listing (A : Type) :=
| Listed (code : nat) (items : list A)
| Plain (r : Response).
Arguments Listed {A} code items.
Arguments Plain {A} r.

Section Middleware.
Context `{C : Collaborators} {R : Type} (plain : Response → R).

(** [authMiddleware] and [adminMiddleware] of src/middleware/authMiddleware.js
    in front of a route that answers in [R]; [plain] is how such a route
    carries the answers of the middleware. *)
Definition authMiddleware_of (token : option string) (next : Identity → M R) : M R :=
  match truthy token with
  | None => ret (plain (mkResponse 401 (JMessage "Access Denied")))
  | Some token =>
      match jwt_verify (replace "Bearer " "" token) with
      | Some decoded => next decoded
      | None => ret (plain (mkResponse 400 (JMessage "Invalid Token")))
      end
  end.

Definition adminMiddleware_of (user : Identity) (next : M R) : M R :=
  if negb (String.eqb (role user) "admin") then
    ret (plain (mkResponse 403 (JMessage "Admin access required")))
  else next.

End Middleware.

(** *** src/routes/auditRoutes.js *)

Module AuditRoutes.

(** What [populate("task", "title")] puts in place of the task's id. *)
Inductive task_ref :=
| TaskTitle (i : ObjectId) (title : string)
| TaskNull.

(** An audit entry in the answer, with [user] and [task] populated. *)
Record json := mk_json {
  j_doc : AuditLog.doc;
  j_user : Task.ref;
  j_task : task_ref;
}.

Definition populate_task (tasks : gmap string Task.doc) (i : ObjectId) : task_ref :=
  match tasks !! i with
  | Some t => TaskTitle (Task._id t) (Task.title t)
  | None => TaskNull
  end.

(** [.populate("user", "name email").populate("task", "title")] *)
Definition populate (w : World) (d : AuditLog.doc) : json :=
  mk_json d (Task.populate_ref (users w) (AuditLog.user d))
            (populate_task (tasks w) (AuditLog.task d)).

(** The order of [.sort({ timestamp: -1 })]. *)
Definition newer (a b : AuditLog.doc) : Prop :=
  (AuditLog.timestamp b ≤ AuditLog.timestamp a)%Z.

#[global] Instance newer_dec a b : Decision (newer a b).
Proof. unfold newer. apply _. Defined.

Section Router.
Context `{C : Collaborators} (rejects : Query → bool).

(** [AuditLog.find().populate(..).populate(..).sort({ timestamp: -1 })] *)
Definition AuditLog_find : M (list json) :=
  λ w, if rejects AuditLogFind then (Throw StoreFailure, w)
       else (Ok (populate w <$> merge_sort newer (auditLogs w)), w).

(** GET /api/audit-logs *)
Definition get : M (Listing json) :=
  try_catch
    (logs <- AuditLog_find ;;
     ret (Listed 200 logs))
    (λ error,
       ret (Plain (mkResponse 500 (JMessageError "Error fetching audit logs" error)))).

(** [router.get("/", authMiddleware, adminMiddleware, handler)] *)
Definition router (req : Request) : M (Listing json) :=
  authMiddleware_of Plain (authorization req)
    (λ user, adminMiddleware_of Plain user get).

End Router.
End AuditRoutes.

(** *** src/unnamed/part_001 *)

Module NotificationRoutes.

(** The order of [.sort({ createdAt: -1 })]. *)
Definition newer (a b : Notification.doc) : Prop :=
  (Notification.createdAt b ≤ Notification.createdAt a)%Z.

#[global] Instance newer_dec a b : Decision (newer a b).
Proof. unfold newer. apply _. Defined.

Section Router.
Context `{C : Collaborators} (rejects : Query → bool).

(** [Notification.find({ user }).sort({ createdAt: -1 })] *)
Definition Notification_find (u : ObjectId) : M (list Notification.doc) :=
  λ w, if rejects NotificationFind then (Throw StoreFailure, w)
       else (Ok (merge_sort newer
                   (filter (λ n, Notification.user n = u) (notifications w))), w).

(** GET /api/notifications *)
Definition get (user : Identity) : M (Listing Notification.doc) :=
  try_catch
    (notifications <- Notification_find (userId user) ;;
     ret (Listed 200 notifications))
    (λ error,
       ret (Plain (mkResponse 500 (JMessageError "Error fetching notifications" error)))).

(** [router.get("/", authMiddleware, handler)] *)
Definition router (req : Request) : M (Listing Notification.doc) :=
  authMiddleware_of Plain (authorization req) (λ user, get user).

End Router.
End NotificationRoutes.

(** ** A concrete deployment, for running the handlers *)

Module Demo.

Definition alice : Identity :=
  {| userId := "a11ce0000000000000000a11"; role := "user" |}.
Definition bob : Identity :=
  {| userId := "b0b000000000000000000b0b"; role := "user" |}.
Definition root : Identity :=
  {| userId := "4d31400000000000000004d3"; role := "admin" |}.

(** Stand-ins for the libraries: three tokens verify; a date is accepted in
    the form dddd-dd-dd and one date is known to the cast; an ObjectId is 24
    lower-case hexadecimal digits. *)
Definition is_digit (c : Ascii.ascii) : bool :=
  Nat.leb 48 (Ascii.nat_of_ascii c) && Nat.leb (Ascii.nat_of_ascii c) 57.

Definition is_hex (c : Ascii.ascii) : bool :=
  is_digit c
  || (Nat.leb 97 (Ascii.nat_of_ascii c) && Nat.leb (Ascii.nat_of_ascii c) 102).

Definition is_date (s : string) : bool :=
  match String.list_ascii_of_string s with
  | [y1; y2; y3; y4; d1; m1; m2; d2; a1; a2] =>
      forallb is_digit [y1; y2; y3; y4; m1; m2; a1; a2]
      && Nat.eqb (Ascii.nat_of_ascii d1) 45 && Nat.eqb (Ascii.nat_of_ascii d2) 45
  | _ => false
  end.

Definition collaborators : Collaborators := {|
  jwt_verify token :=
    if String.eqb token "alice.jwt" then Some alice
    else if String.eqb token "bob.jwt" then Some bob
    else if String.eqb token "root.jwt" then Some root
    else None;
  isISO8601 := is_date;
  castDate s := if String.eqb s "2025-01-31" then Some 1738281600000%Z else None;
  castObjectId s :=
    if Nat.eqb (String.length s) 24 && forallb is_hex (String.list_ascii_of_string s)
    then Some s else None;
|}.

(** The id of the stored task, and the id the driver generates next. *)
Definition task1 : ObjectId := "7a5b00000000000000000001".
Definition fresh : ObjectId := "7a5c00000000000000000002".

Definition never : Op → bool := λ _, false.
Definition only (op : Op) : Op → bool := λ o, bool_decide (o = op).

Definition env (f : Op → bool) : Env := mkEnv 1700000000000%Z fresh false f.

(** A task of alice's, already stored. *)
Definition t1 : Task.doc :=
  Task.mk task1 "Write report" "Quarterly numbers" "Pending" 1738281600000%Z
          None (userId alice) 1600000000000%Z 1600000000000%Z.

Definition w0 : World := mkWorld {[ task1 := t1 ]} ∅ [] [] [].

Definition new_body (assignee : option string) : Req.body :=
  Req.mk (Some "Plan sprint") (Some "Backlog grooming") (Some "2025-01-31")
         assignee None None.

(** The task that POST creates from [new_body assignee] for alice. *)
Definition created (assignee : option ObjectId) : Task.doc :=
  Task.mk fresh "Plan sprint" "Backlog grooming" "Pending" 1738281600000%Z
          assignee (userId alice) 1700000000000%Z 1700000000000%Z.

Definition status_body (s : string) : Req.body :=
  Req.mk None None None None (Some s) None.

End Demo.

(** * Vocabulary of the properties *)

(** Two documents that differ at most in [status] and [updatedAt]. *)
Definition same_but_status (t t' : Task.doc) : Prop :=
  Task._id t' = Task._id t ∧ Task.title t' = Task.title t ∧
  Task.description t' = Task.description t ∧ Task.dueDate t' = Task.dueDate t ∧
  Task.assignedTo t' = Task.assignedTo t ∧ Task.createdBy t' = Task.createdBy t ∧
  Task.createdAt t' = Task.createdAt t.


(** A document is in the Task collection. *)
Definition stored (t : Task.doc) (w : World) : Prop := ∃ k, tasks w !! k = Some t.

(** The scope of a listing: everything for an admin, one's own tasks
    otherwise. *)
Definition visible_to (user : Identity) (t : Task.doc) : Prop :=
  role user = "admin" ∨ Task.createdBy t = userId user.

(** A 2xx answer. *)
Definition success (r : Response) : bool :=
  Nat.leb 200 (code r) && Nat.ltb (code r) 300.

(** The world once [op] has been called, and once a line has been logged. *)
Definition called (op : Op) (w : World) : World :=
  with_trace (trace w ++ [Called op]) w.

Definition logged (msg : string) (w : World) : World :=
  with_trace (trace w ++ [LoggerInfo msg]) w.

Section Vocabulary.
Context `{C : Collaborators} (env : Env).

(** The credential is present and verifies as [user]. *)
Definition authenticated (token : option string) (user : Identity) : Prop :=
  ∃ s, truthy token = Some s ∧ jwt_verify (replace "Bearer " "" s) = Some user.

(** What [Notification.create] does for recipient [u]. *)
Definition notification_attempt (u : string) : Outcome ObjectId :=
  if fails env NotificationCreate then Throw StoreFailure
  else match castObjectId u with
       | Some i => Ok i
       | None => Throw (CastError "user" u)
       end.

(** The world after [createNotification(u, m)]. *)
Definition notified (u m : string) (w : World) : World :=
  let w1 := with_trace (trace w ++ [Called NotificationCreate]) w in
  match notification_attempt u with
  | Ok i => with_notifications (notifications w ++ [Notification.mk i m (now env)]) w1
  | Throw e => with_trace (trace w1 ++ [ConsoleError "Notification Error:" e]) w1
  end.

(** The world after [logAction(u, a, t, d)] with [a] one of the three
    actions. *)
Definition audited (u : ObjectId) (a : string) (t : ObjectId) (d : string)
    (w : World) : World :=
  let w1 := with_trace (trace w ++ [Called AuditLogCreate]) w in
  if fails env AuditLogCreate then
    with_trace (trace w1 ++ [ConsoleError "Audit Log Error:" StoreFailure]) w1
  else with_auditLogs (auditLogs w ++ [AuditLog.mk u a t (now env) d]) w1.

End Vocabulary.

(** An operation on task [t] is reserved to its creator and to admins:
    it answers, an answer of success implies that the caller is one of
    them, and any other caller gets [denial] and leaves the tasks as they
    were. *)
Definition guarded (user : Identity) (t : Task.doc) (denial : Response)
    (w : World) (out : Outcome Response * World) : Prop :=
  ∃ r w', out = (Ok r, w') ∧
    (success r = true → role user = "admin" ∨ Task.createdBy t = userId user) ∧
    (role user ≠ "admin" → Task.createdBy t ≠ userId user →
     r = denial ∧ tasks w' = tasks w).

(** From [w] to [w'] no task appeared or disappeared, and each differs at
    most in [status] and [updatedAt]. *)
Definition status_frame (w w' : World) : Prop :=
  (∀ k t, tasks w !! k = Some t →
          ∃ t', tasks w' !! k = Some t' ∧ same_but_status t t') ∧
  (∀ k, tasks w !! k = None → tasks w' !! k = None).

(** The audit log grew by the entry of [action] by [user] on task [t], or,
    if the write to the audit log failed, not at all. *)
Definition audit_appended (env : Env) (user : Identity) (action : string)
    (t : Task.doc) (w w' : World) : Prop :=
  ∃ details,
    auditLogs w' =
    (auditLogs w ++
     (if fails env AuditLogCreate then []
      else [AuditLog.mk (userId user) action (Task._id t) (now env) details]))%list.

(** The action the audited router logs for an endpoint. *)
Definition action_of (e : TaskRoutesAudit.Endpoint) : option string :=
  match e with
  | TaskRoutesAudit.POST => Some "CREATE"
  | TaskRoutesAudit.PUT_status => Some "UPDATE"
  | TaskRoutesAudit.DELETE => Some "DELETE"
  | TaskRoutesAudit.GET => None
  end.

(** The task a successful mutation acted on: the one the answer to POST
    carries, new in the collection; the one [req.params.id] designated
    otherwise. *)
Definition affected `{C : Collaborators} (e : TaskRoutesAudit.Endpoint)
    (req : Request) (w : World) (r : Response) (w' : World) (t : Task.doc) : Prop :=
  match e with
  | TaskRoutesAudit.POST =>
      json r = JTask t ∧ tasks w !! Task._id t = None ∧
      tasks w' !! Task._id t = Some t
  | TaskRoutesAudit.PUT_status =>
      Task.findById (params_id req) (tasks w) = Ok (Some t)
  | TaskRoutesAudit.DELETE =>
      Task.findById (params_id req) (tasks w) = Ok (Some t) ∧
      tasks w' !! Task._id t = None
  | TaskRoutesAudit.GET => False
  end.

(** From [w] to [w'] no stored task changed creator. *)
Definition creators_kept (w w' : World) : Prop :=
  ∀ k t t', tasks w !! k = Some t → tasks w' !! k = Some t' →
            Task.createdBy t' = Task.createdBy t.

(** The notifications grew by the one to [recipient], or, if the write of
    the notification failed, not at all. *)
Definition notification_appended (env : Env) (recipient : ObjectId)
    (w w' : World) : Prop :=
  ∃ message,
    notifications w' =
    (notifications w ++
     (if fails env NotificationCreate then []
      else [Notification.mk recipient message (now env)]))%list.

(** The calls to the two sinks. *)
Definition is_sink (ev : Event) : bool :=
  match ev with
  | Called NotificationCreate | Called AuditLogCreate => true
  | _ => false
  end.

(** The write to the Task collection that an endpoint performs. *)
Definition write_of (e : TaskRoutesAudit.Endpoint) : option Op :=
  match e with
  | TaskRoutesAudit.POST | TaskRoutesAudit.PUT_status => Some TaskSave
  | TaskRoutesAudit.DELETE => Some TaskDeleteOne
  | TaskRoutesAudit.GET => None
  end.

Definition is_call (op : Op) (ev : Event) : bool :=
  match ev with
  | Called o => bool_decide (o = op)
  | _ => false
  end.

(** Every call to a sink in [es] comes after a call to [op]; [seen] tells
    whether [op] was called before [es]. *)
Fixpoint sinks_after (op : Op) (seen : bool) (es : list Event) : bool :=
  match es with
  | [] => true
  | ev :: es' =>
      if is_sink ev then seen && sinks_after op seen es'
      else sinks_after op (seen || is_call op ev) es'
  end.

(** Two environments that differ at most in whether the sinks fail. *)
Definition same_store (env1 env2 : Env) : Prop :=
  now env1 = now env2 ∧ fresh_id env1 = fresh_id env2 ∧
  limited env1 = limited env2 ∧
  ∀ op, op ≠ NotificationCreate → op ≠ AuditLogCreate →
        fails env1 op = fails env2 op.

(** A failed call to a sink is followed at once by the [console.error] of
    the helper that made it. *)
Fixpoint swallowed (env : Env) (es : list Event) : bool :=
  match es with
  | [] => true
  | ev :: es' =>
      match ev with
      | Called op =>
          if is_sink ev && fails env op then
            match es' with
            | ConsoleError _ StoreFailure :: _ => swallowed env es'
            | _ => false
            end
          else swallowed env es'
      | _ => swallowed env es'
      end
  end.

(** What holds of the events [es] of one request to an endpoint that writes
    with [op] and answers [r]. *)
Definition effects_ok (env : Env) (op : Op) (w : World)
    (out : Outcome Response * World) : Prop :=
  ∃ r w' es,
    out = (Ok r, w') ∧ trace w' = (trace w ++ es)%list ∧
    sinks_after op false es = true ∧
    (existsb is_sink es = true → success r = true) ∧
    swallowed env es = true.

(** The events [es] of a request to endpoint [e] answered [r]: every call to
    a sink comes after the call that writes to the Task collection, in a
    request answered with success; and a call to a sink that fails is
    followed at once by a [console.error]. *)
Definition after_commit (env : Env) (e : TaskRoutesAudit.Endpoint) (r : Response)
    (es : list Event) : Prop :=
  (∀ i ev, es !! i = Some ev → is_sink ev = true →
     success r = true ∧
     ∃ op j, write_of e = Some op ∧ j < i ∧ es !! j = Some (Called op)) ∧
  (∀ i op, es !! i = Some (Called op) → is_sink (Called op) = true →
     fails env op = true →
     ∃ tag, es !! S i = Some (ConsoleError tag StoreFailure)).

(** The write to the Task collection that a request to endpoint [e] asks
    for is accepted, and leaves the collection [c]. *)
Definition written `{C : Collaborators} (env : Env) (e : TaskRoutesAudit.Endpoint)
    (user : Identity) (req : Request) (w : World) (c : gmap string Task.doc) : Prop :=
  match e with
  | TaskRoutesAudit.POST =>
      ∃ t, Task.save (now env) (new_Task env user (body req)) (tasks w) = (Ok t, c)
  | TaskRoutesAudit.PUT_status =>
      ∃ t t', Task.findById (params_id req) (tasks w) = Ok (Some t) ∧
              Task.save_status (now env) (template (Req.status (body req))) t (tasks w)
              = (Ok t', c)
  | TaskRoutesAudit.DELETE =>
      ∃ t, Task.findById (params_id req) (tasks w) = Ok (Some t) ∧
           c = Task.deleteOne t (tasks w)
  | TaskRoutesAudit.GET => False
  end.

(** From one world to another by runs of the two sinks and nothing else. *)
Inductive fired `{C : Collaborators} (env : Env) : World → World → Prop :=
| fired_done w : fired env w w
| fired_notification u m w w' :
    fired env (notified env u m w) w' → fired env w w'
| fired_audit u a t d w w' :
    fired env (audited env u a t d w) w' → fired env w w'.

(** A request to endpoint [e] that went from [w] to [w'] with events [es]
    and answer [r] committed its write before its side effects. If it was
    answered with success, there is a world [w1] on its way, just after the
    call [op] that writes, in which the write has been accepted and the
    collection is the one it leaves, while no sink has been called yet and
    notifications and audit log are still those of [w]; all that happens
    from [w1] on is the sinks, and the tasks at the end are still those the
    write left. If it was not answered with success, or the endpoint does
    not write, no sink is called and the three collections are those of
    [w]. *)
Definition commits_first `{C : Collaborators} (env : Env) (e : TaskRoutesAudit.Endpoint)
    (user : Identity) (req : Request) (w : World) (r : Response) (w' : World)
    (es : list Event) : Prop :=
  match write_of e with
  | Some op =>
      if success r then
        ∃ c w1 pre post,
          written env e user req w c ∧ fails env op = false ∧
          es = (pre ++ Called op :: post)%list ∧ existsb is_sink pre = false ∧
          trace w1 = (trace w ++ pre ++ [Called op])%list ∧
          tasks w1 = c ∧ notifications w1 = notifications w ∧
          auditLogs w1 = auditLogs w ∧
          fired env w1 w' ∧ tasks w' = c
      else
        existsb is_sink es = false ∧ tasks w' = tasks w ∧
        notifications w' = notifications w ∧ auditLogs w' = auditLogs w
  | None =>
      existsb is_sink es = false ∧ tasks w' = tasks w ∧
      notifications w' = notifications w ∧ auditLogs w' = auditLogs w
  end.

(** ** Vocabulary of the further properties *)

(** Every task is stored under its own [_id], as in a collection. *)
Definition keyed (w : World) : Prop :=
  ∀ k t, tasks w !! k = Some t → Task._id t = k.

(** Every stored task passes the validators that [save()] runs on a loaded
    document. *)
Definition valid_store (w : World) : Prop :=
  ∀ k t, tasks w !! k = Some t → Task.invalid_doc_paths t = [].

(** [pat] occurs somewhere in [s]. *)
Fixpoint occurs (pat s : string) : bool :=
  String.prefix pat s
  || match s with
     | EmptyString => false
     | String _ s' => occurs pat s'
     end.

(** The four collections are the same; only the trace may have grown. *)
Definition unchanged (w w' : World) : Prop :=
  tasks w' = tasks w ∧ users w' = users w ∧
  notifications w' = notifications w ∧ auditLogs w' = auditLogs w.

(** The status codes an endpoint of the audited router can answer with. *)
Definition codes (e : TaskRoutesAudit.Endpoint) : list nat :=
  match e with
  | TaskRoutesAudit.POST => [201; 400; 500]
  | TaskRoutesAudit.GET => [200; 500]
  | TaskRoutesAudit.PUT_status => [200; 400; 403; 404; 500]
  | TaskRoutesAudit.DELETE => [200; 403; 404; 500]
  end.

(** A listing answers, leaves the collections alone, and its code tells
    whether the query rejected. *)
Definition read_only_answer (env : Env) (w : World)
    (out : Outcome Response * World) : Prop :=
  ∃ r w', out = (Ok r, w') ∧ unchanged w w' ∧
          code r = if fails env TaskFind then 500 else 200.

(** Two bodies agree on the four fields POST destructures. *)
Definition same_fields (b b' : Req.body) : Prop :=
  Req.title b' = Req.title b ∧ Req.description b' = Req.description b ∧
  Req.dueDate b' = Req.dueDate b ∧ Req.assignedTo b' = Req.assignedTo b.

(** The endpoint of the first router of src/unnamed/part_002 that an
    endpoint of the second one replaces. *)
Definition plain_endpoint (e : TaskRoutesAudit.Endpoint) : TaskRoutesNotify.Endpoint :=
  match e with
  | TaskRoutesAudit.POST => TaskRoutesNotify.POST
  | TaskRoutesAudit.GET => TaskRoutesNotify.GET
  | TaskRoutesAudit.PUT_status => TaskRoutesNotify.PUT_status
  | TaskRoutesAudit.DELETE => TaskRoutesNotify.DELETE
  end.

(** Two runs give the same answer and agree on tasks, notifications and
    users. *)
Definition same_answer (out out' : Outcome Response * World) : Prop :=
  out.1 = out'.1 ∧ tasks out.2 = tasks out'.2 ∧
  notifications out.2 = notifications out'.2 ∧ users out.2 = users out'.2.

(** A deployment that has already run for a while: an audit log, some
    notifications and a known user. *)
Module DemoJournal.

Definition people : gmap string User.doc :=
  {[ userId Demo.root := User.mk (userId Demo.root) "Root" "root@example.org" ]}.

Definition entry1 : AuditLog.doc :=
  AuditLog.mk (userId Demo.alice) "CREATE" Demo.task1 1600000000000%Z
              "Task 'Write report' created".
Definition entry2 : AuditLog.doc :=
  AuditLog.mk (userId Demo.root) "DELETE" "7a5b00000000000000000009" 1650000000000%Z
              "Task 'Old' deleted".

Definition note1 : Notification.doc :=
  Notification.mk (userId Demo.bob) "You have been assigned a new task: Review"
                  1600000000000%Z.
Definition note2 : Notification.doc :=
  Notification.mk (userId Demo.alice) "You have been assigned a new task: Deploy"
                  1610000000000%Z.
Definition note3 : Notification.doc :=
  Notification.mk (userId Demo.bob) "You have been assigned a new task: Release"
                  1620000000000%Z.

Definition w1 : World :=
  mkWorld {[ Demo.task1 := Demo.t1 ]} people [note1; note2; note3] [entry1; entry2] [].

(** No query rejects. *)
Definition accepts : Query → bool := λ _, false.

End DemoJournal.

(** * Properties *)

(** ** Strings *)

Lemma prefix_app (p s : string) : String.prefix p (p ++ s) = true.
Proof.
  induction p as [|a p IH]; simpl.
  - by destruct s.
  - destruct (Ascii.ascii_dec a a); [exact IH | congruence].
Qed.

Lemma substring_all (s : string) : String.substring 0 (String.length s) s = s.
Proof. induction s as [|b s IH]; simpl; [done | by rewrite IH]. Qed.

Lemma substring_app (p s : string) :
  String.substring (String.length p) (String.length (p ++ s) - String.length p) (p ++ s) = s.
Proof.
  induction p as [|a p IH]; simpl.
  - rewrite Nat.sub_0_r. apply substring_all.
  - exact IH.
Qed.

Lemma replace_unfold (pat rep s : string) :
  replace pat rep s =
  if String.prefix pat s then
    rep ++ String.substring (String.length pat) (String.length s - String.length pat) s
  else match s with
       | EmptyString => EmptyString
       | String c s' => String c (replace pat rep s')
       end.
Proof. by destruct s. Qed.

(** A credential of the form ["Bearer " ++ t] is verified as [t]. *)
Lemma replace_prefix (pat rep s : string) :
  replace pat rep (pat ++ s) = rep ++ s.
Proof. by rewrite replace_unfold, prefix_app, substring_app. Qed.

(** ** Running the monad *)

Ltac unfold_handlers :=
  unfold TaskRoutesAudit.router, TaskRoutesAudit.taskLimiter,
    TaskRoutesAudit.handler,
    TaskRoutesAudit.post, TaskRoutesAudit.get, TaskRoutesAudit.put_status,
    TaskRoutesAudit.delete,
    TaskRoutesNotify.router, TaskRoutesNotify.handler,
    TaskRoutesNotify.post, TaskRoutesNotify.get, TaskRoutesNotify.put_status,
    TaskRoutesNotify.delete,
    TaskRoutes.router, TaskRoutes.handler,
    TaskRoutes.post, TaskRoutes.get, TaskRoutes.put, TaskRoutes.delete,
    authMiddleware, adminMiddleware in *.

Ltac unfold_sinks :=
  unfold TaskRoutesAudit.createNotification, TaskRoutesAudit.logAction,
    TaskRoutesNotify.createNotification in *.

Ltac unfold_calls :=
  unfold Task_save, Task_save_status, Task_findById, Task_deleteOne,
    Task_findByIdAndUpdate, Task_find_all, Task_find_createdBy,
    Notification_create, AuditLog_create, logger_info, console_error,
    call, emit, res_status_json, try_catch, bind, ret in *.

Ltac world_simpl :=
  cbn [fst snd tasks users notifications auditLogs trace code json
       with_tasks with_notifications with_auditLogs with_trace] in *.

(** A closed decidable proposition, by evaluation. *)
Ltac decide_closed := apply (bool_decide_unpack _); vm_compute; exact I.

(** Unfold a handler down to a tree of tests on the world. *)
Ltac run := unfold_handlers; unfold_sinks; unfold_calls; world_simpl.

(** Split on every test of that tree. *)
Ltac cases := repeat (case_match; simplify_eq/=); world_simpl.

(** ** The store operations *)

Module TaskFacts.
Section Facts.
Context `{C : Collaborators}.

Lemma same_but_status_refl t : same_but_status t t.
Proof. by repeat split. Qed.

Lemma set_status_same s now t : same_but_status t (Task.set_status s now t).
Proof. by repeat split. Qed.

Lemma validate_createdBy now d t :
  Task.validate now d = Ok t →
  Task._id t = Task.d_id d ∧ Task.createdBy t = Task.d_createdBy d ∧
  Task.status t = Task.default_status ∧
  Task.assignedTo t = Task.d_assignedTo d ≫= castObjectId.
Proof.
  unfold Task.validate. destruct (Task.invalid_paths d); [|done].
  by intros [= <-].
Qed.

Lemma validate_required now d :
  Task.required_string (Task.d_title d) = false ∨
  Task.required_string (Task.d_description d) = false ∨
  Task.d_dueDate d ≫= castDate = None →
  ∃ ps, Task.validate now d = Throw (ValidationError ps).
Proof.
  unfold Task.validate, Task.invalid_paths.
  intros [Ht | [Hd | Hdue]].
  - rewrite Ht. simpl. eauto.
  - rewrite Hd. destruct (Task.required_string (Task.d_title d)); simpl; eauto.
  - rewrite Hdue.
    destruct (Task.required_string (Task.d_title d)),
      (Task.required_string (Task.d_description d)); simpl; eauto.
Qed.

(** A new document is stored under its own fresh key, next to the others. *)
Lemma save_inv now d c r c' :
  Task.save now d c = (r, c') →
  match r with
  | Ok t => Task.validate now d = Ok t ∧ c !! Task._id t = None ∧ c' = <[Task._id t := t]> c
  | Throw _ => c' = c
  end.
Proof.
  unfold Task.save. intros Hs.
  destruct (Task.validate now d) as [t|e]; [|by simplify_eq].
  destruct (c !! Task._id t) eqn:E; by simplify_eq.
Qed.

(** A status update keeps every key and changes at most [status] and
    [updatedAt] of the document under the key of the loaded one. *)
Lemma save_status_frame now s t c r c' k u :
  Task.save_status now s t c = (r, c') →
  c !! k = Some u →
  ∃ u', c' !! k = Some u' ∧ same_but_status u u'.
Proof.
  unfold Task.save_status. intros Hs Hk.
  destruct (Task.invalid_doc_paths _); [|simplify_eq; eauto using same_but_status_refl].
  destruct (String.eqb _ _); [simplify_eq; eauto using same_but_status_refl|].
  destruct (c !! Task._id t) as [stored|] eqn:Hst;
    simplify_eq; eauto using same_but_status_refl.
  destruct (decide (Task._id t = k)) as [Heq|Hne].
  - rewrite Heq in Hst |- *. rewrite lookup_insert_eq.
    assert (stored = u) as -> by congruence. eauto using set_status_same.
  - rewrite lookup_insert_ne by done. eauto using same_but_status_refl.
Qed.

Lemma save_status_returns now s t c r c' :
  Task.save_status now s t c = (Ok r, c') → same_but_status t r.
Proof.
  unfold Task.save_status. intros Hs.
  repeat case_match; simplify_eq; eauto using same_but_status_refl, set_status_same.
Qed.

Lemma save_status_absent now s t c r c' k :
  Task.save_status now s t c = (r, c') → c !! k = None → c' !! k = None.
Proof.
  unfold Task.save_status. intros Hs Hk.
  repeat case_match; simplify_eq; try done.
  rewrite lookup_insert_ne; [done | congruence].
Qed.

(** A general update without [createdBy] in the body keeps the creator. *)
Lemma apply_update_createdBy now b t t' :
  Task.apply_update now b t = Ok t' →
  Task.createdBy t' = default (Task.createdBy t) (Req.createdBy b ≫= castObjectId).
Proof.
  unfold Task.apply_update, Task.cast_with. intros Hu.
  repeat case_match; simplify_eq/=; try done;
    match goal with E : castObjectId _ = Some _ |- _ => by rewrite E end.
Qed.

Lemma findByIdAndUpdate_frame now id b c r c' k u :
  Task.findByIdAndUpdate now id b c = (r, c') →
  Req.createdBy b = None →
  c !! k = Some u →
  ∃ u', c' !! k = Some u' ∧ Task.createdBy u' = Task.createdBy u.
Proof.
  unfold Task.findByIdAndUpdate. intros Hu Hb Hk.
  repeat case_match; simplify_eq; eauto.
  destruct (decide (k = s)) as [->|Hne].
  - rewrite lookup_insert_eq. simplify_eq. eexists; split; [done|].
    erewrite apply_update_createdBy by done. by rewrite Hb.
  - rewrite lookup_insert_ne by done. eauto.
Qed.

(** [Task.find()] returns the stored documents, each once. *)
Lemma elem_of_find (c : gmap string Task.doc) t :
  t ∈ Task.find c ↔ ∃ k, c !! k = Some t.
Proof.
  unfold Task.find. rewrite list_elem_of_fmap. split.
  - intros ([k t'] & -> & Hin). exists k. by apply elem_of_map_to_list.
  - intros (k & Hk). exists (k, t). split; [done|]. by apply elem_of_map_to_list.
Qed.

Lemma elem_of_find_createdBy (c : gmap string Task.doc) u t :
  t ∈ Task.find_createdBy u c ↔ (∃ k, c !! k = Some t) ∧ Task.createdBy t = u.
Proof.
  unfold Task.find_createdBy. rewrite list_elem_of_filter, elem_of_find. tauto.
Qed.

(** Populating a listing changes no document. *)
Lemma populated_docs (us : gmap string User.doc) (l : list Task.doc) :
  Task.j_doc <$> (Task.populate_assignedTo us <$>
                  (Task.populate_createdBy us <$> (Task.to_json <$> l))) = l.
Proof.
  induction l as [|t l IH]; [done|]. cbn. f_equal. exact IH.
Qed.

Lemma populated_assignedTo_docs (us : gmap string User.doc) (l : list Task.doc) :
  Task.j_doc <$> (Task.populate_assignedTo us <$> (Task.to_json <$> l)) = l.
Proof.
  induction l as [|t l IH]; [done|]. cbn. f_equal. exact IH.
Qed.

End Facts.
End TaskFacts.

(** ** The sinks *)

Section Sinks.
Context `{C : Collaborators} (env : Env).

Lemma createNotification_run u m w :
  TaskRoutesAudit.createNotification env u m w = (Ok tt, notified env u m w).
Proof.
  unfold notified, notification_attempt. run.
  destruct (fails env NotificationCreate); [done|].
  by destruct (castObjectId u).
Qed.

Lemma createNotification_notify_run u m w :
  TaskRoutesNotify.createNotification env u m w = (Ok tt, notified env u m w).
Proof.
  unfold notified, notification_attempt. run.
  destruct (fails env NotificationCreate); [done|].
  by destruct (castObjectId u).
Qed.

Lemma logAction_run u a t d w :
  a ∈ AuditLog.allowed →
  TaskRoutesAudit.logAction env u a t d w = (Ok tt, audited env u a t d w).
Proof.
  intros Ha. unfold audited. run.
  destruct (fails env AuditLogCreate); [done|].
  by rewrite bool_decide_eq_true_2.
Qed.

Lemma notified_tasks u m w : tasks (notified env u m w) = tasks w.
Proof. unfold notified. by destruct (notification_attempt env u). Qed.

Lemma notified_auditLogs u m w : auditLogs (notified env u m w) = auditLogs w.
Proof. unfold notified. by destruct (notification_attempt env u). Qed.

Lemma audited_tasks u a t d w : tasks (audited env u a t d w) = tasks w.
Proof. unfold audited. by destruct (fails env AuditLogCreate). Qed.

Lemma audited_notifications u a t d w :
  notifications (audited env u a t d w) = notifications w.
Proof. unfold audited. by destruct (fails env AuditLogCreate). Qed.

Lemma audited_auditLogs u a t d w :
  auditLogs (audited env u a t d w) =
  (auditLogs w ++ (if fails env AuditLogCreate then []
                   else [AuditLog.mk u a t (now env) d]))%list.
Proof.
  unfold audited. destruct (fails env AuditLogCreate); simpl; [|done].
  by rewrite app_nil_r.
Qed.

End Sinks.

Lemma CREATE_allowed : "CREATE" ∈ AuditLog.allowed.
Proof. decide_closed. Qed.
Lemma UPDATE_allowed : "UPDATE" ∈ AuditLog.allowed.
Proof. decide_closed. Qed.
Lemma DELETE_allowed : "DELETE" ∈ AuditLog.allowed.
Proof. decide_closed. Qed.

(** The ownership test in propositional form. *)
Lemma neither_owner_nor_admin_true t user :
  neither_owner_nor_admin t user = true ↔
  Task.createdBy t ≠ userId user ∧ role user ≠ "admin".
Proof.
  unfold neither_owner_nor_admin.
  rewrite andb_true_iff, !negb_true_iff, !String.eqb_neq. tauto.
Qed.

Lemma neither_owner_nor_admin_false t user :
  neither_owner_nor_admin t user = false ↔
  role user = "admin" ∨ Task.createdBy t = userId user.
Proof.
  unfold neither_owner_nor_admin.
  rewrite andb_false_iff, !negb_false_iff, !String.eqb_eq. tauto.
Qed.

Lemma includes_false l v :
  Task.includes l v = false ↔ ∀ s, v = Some s → s ∉ l.
Proof.
  destruct v as [s|]; simpl.
  - rewrite bool_decide_eq_false. split; [by intros ? ? [= <-] | eauto].
  - split; [by intros _ ? [=] | done].
Qed.

(** ** Authentication *)

Section Authentication.
Context `{C : Collaborators}.

(** A verified credential hands the decoded identity to the route. *)
Lemma authMiddleware_accepts token user next w :
  authenticated token user → authMiddleware token next w = next user w.
Proof.
  intros (s & Hs & Hv). unfold authMiddleware. by rewrite Hs, Hv.
Qed.

(** C5 (amended). A request without credential is answered 401 "Access
    Denied"; a request whose credential fails verification is answered 400
    "Invalid Token". In both cases the route is not run and the world is
    untouched. *)
Theorem authMiddleware_rejects token next w :
  (truthy token ≫= λ s, jwt_verify (replace "Bearer " "" s)) = None →
  authMiddleware token next w =
    (Ok match truthy token with
        | None => mkResponse 401 (JMessage "Access Denied")
        | Some _ => mkResponse 400 (JMessage "Invalid Token")
        end, w).
Proof.
  unfold authMiddleware. destruct (truthy token) as [s|]; simpl; [|done].
  by intros ->.
Qed.

End Authentication.

(** C5, as stated, fails: a credential that does not verify is answered
    400, not 401. *)
Lemma invalid_token_answered_400 :
  @jwt_verify Demo.collaborators (replace "Bearer " "" "Bearer forged") = None ∧
  ∃ r, TaskRoutesAudit.router (C := Demo.collaborators) (Demo.env Demo.never)
         TaskRoutesAudit.GET (mkRequest (Some "Bearer forged") "" (Demo.new_body None))
         Demo.w0 = (Ok r, Demo.w0)
       ∧ code r = 400 ∧ code r ≠ 401.
Proof. split; [reflexivity|]. eexists. split; [reflexivity|]. by split. Qed.

Lemma authMiddleware_rejects_witness :
  (truthy (Some "Bearer forged") ≫=
     λ s, @jwt_verify Demo.collaborators (replace "Bearer " "" s)) = None ∧
  authMiddleware (C := Demo.collaborators) (Some "Bearer forged")
      (λ _, res_status_json 200 (JMessage "next")) Demo.w0 =
    (Ok (mkResponse 400 (JMessage "Invalid Token")), Demo.w0).
Proof.
  split; [reflexivity|].
  apply (authMiddleware_rejects (C := Demo.collaborators) (Some "Bearer forged")).
  reflexivity.
Defined.

(** ** Status validation *)

Section StatusValidation.
Context `{C : Collaborators} (env : Env).

(** C6. Whoever the caller and whatever the id, a status outside the enum
    of the schema is answered 400 "Invalid status update" before the store
    is consulted: tasks, audit log and notifications are as before. (The
    enum member the spec writes InProgress is the string "In Progress".) *)
Theorem invalid_status_rejected user id b w :
  (∀ s, Req.status b = Some s → s ∉ ["Pending"; "In Progress"; "Completed"]) →
  ∃ w', TaskRoutesAudit.put_status env user id b w =
          (Ok (mkResponse 400 (JMessage "Invalid status update")), w')
        ∧ tasks w' = tasks w ∧ auditLogs w' = auditLogs w
        ∧ notifications w' = notifications w
        ∧ ∀ op, Called op ∉ drop (length (trace w)) (trace w').
Proof.
  intros Hs. apply includes_false in Hs. run.
  unfold Task.statuses. rewrite Hs. simpl. eexists. split; [done|].
  repeat split. intros op. simpl. rewrite drop_app_length.
  by intros ?%list_elem_of_singleton.
Qed.

End StatusValidation.

Lemma invalid_status_rejected_witness :
  (∀ s, Req.status (Demo.status_body "Done") = Some s →
        s ∉ ["Pending"; "In Progress"; "Completed"]) ∧
  ∃ w', TaskRoutesAudit.put_status (C := Demo.collaborators) (Demo.env Demo.never)
          Demo.alice Demo.task1 (Demo.status_body "Done") Demo.w0 =
          (Ok (mkResponse 400 (JMessage "Invalid status update")), w')
        ∧ tasks w' = tasks Demo.w0 ∧ auditLogs w' = auditLogs Demo.w0
        ∧ notifications w' = notifications Demo.w0
        ∧ ∀ op, Called op ∉ drop (length (trace Demo.w0)) (trace w').
Proof.
  assert (∀ s, Req.status (Demo.status_body "Done") = Some s →
               s ∉ ["Pending"; "In Progress"; "Completed"]) as Hs.
  { intros s [= <-]. decide_closed. }
  split; [exact Hs|].
  exact (invalid_status_rejected (C := Demo.collaborators) (Demo.env Demo.never)
           Demo.alice Demo.task1 (Demo.status_body "Done") Demo.w0 Hs).
Defined.

(** ** Ownership *)

Section Ownership.
Context `{C : Collaborators} (env : Env).

Local Ltac guard_cases Hn :=
  match goal with
  | |- context [neither_owner_nor_admin ?t ?u] =>
      destruct (neither_owner_nor_admin t u) eqn:Hn
  end;
  [ apply neither_owner_nor_admin_true in Hn as [? ?];
    eexists _, _; split; [reflexivity|]; split; [by intros [=]|done]
  | apply neither_owner_nor_admin_false in Hn;
    cases; eexists _, _; (split; [reflexivity|]); (split; [done|]);
    intros; exfalso; tauto ].

(** C1 (amended). On a task that the lookup finds, a status update and a
    delete succeed only for an admin or for the task's creator. Any other
    caller is answered 403 and the tasks are unchanged, except that a status
    update with a status outside the enum is answered 400 (tasks unchanged
    as well), because the status is validated before the task is loaded. *)
Theorem owner_or_admin_only user id b w t :
  fails env TaskFindById = false →
  Task.findById id (tasks w) = Ok (Some t) →
  guarded user t
    (if Task.includes Task.statuses (Req.status b)
     then mkResponse 403 (JMessage "Unauthorized to update this task")
     else mkResponse 400 (JMessage "Invalid status update"))
    w (TaskRoutesAudit.put_status env user id b w)
  ∧ guarded user t (mkResponse 403 (JMessage "Unauthorized to delete this task"))
      w (TaskRoutesAudit.delete env user id w)
  ∧ guarded user t (mkResponse 403 (JMessage "Unauthorized to delete this task"))
      w (TaskRoutes.delete env user id w).
Proof.
  intros Hf Hfind. unfold guarded. split; [|split].
  - run. destruct (Task.includes Task.statuses (Req.status b)); simpl.
    + rewrite Hf, Hfind. guard_cases Hn.
    + eexists _, _. split; [reflexivity|]. split; [by intros [=]|done].
  - run. rewrite Hf, Hfind. guard_cases Hn.
  - run. rewrite Hf, Hfind. guard_cases Hn.
Qed.

End Ownership.

(** C1, as stated, fails: bob, neither creator nor admin, sends an invalid
    status for alice's task and is answered 400, not 403. *)
Lemma stranger_invalid_status_answered_400 :
  tasks Demo.w0 !! Demo.task1 = Some Demo.t1 ∧
  Task.createdBy Demo.t1 ≠ userId Demo.bob ∧ role Demo.bob ≠ "admin" ∧
  ∃ r w', TaskRoutesAudit.put_status (C := Demo.collaborators) (Demo.env Demo.never)
            Demo.bob Demo.task1 (Demo.status_body "Done") Demo.w0 = (Ok r, w')
          ∧ code r = 400 ∧ code r ≠ 403.
Proof.
  split; [reflexivity|]. split; [discriminate|]. split; [discriminate|].
  eexists _, _. split; [reflexivity|]. by split.
Qed.

Lemma owner_or_admin_only_witness :
  fails (Demo.env Demo.never) TaskFindById = false ∧
  Task.findById (C := Demo.collaborators) Demo.task1 (tasks Demo.w0) = Ok (Some Demo.t1) ∧
  guarded Demo.bob Demo.t1
    (mkResponse 403 (JMessage "Unauthorized to update this task")) Demo.w0
    (TaskRoutesAudit.put_status (C := Demo.collaborators) (Demo.env Demo.never)
       Demo.bob Demo.task1 (Demo.status_body "Completed") Demo.w0).
Proof.
  split; [reflexivity|]. split; [reflexivity|].
  exact (proj1 (owner_or_admin_only (C := Demo.collaborators) (Demo.env Demo.never)
                  Demo.bob Demo.task1 (Demo.status_body "Completed") Demo.w0 Demo.t1
                  eq_refl eq_refl)).
Defined.

(** ** Status updates *)

Section StatusUpdate.
Context `{C : Collaborators} (env : Env).

Lemma status_frame_refl w w' : tasks w' = tasks w → status_frame w w'.
Proof.
  intros Hw. unfold status_frame. rewrite Hw. split; [|done].
  eauto using TaskFacts.same_but_status_refl.
Qed.

Lemma status_frame_save now s t w c r :
  Task.save_status now s t (tasks w) = (r, c) →
  ∀ w', tasks w' = c → status_frame w w'.
Proof.
  intros Hs w' Hw. unfold status_frame. rewrite Hw. split.
  - intros k u Hk. eapply TaskFacts.save_status_frame; eauto.
  - intros k Hk. eapply TaskFacts.save_status_absent; eauto.
Qed.

(** C10. A successful status update changes, in the whole Task collection,
    nothing but [status] and [updatedAt]; the answer carries the loaded task
    with the same change. This holds for the status route of both routers of
    src/unnamed/part_002. *)
Theorem status_update_frame user id b w r w' :
  code r = 200 →
  TaskRoutesAudit.put_status env user id b w = (Ok r, w') ∨
  TaskRoutesNotify.put_status env user id b w = (Ok r, w') →
  status_frame w w' ∧
  ∃ t t', Task.findById id (tasks w) = Ok (Some t) ∧
          json r = JMessageTask "Task status updated" t' ∧
          same_but_status t t' ∧ users w' = users w.
Proof.
  intros Hc [Hr|Hr]; revert Hr; run; intros Hr; cases;
    try discriminate Hc;
    match goal with
    | Hs : Task.save_status _ _ ?t _ = (Ok ?t', _) |- _ =>
        split;
        [ eapply status_frame_save; [exact Hs | reflexivity]
        | exists t, t'; repeat split; try done;
          apply (TaskFacts.save_status_returns _ _ _ _ _ _ Hs) ]
    end.
Qed.

End StatusUpdate.

Lemma status_update_frame_witness :
  let out := TaskRoutesAudit.put_status (C := Demo.collaborators) (Demo.env Demo.never)
               Demo.alice Demo.task1 (Demo.status_body "Completed") Demo.w0 in
  ∃ r w', out = (Ok r, w') ∧ code r = 200 ∧ status_frame Demo.w0 w'.
Proof.
  eexists _, _. split; [reflexivity|]. split; [reflexivity|].
  refine (proj1 (status_update_frame (C := Demo.collaborators) (Demo.env Demo.never)
                   Demo.alice Demo.task1 (Demo.status_body "Completed") _ _ _ _ _)).
  2: left; reflexivity.
  reflexivity.
Defined.

(** ** The mutating handlers of the audited router, step by step *)

Section Steps.
Context `{C : Collaborators} (env : Env).

Lemma post_run user b w :
  TaskRoutesAudit.post env user b w =
  let w1 := logged "POST /api/tasks - Creating a new task" w in
  if negb (TaskRoutesAudit.isEmpty (TaskRoutesAudit.validationResult b)) then
    (Ok (mkResponse 400 (JErrors (TaskRoutesAudit.validationResult b))), w1)
  else
    let w2 := called TaskSave w1 in
    if fails env TaskSave then
      (Ok (mkResponse 500 (JMessageError "Error creating task" StoreFailure)), w2)
    else
      match Task.save (now env) (new_Task env user b) (tasks w) with
      | (Throw e, c) =>
          (Ok (mkResponse 500 (JMessageError "Error creating task" e)), with_tasks c w2)
      | (Ok t, c) =>
          let w3 := match truthy (Req.assignedTo b) with
                    | Some a =>
                        notified env a
                          ("You have been assigned a new task: " ++ template (Req.title b))
                          (with_tasks c w2)
                    | None => with_tasks c w2
                    end in
          (Ok (mkResponse 201 (JTask t)),
           audited env (userId user) "CREATE" (Task._id t)
             ("Task '" ++ template (Req.title b) ++ "' created") w3)
      end.
Proof.
  unfold TaskRoutesAudit.post, called, logged. unfold_calls. world_simpl.
  destruct (negb _); world_simpl; [done|].
  destruct (fails env TaskSave); world_simpl; [done|].
  destruct (Task.save _ _ _) as [[t|e] c]; world_simpl; [|done].
  destruct (truthy (Req.assignedTo b)) as [a|]; world_simpl.
  - rewrite createNotification_run, logAction_run by apply CREATE_allowed. done.
  - rewrite logAction_run by apply CREATE_allowed. done.
Qed.

Lemma put_status_run user id b w :
  TaskRoutesAudit.put_status env user id b w =
  let w1 := logged ("PUT /api/tasks/" ++ id ++ "/status - Updating task status") w in
  let failed e := mkResponse 500 (JMessageError "Error updating task status" e) in
  if negb (Task.includes Task.statuses (Req.status b)) then
    (Ok (mkResponse 400 (JMessage "Invalid status update")), w1)
  else
    let w2 := called TaskFindById w1 in
    if fails env TaskFindById then (Ok (failed StoreFailure), w2)
    else
      match Task.findById id (tasks w) with
      | Throw e => (Ok (failed e), w2)
      | Ok None => (Ok (mkResponse 404 (JMessage "Task not found")), w2)
      | Ok (Some t) =>
          if neither_owner_nor_admin t user then
            (Ok (mkResponse 403 (JMessage "Unauthorized to update this task")), w2)
          else
            let w3 := called TaskSave w2 in
            if fails env TaskSave then (Ok (failed StoreFailure), w3)
            else
              match Task.save_status (now env) (template (Req.status b)) t (tasks w) with
              | (Throw e, c) => (Ok (failed e), with_tasks c w3)
              | (Ok t', c) =>
                  (Ok (mkResponse 200 (JMessageTask "Task status updated" t')),
                   audited env (userId user) "UPDATE" (Task._id t')
                     ("Task status changed to '" ++ template (Req.status b) ++ "'")
                     (with_tasks c w3))
              end
      end.
Proof.
  unfold TaskRoutesAudit.put_status, called, logged. unfold_calls. world_simpl.
  destruct (negb _); world_simpl; [done|].
  destruct (fails env TaskFindById); world_simpl; [done|].
  destruct (Task.findById id (tasks w)) as [[t|]|e]; world_simpl; [|done|done].
  destruct (neither_owner_nor_admin t user); world_simpl; [done|].
  destruct (fails env TaskSave); world_simpl; [done|].
  destruct (Task.save_status _ _ _ _) as [[t'|e] c]; world_simpl; [|done].
  rewrite logAction_run by apply UPDATE_allowed. done.
Qed.

Lemma delete_run user id w :
  TaskRoutesAudit.delete env user id w =
  let w1 := logged ("DELETE /api/tasks/" ++ id ++ " - Deleting a task") w in
  let failed e := mkResponse 500 (JMessageError "Error deleting task" e) in
  let w2 := called TaskFindById w1 in
  if fails env TaskFindById then (Ok (failed StoreFailure), w2)
  else
    match Task.findById id (tasks w) with
    | Throw e => (Ok (failed e), w2)
    | Ok None => (Ok (mkResponse 404 (JMessage "Task not found")), w2)
    | Ok (Some t) =>
        if neither_owner_nor_admin t user then
          (Ok (mkResponse 403 (JMessage "Unauthorized to delete this task")), w2)
        else
          let w3 := called TaskDeleteOne w2 in
          if fails env TaskDeleteOne then (Ok (failed StoreFailure), w3)
          else
            (Ok (mkResponse 200 (JMessage "Task deleted successfully")),
             audited env (userId user) "DELETE" (Task._id t)
               ("Task '" ++ Task.title t ++ "' deleted")
               (with_tasks (Task.deleteOne t (tasks w)) w3))
    end.
Proof.
  unfold TaskRoutesAudit.delete, called, logged. unfold_calls. world_simpl.
  destruct (fails env TaskFindById); world_simpl; [done|].
  destruct (Task.findById id (tasks w)) as [[t|]|e]; world_simpl; [|done|done].
  destruct (neither_owner_nor_admin t user); world_simpl; [done|].
  destruct (fails env TaskDeleteOne); world_simpl; [done|].
  rewrite logAction_run by apply DELETE_allowed. done.
Qed.

End Steps.

(** ** Listing *)

Section Listing.
Context `{C : Collaborators}.

(** A task that POST answers with 201 is stored, and its creator is the
    requester. *)
Lemma post_created env user b w t w' :
  TaskRoutesAudit.post env user b w = (Ok (mkResponse 201 (JTask t)), w') →
  Task.validate (now env) (new_Task env user b) = Ok t ∧
  tasks w !! Task._id t = None ∧
  tasks w' = <[Task._id t := t]> (tasks w).
Proof.
  rewrite post_run. cbv zeta.
  destruct (negb _); [done|].
  destruct (fails env TaskSave); [done|].
  destruct (Task.save _ _ _) as [[t0|e] c] eqn:Hs; [|done].
  intros [= -> <-]. apply TaskFacts.save_inv in Hs as (Hv & Hfresh & ->).
  rewrite audited_tasks.
  destruct (truthy (Req.assignedTo b)); by rewrite ?notified_tasks.
Qed.

(** What both listings answer when the query does not fail. *)
Lemma listing user w (l : list Task.json) :
  l = (if String.eqb (role user) "admin" then
         Task.populate_assignedTo (users w) <$>
           (Task.populate_createdBy (users w) <$> (Task.to_json <$> Task.find (tasks w)))
       else
         Task.populate_assignedTo (users w) <$>
           (Task.to_json <$> Task.find_createdBy (userId user) (tasks w))) →
  ∀ t, t ∈ Task.j_doc <$> l ↔ stored t w ∧ visible_to user t.
Proof.
  intros -> t. unfold stored, visible_to.
  destruct (String.eqb (role user) "admin") eqn:Hr.
  - apply String.eqb_eq in Hr.
    rewrite TaskFacts.populated_docs, TaskFacts.elem_of_find. tauto.
  - apply String.eqb_neq in Hr.
    rewrite TaskFacts.populated_assignedTo_docs, TaskFacts.elem_of_find_createdBy.
    tauto.
Qed.

(** C2. When the query does not fail, GET answers 200 with a list whose
    documents are exactly the stored tasks if the caller's role is "admin",
    and exactly the stored tasks created by the caller otherwise (in the
    audited router and in src/routes/taskRoutes.js alike); the tasks are left
    as they were. Hence a task that [creator] has just created is listed
    for [creator] and for an admin, and for no other caller. *)
Theorem listing_scope env user w :
  fails env TaskFind = false →
  ∃ l w',
    TaskRoutesAudit.get env user w = (Ok (mkResponse 200 (JTasks l)), w') ∧
    (TaskRoutes.get env user w).1 = Ok (mkResponse 200 (JTasks l)) ∧
    tasks w' = tasks w ∧ tasks (TaskRoutes.get env user w).2 = tasks w ∧
    (∀ t, t ∈ Task.j_doc <$> l ↔ stored t w ∧ visible_to user t) ∧
    (∀ env0 creator b w0 t,
       TaskRoutesAudit.post env0 creator b w0 = (Ok (mkResponse 201 (JTask t)), w) →
       t ∈ Task.j_doc <$> l ↔ role user = "admin" ∨ userId creator = userId user).
Proof.
  intros Hf.
  assert (∀ l : list Task.json,
            (∀ t, t ∈ Task.j_doc <$> l ↔ stored t w ∧ visible_to user t) →
          ∀ env0 creator b w0 t,
            TaskRoutesAudit.post env0 creator b w0 = (Ok (mkResponse 201 (JTask t)), w) →
            t ∈ Task.j_doc <$> l ↔ role user = "admin" ∨ userId creator = userId user)
    as Hcreated.
  { intros l Hl env0 creator b w0 t Hp. rewrite Hl.
    apply post_created in Hp as (Hv & _ & Hw).
    apply TaskFacts.validate_createdBy in Hv as (_ & Hc & _).
    unfold stored, visible_to. rewrite Hw, Hc. simpl.
    split; [tauto|]. intros Hvis. split; [|tauto].
    exists (Task._id t). apply lookup_insert_eq. }
  unfold TaskRoutesAudit.get, TaskRoutes.get. unfold_calls.
  destruct (String.eqb (role user) "admin") eqn:Hr; world_simpl; rewrite !Hf;
    eexists _, _; (split; [reflexivity|]); (split; [reflexivity|]);
    (split; [reflexivity|]); (split; [reflexivity|]);
    match goal with
    | |- (∀ t, t ∈ Task.j_doc <$> ?l ↔ _) ∧ _ =>
        assert (∀ t, t ∈ Task.j_doc <$> l ↔ stored t w ∧ visible_to user t) as Hl
          by (apply listing; by rewrite Hr)
    end; split; [exact Hl | by apply Hcreated | exact Hl | by apply Hcreated].
Qed.

End Listing.

Lemma listing_scope_witness :
  fails (Demo.env Demo.never) TaskFind = false ∧
  ∃ l w',
    TaskRoutesAudit.get (Demo.env Demo.never) Demo.bob Demo.w0
      = (Ok (mkResponse 200 (JTasks l)), w') ∧
    ∀ t, t ∈ Task.j_doc <$> l ↔ stored t Demo.w0 ∧ visible_to Demo.bob t.
Proof.
  split; [reflexivity|].
  destruct (listing_scope (C := Demo.collaborators) (Demo.env Demo.never) Demo.bob
              Demo.w0 eq_refl) as (l & w' & Hg & _ & _ & _ & Hl & _).
  exists l, w'. split; [exact Hg | exact Hl].
Defined.

(** ** The audit trail *)

Section AuditTrail.
Context `{C : Collaborators} (env : Env).

Lemma router_run e req w :
  TaskRoutesAudit.router env e req w =
  if limited env then
    (Ok (mkResponse 429 (JText "Too many requests, please try again later")), w)
  else
    match truthy (authorization req) with
    | None => (Ok (mkResponse 401 (JMessage "Access Denied")), w)
    | Some s =>
        match jwt_verify (replace "Bearer " "" s) with
        | Some user => TaskRoutesAudit.handler env e user req w
        | None => (Ok (mkResponse 400 (JMessage "Invalid Token")), w)
        end
    end.
Proof.
  unfold TaskRoutesAudit.router, TaskRoutesAudit.taskLimiter, authMiddleware.
  destruct (limited env); [done|].
  destruct (truthy (authorization req)) as [s|]; [|done].
  by destruct (jwt_verify _).
Qed.

Local Ltac answered := eexists _, _; split; [reflexivity|]; cbn.

Lemma post_audit user b w :
  ∃ r w', TaskRoutesAudit.post env user b w = (Ok r, w') ∧
    if success r then
      ∃ t, json r = JTask t ∧ tasks w !! Task._id t = None ∧
           tasks w' !! Task._id t = Some t ∧ audit_appended env user "CREATE" t w w'
    else auditLogs w' = auditLogs w.
Proof.
  rewrite post_run. cbv zeta.
  destruct (negb _); [by answered|].
  destruct (fails env TaskSave); [by answered|].
  destruct (Task.save _ _ _) as [[t|e] c] eqn:Hs;
    apply TaskFacts.save_inv in Hs; [|by answered].
  destruct Hs as (_ & Hfresh & ->). answered.
  exists t. split; [done|]. split; [done|].
  rewrite audited_tasks. split.
  - destruct (truthy (Req.assignedTo b));
      rewrite ?notified_tasks; apply lookup_insert_eq.
  - eexists. rewrite audited_auditLogs.
    destruct (truthy (Req.assignedTo b)); by rewrite ?notified_auditLogs.
Qed.

Lemma put_status_audit user id b w :
  ∃ r w', TaskRoutesAudit.put_status env user id b w = (Ok r, w') ∧
    if success r then
      ∃ t, Task.findById id (tasks w) = Ok (Some t) ∧
           audit_appended env user "UPDATE" t w w'
    else auditLogs w' = auditLogs w.
Proof.
  rewrite put_status_run. cbv zeta.
  destruct (negb _); [by answered|].
  destruct (fails env TaskFindById); [by answered|].
  destruct (Task.findById id (tasks w)) as [[t|]|e]; [|by answered..].
  destruct (neither_owner_nor_admin t user); [by answered|].
  destruct (fails env TaskSave); [by answered|].
  destruct (Task.save_status _ _ _ _) as [[t'|e] c] eqn:Hs; [|by answered].
  answered. exists t. split; [done|].
  apply TaskFacts.save_status_returns in Hs as (Hid & _).
  eexists. by rewrite audited_auditLogs, Hid.
Qed.

Lemma delete_audit user id w :
  ∃ r w', TaskRoutesAudit.delete env user id w = (Ok r, w') ∧
    if success r then
      ∃ t, Task.findById id (tasks w) = Ok (Some t) ∧
           tasks w' !! Task._id t = None ∧
           audit_appended env user "DELETE" t w w'
    else auditLogs w' = auditLogs w.
Proof.
  rewrite delete_run. cbv zeta.
  destruct (fails env TaskFindById); [by answered|].
  destruct (Task.findById id (tasks w)) as [[t|]|e]; [|by answered..].
  destruct (neither_owner_nor_admin t user); [by answered|].
  destruct (fails env TaskDeleteOne); [by answered|].
  answered. exists t. split; [done|]. rewrite audited_tasks. split.
  - apply lookup_delete_eq.
  - eexists. by rewrite audited_auditLogs.
Qed.

End AuditTrail.

Section AuditTrailClaim.
Context `{C : Collaborators} (env : Env).

(** The routers without audit log never write to it. *)
Lemma unaudited_router e req w :
  auditLogs (TaskRoutes.router env e req w).2 = auditLogs w.
Proof. destruct e; run; cases; done. Qed.

Lemma unaudited_router_notify e req w :
  auditLogs (TaskRoutesNotify.router env e req w).2 = auditLogs w.
Proof. destruct e; run; cases; done. Qed.

(** C3 (amended). In the audited router, a mutation that is answered with
    success appends to the audit log exactly one entry, with the caller, the
    action of the route and the id of the affected task, when the write to
    the audit log succeeds, and leaves the audit log as it was when that
    write fails (the failure is swallowed by [logAction]); a request that is
    not answered with success (rate limit, validation, authentication,
    authorization, not found, store failure) leaves the audit log as it
    was. The routers of
    src/routes/taskRoutes.js and of the first half of src/unnamed/part_002
    write no audit entry at all. *)
Theorem audit_trail e req w :
  (∃ r w', TaskRoutesAudit.router env e req w = (Ok r, w') ∧
     match action_of e with
     | Some action =>
         if success r then
           ∃ user t, authenticated (authorization req) user ∧
                     affected e req w r w' t ∧
                     audit_appended env user action t w w'
         else auditLogs w' = auditLogs w
     | None => auditLogs w' = auditLogs w
     end)
  ∧ (∀ e1, auditLogs (TaskRoutes.router env e1 req w).2 = auditLogs w)
  ∧ (∀ e2, auditLogs (TaskRoutesNotify.router env e2 req w).2 = auditLogs w).
Proof.
  split; [|split; intros; [apply unaudited_router | apply unaudited_router_notify]].
  rewrite router_run.
  destruct (limited env).
  { eexists _, _. split; [done|]. by destruct e. }
  destruct (truthy (authorization req)) as [s|] eqn:Ht.
  2: { eexists _, _. split; [done|]. by destruct e. }
  destruct (jwt_verify _) as [user|] eqn:Hv.
  2: { eexists _, _. split; [done|]. by destruct e. }
  assert (authenticated (authorization req) user) as Hu by (by exists s).
  destruct e; unfold TaskRoutesAudit.handler, action_of, affected.
  - destruct (post_audit env user (body req) w) as (r & w' & -> & Hr).
    exists r, w'. split; [done|]. destruct (success r); [|done].
    destruct Hr as (t & ? & ? & ? & ?). by exists user, t.
  - run. cases; eexists _, _; split; done.
  - destruct (put_status_audit env user (params_id req) (body req) w)
      as (r & w' & -> & Hr).
    exists r, w'. split; [done|]. destruct (success r); [|done].
    destruct Hr as (t & ? & ?). by exists user, t.
  - destruct (delete_audit env user (params_id req) w) as (r & w' & -> & Hr).
    exists r, w'. split; [done|]. destruct (success r); [|done].
    destruct Hr as (t & ? & ? & ?). by exists user, t.
Qed.

End AuditTrailClaim.

(** C3, as stated, fails: alice's POST is answered 201 while the write to
    the audit log fails, and no entry is left. *)
Lemma created_without_audit_entry :
  let out := TaskRoutesAudit.router (C := Demo.collaborators)
               (Demo.env (Demo.only AuditLogCreate)) TaskRoutesAudit.POST
               (mkRequest (Some "Bearer alice.jwt") "" (Demo.new_body None)) Demo.w0 in
  out.1 = Ok (mkResponse 201 (JTask (Demo.created None))) ∧
  tasks out.2 !! Demo.fresh = Some (Demo.created None) ∧
  auditLogs Demo.w0 = [] ∧ auditLogs out.2 = [].
Proof. vm_compute. repeat split. Qed.

(** ** Notifications *)

Section Notifications.
Context `{C : Collaborators} (env : Env).

Lemma validate_assignedTo now d t x :
  Task.validate now d = Ok t → Task.d_assignedTo d = Some x →
  ∃ i, castObjectId x = Some i ∧ Task.assignedTo t = Some i.
Proof.
  unfold Task.validate, Task.invalid_paths. intros Hv Hx. rewrite Hx in Hv.
  destruct (castObjectId x) as [i|] eqn:Hc.
  - exists i. split; [done|].
    destruct (_ ++ _)%list; [|done]. injection Hv as <-. simpl. by rewrite Hc.
  - exfalso. revert Hv. repeat case_match; done.
Qed.

Lemma truthy_Some v x : truthy v = Some x → v = Some x.
Proof. destruct v as [s|]; simpl; [|done]. by destruct (String.eqb s ""); intros [= ->]. Qed.

Lemma notified_notifications a m i w :
  castObjectId a = Some i →
  notifications (notified env a m w) =
  (notifications w ++
   (if fails env NotificationCreate then [] else [Notification.mk i m (now env)]))%list.
Proof.
  intros Hc. unfold notified, notification_attempt. rewrite Hc.
  destruct (fails env NotificationCreate); simpl; [|done]. by rewrite app_nil_r.
Qed.

Lemma post_notify_run user b w :
  TaskRoutesNotify.post env user b w =
  if fails env TaskSave then
    (Ok (mkResponse 500 (JMessageError "Error creating task" StoreFailure)),
     with_trace (trace w ++ [Called TaskSave]) w)
  else
    match Task.save (now env) (new_Task env user b) (tasks w) with
    | (Throw e, c) =>
        (Ok (mkResponse 500 (JMessageError "Error creating task" e)),
         with_tasks c (with_trace (trace w ++ [Called TaskSave]) w))
    | (Ok t, c) =>
        (Ok (mkResponse 201 (JTask t)),
         match truthy (Req.assignedTo b) with
         | Some a =>
             notified env a
               ("You have been assigned a new task: " ++ template (Req.title b))
               (with_tasks c (with_trace (trace w ++ [Called TaskSave]) w))
         | None => with_tasks c (with_trace (trace w ++ [Called TaskSave]) w)
         end)
    end.
Proof.
  unfold TaskRoutesNotify.post. unfold_calls. world_simpl.
  destruct (fails env TaskSave); world_simpl; [done|].
  destruct (Task.save _ _ _) as [[t|e] c]; world_simpl; [|done].
  destruct (truthy (Req.assignedTo b)) as [a|]; world_simpl; [|done].
  by rewrite createNotification_notify_run.
Qed.

(** C8 (amended). A creation answered with success whose body names an
    assignee leaves exactly one new notification, for that assignee, when
    the write of the notification succeeds, and none when it fails (the
    failure is swallowed by [createNotification]); a creation without
    assignee, and a creation that is not answered with success, leave none.
    This holds for both routers of src/unnamed/part_002. *)
Theorem notification_on_assignment user b w out :
  out = TaskRoutesAudit.post env user b w ∨ out = TaskRoutesNotify.post env user b w →
  ∃ r w', out = (Ok r, w') ∧
    if success r then
      match truthy (Req.assignedTo b) with
      | Some x =>
          ∃ t i, json r = JTask t ∧ castObjectId x = Some i ∧
                 Task.assignedTo t = Some i ∧ notification_appended env i w w'
      | None => notifications w' = notifications w
      end
    else notifications w' = notifications w.
Proof.
  assert (∀ t c x w1,
            Task.save (now env) (new_Task env user b) (tasks w) = (Ok t, c) →
            truthy (Req.assignedTo b) = Some x → notifications w1 = notifications w →
            ∃ i, castObjectId x = Some i ∧ Task.assignedTo t = Some i ∧
                 ∀ m, notifications (notified env x m w1) =
                      (notifications w ++
                       (if fails env NotificationCreate then []
                        else [Notification.mk i m (now env)]))%list) as Hnote.
  { intros t c x w1 Hs Hx Hw1. apply TaskFacts.save_inv in Hs as (Hv & _).
    apply truthy_Some in Hx.
    destruct (validate_assignedTo _ _ _ x Hv Hx) as (i & Hc & Ha).
    exists i. split; [done|]. split; [done|]. intros m.
    by rewrite (notified_notifications _ _ i), Hw1. }
  intros [-> | ->].
  - rewrite post_run. cbv zeta.
    destruct (negb _); [by eexists _, _|].
    destruct (fails env TaskSave); [by eexists _, _|].
    destruct (Task.save _ _ _) as [[t|e] c] eqn:Hs; [|by eexists _, _].
    eexists _, _. split; [done|]. cbn. unfold notification_appended.
    destruct (truthy (Req.assignedTo b)) as [x|] eqn:Hx;
      rewrite audited_notifications; [|done].
    edestruct Hnote as (i & Hc & Ha & Hn); [done..| |]; last first.
    { exists t, i. repeat split; try done. eexists. apply Hn. }
    done.
  - rewrite post_notify_run.
    destruct (fails env TaskSave); [by eexists _, _|].
    destruct (Task.save _ _ _) as [[t|e] c] eqn:Hs; [|by eexists _, _].
    eexists _, _. split; [done|]. cbn. unfold notification_appended.
    destruct (truthy (Req.assignedTo b)) as [x|] eqn:Hx; [|done].
    edestruct Hnote as (i & Hc & Ha & Hn); [done..| |]; last first.
    { exists t, i. repeat split; try done. eexists. apply Hn. }
    done.
Qed.

End Notifications.

(** C8, as stated, fails: alice's POST names bob as assignee and is answered
    201 while the write of the notification fails, and no notification is
    left. *)
Lemma assigned_without_notification :
  let out := TaskRoutesAudit.post (C := Demo.collaborators)
               (Demo.env (Demo.only NotificationCreate)) Demo.alice
               (Demo.new_body (Some (userId Demo.bob))) Demo.w0 in
  out.1 = Ok (mkResponse 201 (JTask (Demo.created (Some (userId Demo.bob))))) ∧
  tasks out.2 !! Demo.fresh = Some (Demo.created (Some (userId Demo.bob))) ∧
  notifications Demo.w0 = [] ∧ notifications out.2 = [].
Proof. vm_compute. repeat split. Qed.

Lemma notification_on_assignment_witness :
  ∃ r w', TaskRoutesAudit.post (C := Demo.collaborators) (Demo.env Demo.never)
            Demo.alice (Demo.new_body (Some (userId Demo.bob))) Demo.w0 = (Ok r, w')
        ∧ if success r then
            match truthy (Req.assignedTo (Demo.new_body (Some (userId Demo.bob)))) with
            | Some x =>
                ∃ t i, json r = JTask t ∧
                       @castObjectId Demo.collaborators x = Some i ∧
                       Task.assignedTo t = Some i ∧
                       notification_appended (Demo.env Demo.never) i Demo.w0 w'
            | None => notifications w' = notifications Demo.w0
            end
          else notifications w' = notifications Demo.w0.
Proof.
  exact (notification_on_assignment (C := Demo.collaborators) (Demo.env Demo.never)
           Demo.alice (Demo.new_body (Some (userId Demo.bob))) Demo.w0 _ (or_introl eq_refl)).
Defined.

(** ** Validation of a creation *)

Section CreateValidation.
Context `{C : Collaborators} (env : Env).

Lemma notEmpty_required v :
  TaskRoutesAudit.notEmpty v = Task.required_string v.
Proof. by destruct v. Qed.

Lemma validationResult_nonempty b :
  TaskRoutesAudit.notEmpty (Req.title b) = false ∨
  TaskRoutesAudit.notEmpty (Req.description b) = false ∨
  isISO8601 (TaskRoutesAudit.toString (Req.dueDate b)) = false →
  TaskRoutesAudit.isEmpty (TaskRoutesAudit.validationResult b) = false.
Proof.
  unfold TaskRoutesAudit.validationResult.
  intros [-> | [-> | ->]]; [done| |].
  - by destruct (TaskRoutesAudit.notEmpty (Req.title b)).
  - by destruct (TaskRoutesAudit.notEmpty (Req.title b)),
               (TaskRoutesAudit.notEmpty (Req.description b)).
Qed.

(** C7 (amended). In the router with validators, a creation whose title or
    description is empty or absent, or whose dueDate fails [isISO8601], is
    answered 400 with the validators' messages, and the store is not even
    called. In the router of src/routes/taskRoutes.js, which has no
    validators, a creation whose title or description is empty or absent, or
    whose dueDate the schema cannot cast to a date, is rejected by [save] and
    answered 500 "Error creating task". In both cases no task is
    persisted. *)
Theorem create_validation user b w :
  (TaskRoutesAudit.notEmpty (Req.title b) = false ∨
   TaskRoutesAudit.notEmpty (Req.description b) = false ∨
   isISO8601 (TaskRoutesAudit.toString (Req.dueDate b)) = false →
   ∃ w', TaskRoutesAudit.post env user b w =
           (Ok (mkResponse 400 (JErrors (TaskRoutesAudit.validationResult b))), w')
         ∧ TaskRoutesAudit.validationResult b ≠ []
         ∧ tasks w' = tasks w
         ∧ ∀ op, Called op ∉ drop (length (trace w)) (trace w'))
  ∧
  (TaskRoutesAudit.notEmpty (Req.title b) = false ∨
   TaskRoutesAudit.notEmpty (Req.description b) = false ∨
   Req.dueDate b ≫= castDate = None →
   ∃ e w', TaskRoutes.post env user b w =
             (Ok (mkResponse 500 (JMessageError "Error creating task" e)), w')
           ∧ tasks w' = tasks w).
Proof.
  split.
  - intros Hb. apply validationResult_nonempty in Hb.
    rewrite post_run. cbv zeta. rewrite Hb. simpl.
    eexists. split; [done|]. split; [by destruct (TaskRoutesAudit.validationResult b)|].
    split; [done|]. intros op. simpl. rewrite drop_app_length.
    by intros ?%list_elem_of_singleton.
  - rewrite !notEmpty_required. intros Hb.
    destruct (TaskFacts.validate_required (now env) (new_Task env user b) Hb)
      as (ps & Hv).
    run. destruct (fails env TaskSave); [by eexists _, _|].
    unfold Task.save. rewrite Hv. by eexists _, _.
Qed.

End CreateValidation.

(** C7, as stated, fails: in src/routes/taskRoutes.js a creation with an
    empty title is answered 500, not 400 (nothing is persisted). *)
Lemma empty_title_answered_500 :
  let b := Req.mk (Some "") (Some "Backlog grooming") (Some "2025-01-31")
                  None None None in
  let out := TaskRoutes.post (C := Demo.collaborators) (Demo.env Demo.never)
               Demo.alice b Demo.w0 in
  out.1 = Ok (mkResponse 500
                (JMessageError "Error creating task" (ValidationError ["title"]))) ∧
  tasks out.2 = tasks Demo.w0.
Proof.
  intros b out. split; [vm_compute; reflexivity|].
  apply map_eq. intros k. vm_compute. reflexivity.
Qed.

Lemma create_validation_witness :
  let b := Req.mk (Some "") (Some "Backlog grooming") (Some "2025-01-31")
                  None None None in
  TaskRoutesAudit.notEmpty (Req.title b) = false ∧
  ∃ w', TaskRoutesAudit.post (C := Demo.collaborators) (Demo.env Demo.never)
          Demo.alice b Demo.w0 =
          (Ok (mkResponse 400 (JErrors ["Title is required"])), w')
        ∧ tasks w' = tasks Demo.w0.
Proof.
  intros b. split; [reflexivity|].
  destruct (proj1 (create_validation (C := Demo.collaborators) (Demo.env Demo.never)
                     Demo.alice b Demo.w0) (or_introl eq_refl))
    as (w' & Hp & _ & Hw & _).
  exists w'. split; [exact Hp | exact Hw].
Defined.

(** ** The creator of a task *)

Section Creator.
Context `{C : Collaborators} (env : Env).

Lemma kept_same w w' : tasks w' = tasks w → creators_kept w w'.
Proof. intros Hw k t t' Hk. rewrite Hw, Hk. by intros [= ->]. Qed.

Lemma kept_save now d r c w w' :
  Task.save now d (tasks w) = (r, c) → tasks w' = c → creators_kept w w'.
Proof.
  intros Hs Hw k t t' Hk. rewrite Hw. apply TaskFacts.save_inv in Hs.
  destruct r as [u|e].
  - destruct Hs as (_ & Hfresh & ->).
    rewrite lookup_insert_ne by congruence. rewrite Hk. by intros [= ->].
  - rewrite Hs, Hk. by intros [= ->].
Qed.

Lemma kept_save_status now s u r c w w' :
  Task.save_status now s u (tasks w) = (r, c) → tasks w' = c → creators_kept w w'.
Proof.
  intros Hs Hw k t t' Hk. rewrite Hw.
  destruct (TaskFacts.save_status_frame _ _ _ _ _ _ _ _ Hs Hk)
    as (t'' & -> & _ & _ & _ & _ & _ & Hc & _).
  by intros [= <-].
Qed.

Lemma kept_deleteOne u w w' :
  tasks w' = Task.deleteOne u (tasks w) → creators_kept w w'.
Proof.
  intros Hw k t t' Hk. rewrite Hw. unfold Task.deleteOne.
  intros [_ Hk']%lookup_delete_Some. congruence.
Qed.

Lemma kept_findByIdAndUpdate now id b r c w w' :
  Req.createdBy b = None →
  Task.findByIdAndUpdate now id b (tasks w) = (r, c) → tasks w' = c →
  creators_kept w w'.
Proof.
  intros Hb Hu Hw k t t' Hk. rewrite Hw.
  destruct (TaskFacts.findByIdAndUpdate_frame _ _ _ _ _ _ _ _ Hu Hb Hk)
    as (t'' & -> & Hc).
  by intros [= <-].
Qed.

Local Ltac kept :=
  first [ by apply kept_same
        | by eapply kept_save
        | by eapply kept_save_status
        | by eapply kept_deleteOne ].

Lemma kept_audited e user req w :
  creators_kept w (TaskRoutesAudit.handler env e user req w).2.
Proof. destruct e; run; cases; kept. Qed.

Lemma kept_notify e user req w :
  creators_kept w (TaskRoutesNotify.handler env e user req w).2.
Proof. destruct e; run; cases; kept. Qed.

Lemma kept_plain e user req w :
  (e = TaskRoutes.PUT → Req.createdBy (body req) = None) →
  creators_kept w (TaskRoutes.handler env e user req w).2.
Proof.
  intros Hb. destruct e; run; cases; try kept.
  all: eapply kept_findByIdAndUpdate; [by apply Hb | done | done].
Qed.

Lemma post_plain_created user b w t w' :
  TaskRoutes.post env user b w = (Ok (mkResponse 201 (JTask t)), w') →
  Task.validate (now env) (new_Task env user b) = Ok t ∧
  tasks w !! Task._id t = None ∧
  tasks w' = <[Task._id t := t]> (tasks w).
Proof.
  run. intros Hp. cases.
  match goal with H : Task.save _ _ _ = _ |- _ =>
    by apply TaskFacts.save_inv in H end.
Qed.

(** Where [createdBy] is safe. It is set when the task is created, to the id
    of the authenticated requester, whatever the body says. No handler of the
    two routers of src/unnamed/part_002 changes the [createdBy] of a stored
    task, and neither do POST, GET and DELETE of src/routes/taskRoutes.js;
    its PUT /:id keeps [createdBy] when the body carries no [createdBy]
    field. *)
Lemma createdBy_set_once user req w :
  (∀ t w', TaskRoutesAudit.post env user (body req) w = (Ok (mkResponse 201 (JTask t)), w')
           ∨ TaskRoutes.post env user (body req) w = (Ok (mkResponse 201 (JTask t)), w') →
           Task.createdBy t = userId user ∧ tasks w !! Task._id t = None ∧
           tasks w' !! Task._id t = Some t)
  ∧ (∀ e, creators_kept w (TaskRoutesAudit.handler env e user req w).2)
  ∧ (∀ e, creators_kept w (TaskRoutesNotify.handler env e user req w).2)
  ∧ (∀ e, (e = TaskRoutes.PUT → Req.createdBy (body req) = None) →
          creators_kept w (TaskRoutes.handler env e user req w).2).
Proof.
  split; [|auto using kept_audited, kept_notify, kept_plain].
  intros t w' [Hp | Hp];
    [apply post_created in Hp | apply post_plain_created in Hp];
    destruct Hp as (Hv & Hfresh & ->);
    apply TaskFacts.validate_createdBy in Hv as (_ & Hc & _);
    (split; [exact Hc|]); (split; [exact Hfresh|]); apply lookup_insert_eq.
Qed.

End Creator.

(** C9 (the code departs from it). POST takes only [title], [description],
    [dueDate] and [assignedTo] from the body and sets [createdBy] to the
    requester, but PUT /:id of src/routes/taskRoutes.js hands the whole body
    to [findByIdAndUpdate]: here alice, the creator of a stored task, sends
    [{ createdBy: bob }], is answered 200, and the stored task now has bob as
    creator. *)
Theorem update_overwrites_createdBy :
  let b := Req.mk None None None None None (Some (userId Demo.bob)) in
  let out := TaskRoutes.put (C := Demo.collaborators) (Demo.env Demo.never)
               Demo.alice Demo.task1 b Demo.w0 in
  let t1' := Task.mk Demo.task1 "Write report" "Quarterly numbers" "Pending"
               1738281600000%Z None (userId Demo.bob) 1600000000000%Z 1700000000000%Z in
  tasks Demo.w0 !! Demo.task1 = Some Demo.t1 ∧ Task.createdBy Demo.t1 = (userId Demo.alice) ∧
  out.1 = Ok (mkResponse 200 (JTaskOrNull (Some t1'))) ∧
  tasks out.2 !! Demo.task1 = Some t1' ∧ Task.createdBy t1' = (userId Demo.bob).
Proof. vm_compute. repeat split. Qed.

Example createdBy_kept_without_field :
  let req := mkRequest None Demo.task1 (Demo.status_body "Completed") in
  (TaskRoutes.PUT = TaskRoutes.PUT → Req.createdBy (body req) = None) ∧
  creators_kept Demo.w0
    (TaskRoutes.handler (C := Demo.collaborators) (Demo.env Demo.never) TaskRoutes.PUT
       Demo.alice req Demo.w0).2.
Proof.
  intros req. split; [reflexivity|].
  refine (proj2 (proj2 (proj2
    (createdBy_set_once (C := Demo.collaborators) (Demo.env Demo.never) Demo.alice
       req Demo.w0))) TaskRoutes.PUT _).
  reflexivity.
Defined.

(** ** Order and isolation of the side effects *)

Section SideEffects.
Context `{C : Collaborators}.

Lemma sinks_after_seen op es i ev seen :
  sinks_after op seen es = true →
  es !! i = Some ev → is_sink ev = true →
  seen = true ∨ ∃ j, j < i ∧ es !! j = Some (Called op).
Proof.
  revert i seen. induction es as [|e es IH]; intros i seen Hs Hi Hev; [done|].
  simpl in Hs. destruct i as [|i]; simpl in Hi.
  - injection Hi as ->. rewrite Hev in Hs. left. by destruct seen.
  - destruct (is_sink e) eqn:He.
    + apply andb_true_iff in Hs as [-> _]. by left.
    + destruct (IH i _ Hs Hi Hev) as [Hseen | (j & Hj & Hc)].
      * apply orb_true_iff in Hseen as [-> | Hcall]; [by left|].
        right. exists 0. split; [lia|]. simpl. f_equal.
        destruct e as [o| |]; try done. simpl in Hcall.
        by apply bool_decide_eq_true in Hcall as ->.
      * right. exists (S j). split; [lia | done].
Qed.

(** The executable check implies the order on positions. *)
Lemma sinks_after_order op es :
  sinks_after op false es = true →
  ∀ i ev, es !! i = Some ev → is_sink ev = true →
          ∃ j, j < i ∧ es !! j = Some (Called op).
Proof.
  intros Hs i ev Hi Hev.
  by destruct (sinks_after_seen op es i ev false Hs Hi Hev).
Qed.

End SideEffects.

Section SideEffectsOfHandlers.
Context `{C : Collaborators}.

Lemma swallowed_logged env es i op :
  swallowed env es = true →
  es !! i = Some (Called op) → is_sink (Called op) = true → fails env op = true →
  ∃ tag, es !! S i = Some (ConsoleError tag StoreFailure).
Proof.
  revert i. induction es as [|e es IH]; intros i Hs Hi Hop Hf; [done|].
  destruct i as [|i]; simpl in Hi.
  - injection Hi as ->. simpl in Hs. rewrite Hf in Hs.
    cbn [is_sink] in Hop. simpl. unfold is_sink in Hs. rewrite Hop in Hs. simpl in Hs.
    destruct es as [|[| |tag []] es]; try done. by exists tag.
  - apply (IH i); try done. simpl in Hs.
    destruct e as [o| |]; try done.
    destruct (is_sink (Called o) && fails env o); [|done].
    by destruct es as [|[| |tag []] es].
Qed.

Lemma sink_at es i ev :
  es !! i = Some ev → is_sink ev = true → existsb is_sink es = true.
Proof.
  revert i. induction es as [|e es IH]; intros [|i] Hi Hev; try done; simpl in *.
  - injection Hi as ->. by rewrite Hev.
  - rewrite (IH i) by done. apply orb_true_r.
Qed.

Lemma audited_trace env u a t d w :
  trace (audited env u a t d w) =
  (trace w ++ Called AuditLogCreate ::
     (if fails env AuditLogCreate
      then [ConsoleError "Audit Log Error:" StoreFailure] else []))%list.
Proof.
  unfold audited. destruct (fails env AuditLogCreate); simpl; [|done].
  by rewrite <- app_assoc.
Qed.

Lemma notified_trace env a m w :
  trace (notified env a m w) =
  (trace w ++ Called NotificationCreate ::
     match notification_attempt env a with
     | Ok _ => []
     | Throw e => [ConsoleError "Notification Error:" e]
     end)%list.
Proof.
  unfold notified. destruct (notification_attempt env a); simpl; [done|].
  by rewrite <- app_assoc.
Qed.

(** One leaf of a handler: name its events and evaluate the checks, using
    what is known of the failures and of the casts. *)
Local Ltac known :=
  repeat match goal with
         | H : fails _ _ = _ |- _ => rewrite H
         | H : castObjectId _ = _ |- _ => rewrite H
         end.

Local Ltac leaf :=
  eexists _, _, _; split; [reflexivity|];
  split;
  [ rewrite ?audited_trace, ?notified_trace; unfold notification_attempt;
    known; simpl; rewrite <- ?app_assoc; reflexivity
  | simpl; known; repeat split; (done || (intros; discriminate)) ].

Lemma post_effects env user b w :
  effects_ok env TaskSave w (TaskRoutesAudit.post env user b w).
Proof.
  unfold effects_ok. rewrite post_run. cbv zeta.
  destruct (negb _); [leaf|].
  destruct (fails env TaskSave) eqn:Hs; [leaf|].
  destruct (Task.save _ _ _) as [[t|e] c]; [|leaf].
  destruct (fails env AuditLogCreate) eqn:Ha;
    (destruct (truthy (Req.assignedTo b)) as [a|]; [|leaf]);
    destruct (fails env NotificationCreate) eqn:Hn; [leaf| |leaf|];
    destruct (castObjectId a) eqn:Hc; leaf.
Qed.

Lemma put_status_effects env user id b w :
  effects_ok env TaskSave w (TaskRoutesAudit.put_status env user id b w).
Proof.
  unfold effects_ok. rewrite put_status_run. cbv zeta.
  destruct (negb _); [leaf|].
  destruct (fails env TaskFindById) eqn:Hf; [leaf|].
  destruct (Task.findById id (tasks w)) as [[t|]|e]; [|leaf..].
  destruct (neither_owner_nor_admin t user); [leaf|].
  destruct (fails env TaskSave) eqn:Hs; [leaf|].
  destruct (Task.save_status _ _ _ _) as [[t'|e] c]; [|leaf].
  destruct (fails env AuditLogCreate) eqn:Ha; leaf.
Qed.

Lemma delete_effects env user id w :
  effects_ok env TaskDeleteOne w (TaskRoutesAudit.delete env user id w).
Proof.
  unfold effects_ok. rewrite delete_run. cbv zeta.
  destruct (fails env TaskFindById) eqn:Hf; [leaf|].
  destruct (Task.findById id (tasks w)) as [[t|]|e]; [|leaf..].
  destruct (neither_owner_nor_admin t user); [leaf|].
  destruct (fails env TaskDeleteOne) eqn:Hd; [leaf|].
  destruct (fails env AuditLogCreate) eqn:Ha; leaf.
Qed.

(** A listing calls no sink. *)
Lemma get_effects env user w :
  ∃ r w' es, TaskRoutesAudit.get env user w = (Ok r, w') ∧
             trace w' = (trace w ++ es)%list ∧ existsb is_sink es = false.
Proof.
  run. destruct (String.eqb (role user) "admin"); world_simpl;
    destruct (fails env TaskFind); world_simpl;
    eexists _, _, _; (split; [reflexivity|]); simpl;
    (split; [rewrite <- ?app_assoc; reflexivity | done]).
Qed.

(** The answer and the tasks do not depend on whether the sinks fail. *)
Lemma handler_isolated env env' e user req w :
  same_store env env' →
  (TaskRoutesAudit.handler env e user req w).1 =
  (TaskRoutesAudit.handler env' e user req w).1 ∧
  tasks (TaskRoutesAudit.handler env e user req w).2 =
  tasks (TaskRoutesAudit.handler env' e user req w).2.
Proof.
  intros (Hnow & Hid & _ & Hf). destruct e; unfold TaskRoutesAudit.handler.
  - rewrite !post_run. cbv zeta. unfold new_Task.
    rewrite <- (Hf TaskSave), <- Hnow, <- Hid by done.
    destruct (negb _); [done|].
    destruct (fails env TaskSave); [done|].
    destruct (Task.save _ _ _) as [[t|e] c]; [|done].
    simpl. rewrite !audited_tasks.
    by destruct (truthy (Req.assignedTo (body req))); rewrite ?notified_tasks.
  - run. rewrite <- (Hf TaskFind) by done.
    by destruct (String.eqb (role user) "admin"); world_simpl;
      destruct (fails env TaskFind).
  - rewrite !put_status_run. cbv zeta.
    rewrite <- (Hf TaskFindById), <- (Hf TaskSave), <- Hnow by done.
    destruct (negb _); [done|].
    destruct (fails env TaskFindById); [done|].
    destruct (Task.findById _ _) as [[t|]|e]; [|done..].
    destruct (neither_owner_nor_admin t user); [done|].
    destruct (fails env TaskSave); [done|].
    destruct (Task.save_status _ _ _ _) as [[t'|e] c]; [|done].
    simpl. by rewrite !audited_tasks.
  - rewrite !delete_run. cbv zeta.
    rewrite <- (Hf TaskFindById), <- (Hf TaskDeleteOne) by done.
    destruct (fails env TaskFindById); [done|].
    destruct (Task.findById _ _) as [[t|]|e]; [|done..].
    destruct (neither_owner_nor_admin t user); [done|].
    destruct (fails env TaskDeleteOne); [done|].
    simpl. by rewrite !audited_tasks.
Qed.

End SideEffectsOfHandlers.

Section CommitOfHandlers.
Context `{C : Collaborators} (env : Env).

Lemma fired_tasks w w' : fired env w w' → tasks w' = tasks w.
Proof.
  induction 1 as [w | u m w w' _ IH | u a t d w w' _ IH]; [done| |].
  - by rewrite IH, notified_tasks.
  - by rewrite IH, audited_tasks.
Qed.

Lemma save_status_throw now s t c e c' :
  Task.save_status now s t c = (Throw e, c') → c' = c.
Proof. unfold Task.save_status. intros Hs. by repeat case_match; simplify_eq. Qed.

(** Evaluate [success] on the answer of a leaf. *)
Local Ltac answer_known :=
  match goal with
  | |- context [success ?r] =>
      let b := eval cbv in (success r) in change (success r) with b; cbv iota
  end.

(** One leaf of a handler that answers without success: its events are
    those of the trace, and none is a sink. *)
Local Ltac quiet Ht :=
  answer_known;
  cbn in Ht; rewrite <- ?app_assoc in Ht; apply app_inv_head in Ht; subst;
  by repeat split.

(** One leaf that answers with success: the world at the commit, and the
    sinks from there. *)
Local Ltac loud Ht c w1 pre :=
  answer_known;
  rewrite ?audited_trace, ?notified_trace in Ht; cbn in Ht;
  rewrite <- ?app_assoc in Ht; apply app_inv_head in Ht; subst;
  exists c, w1, pre; eexists;
  split; [by unfold written; eauto|]; split; [done|]; split; [reflexivity|];
  split; [done|]; split; [by cbn; rewrite <- ?app_assoc|];
  split; [done|]; split; [done|]; split; [done|];
  split; [|by rewrite ?audited_tasks, ?notified_tasks].

Lemma post_commits user req w r w' es :
  TaskRoutesAudit.post env user (body req) w = (Ok r, w') →
  trace w' = (trace w ++ es)%list →
  commits_first env TaskRoutesAudit.POST user req w r w' es.
Proof.
  unfold commits_first. cbn [write_of]. rewrite post_run. cbv zeta.
  destruct (negb _); [intros [= <- <-] Ht; quiet Ht|].
  destruct (fails env TaskSave) eqn:Hf; [intros [= <- <-] Ht; quiet Ht|].
  destruct (Task.save _ _ _) as [[t|e] c] eqn:Hs; intros [= <- <-] Ht.
  - destruct (truthy (Req.assignedTo (body req))) as [a|].
    + loud Ht c (with_tasks c (called TaskSave
                   (logged "POST /api/tasks - Creating a new task" w)))
           [LoggerInfo "POST /api/tasks - Creating a new task"].
      eapply fired_notification, fired_audit, fired_done.
    + loud Ht c (with_tasks c (called TaskSave
                   (logged "POST /api/tasks - Creating a new task" w)))
           [LoggerInfo "POST /api/tasks - Creating a new task"].
      eapply fired_audit, fired_done.
  - apply TaskFacts.save_inv in Hs. subst c. quiet Ht.
Qed.

Lemma put_status_commits user req w r w' es :
  TaskRoutesAudit.put_status env user (params_id req) (body req) w = (Ok r, w') →
  trace w' = (trace w ++ es)%list →
  commits_first env TaskRoutesAudit.PUT_status user req w r w' es.
Proof.
  unfold commits_first. cbn [write_of]. rewrite put_status_run. cbv zeta.
  destruct (negb _); [intros [= <- <-] Ht; quiet Ht|].
  destruct (fails env TaskFindById); [intros [= <- <-] Ht; quiet Ht|].
  destruct (Task.findById _ _) as [[t|]|e] eqn:Hf;
    [|intros [= <- <-] Ht; quiet Ht..].
  destruct (neither_owner_nor_admin t user); [intros [= <- <-] Ht; quiet Ht|].
  destruct (fails env TaskSave) eqn:Hfs; [intros [= <- <-] Ht; quiet Ht|].
  destruct (Task.save_status _ _ _ _) as [[t'|e] c] eqn:Hs; intros [= <- <-] Ht.
  - loud Ht c
      (with_tasks c (called TaskSave (called TaskFindById
         (logged ("PUT /api/tasks/" ++ params_id req ++ "/status - Updating task status")
            w))))
      [LoggerInfo ("PUT /api/tasks/" ++ params_id req ++ "/status - Updating task status");
       Called TaskFindById].
    eapply fired_audit, fired_done.
  - apply save_status_throw in Hs. subst c. quiet Ht.
Qed.

Lemma delete_commits user req w r w' es :
  TaskRoutesAudit.delete env user (params_id req) w = (Ok r, w') →
  trace w' = (trace w ++ es)%list →
  commits_first env TaskRoutesAudit.DELETE user req w r w' es.
Proof.
  unfold commits_first. cbn [write_of]. rewrite delete_run. cbv zeta.
  destruct (fails env TaskFindById); [intros [= <- <-] Ht; quiet Ht|].
  destruct (Task.findById _ _) as [[t|]|e] eqn:Hf;
    [|intros [= <- <-] Ht; quiet Ht..].
  destruct (neither_owner_nor_admin t user); [intros [= <- <-] Ht; quiet Ht|].
  destruct (fails env TaskDeleteOne) eqn:Hfs; intros [= <- <-] Ht; [quiet Ht|].
  loud Ht (Task.deleteOne t (tasks w))
    (with_tasks (Task.deleteOne t (tasks w)) (called TaskDeleteOne (called TaskFindById
       (logged ("DELETE /api/tasks/" ++ params_id req ++ " - Deleting a task") w))))
    [LoggerInfo ("DELETE /api/tasks/" ++ params_id req ++ " - Deleting a task");
     Called TaskFindById].
  eapply fired_audit, fired_done.
Qed.

Lemma get_commits user req w r w' es :
  TaskRoutesAudit.get env user w = (Ok r, w') →
  trace w' = (trace w ++ es)%list →
  commits_first env TaskRoutesAudit.GET user req w r w' es.
Proof.
  unfold commits_first. cbn [write_of]. run.
  destruct (String.eqb (role user) "admin"); world_simpl;
    destruct (fails env TaskFind); world_simpl;
    intros [= <- <-] Ht; cbn in Ht; rewrite <- ?app_assoc in Ht;
    apply app_inv_head in Ht; subst; by repeat split.
Qed.

Lemma handler_commits e user req w r w' es :
  TaskRoutesAudit.handler env e user req w = (Ok r, w') →
  trace w' = (trace w ++ es)%list →
  commits_first env e user req w r w' es.
Proof.
  destruct e; unfold TaskRoutesAudit.handler;
    eauto using post_commits, get_commits, put_status_commits, delete_commits.
Qed.

End CommitOfHandlers.

Section SideEffectsClaim.
Context `{C : Collaborators}.

(** C4. For every endpoint of the audited router and every request: a call
    to a sink (notification or audit log) occurs only after the call that
    writes to the Task collection, and only in a request answered with
    success. In such a request the write has been accepted by the store when
    the first sink is called: there is a world just after the writing call
    in which the Task collection is the one the write leaves and no sink has
    run, the rest of the request is the sinks and nothing else, and the
    tasks at the end are still those the write left. A request that is not
    answered with success, because the write was rejected or was never
    reached, calls no sink and leaves tasks, notifications and audit log as
    they were. A sink whose write fails is followed at once by the
    [console.error] of its helper; and neither the answer nor the tasks
    depend on whether the sinks fail. *)
Theorem side_effects_follow_commit env e user req w :
  ∃ r w' es,
    TaskRoutesAudit.handler env e user req w = (Ok r, w') ∧
    trace w' = (trace w ++ es)%list ∧
    after_commit env e r es ∧
    commits_first env e user req w r w' es ∧
    (∀ env', same_store env env' →
       ∃ w2, TaskRoutesAudit.handler env' e user req w = (Ok r, w2) ∧
             tasks w2 = tasks w').
Proof.
  assert (∀ op, write_of e = Some op →
            effects_ok env op w (TaskRoutesAudit.handler env e user req w) →
            ∃ r w' es,
              TaskRoutesAudit.handler env e user req w = (Ok r, w') ∧
              trace w' = (trace w ++ es)%list ∧ after_commit env e r es) as Hwrite.
  { intros op Hop (r & w' & es & Hh & Ht & Hord & Hsucc & Hsw).
    exists r, w', es. split; [done|]. split; [done|]. split.
    - intros i ev Hi Hev. split; [eauto using sink_at|].
      destruct (sinks_after_order op es Hord i ev Hi Hev) as (j & Hj & Hc).
      by exists op, j.
    - intros i o Hi Ho Hf. eauto using swallowed_logged. }
  assert (∃ r w' es,
            TaskRoutesAudit.handler env e user req w = (Ok r, w') ∧
            trace w' = (trace w ++ es)%list ∧ after_commit env e r es)
    as (r & w' & es & Hh & Ht & Hafter).
  { destruct e.
    - apply (Hwrite TaskSave); [done | apply post_effects].
    - destruct (get_effects env user w) as (r & w' & es & Hh & Ht & Hno).
      exists r, w', es. split; [done|]. split; [done|].
      split; intros i ? Hi Hev; apply (sink_at _ _ _ Hi) in Hev; congruence.
    - apply (Hwrite TaskSave); [done | apply put_status_effects].
    - apply (Hwrite TaskDeleteOne); [done | apply delete_effects]. }
  exists r, w', es. repeat (split; [done|]).
  split; [by apply handler_commits|].
  intros env' Hsame.
  destruct (handler_isolated env env' e user req w Hsame) as [Hr Hw].
  rewrite Hh in Hr, Hw. simpl in Hr, Hw.
  destruct (TaskRoutesAudit.handler env' e user req w) as [r2 w2].
  simpl in Hr, Hw. exists w2. by rewrite <- Hr, <- Hw.
Qed.

End SideEffectsClaim.

Lemma sinks_only_differ :
  same_store (Demo.env Demo.never) (Demo.env (Demo.only AuditLogCreate)).
Proof. split; [done|]. split; [done|]. split; [done|]. by intros []. Qed.

Lemma side_effects_follow_commit_witness :
  ∃ r w1 w2,
    TaskRoutesAudit.handler (C := Demo.collaborators) (Demo.env Demo.never)
      TaskRoutesAudit.POST Demo.alice
      (mkRequest None "" (Demo.new_body (Some (userId Demo.bob)))) Demo.w0 = (Ok r, w1) ∧
    TaskRoutesAudit.handler (C := Demo.collaborators)
      (Demo.env (Demo.only AuditLogCreate))
      TaskRoutesAudit.POST Demo.alice
      (mkRequest None "" (Demo.new_body (Some (userId Demo.bob)))) Demo.w0 = (Ok r, w2) ∧
    tasks w2 = tasks w1.
Proof.
  destruct (side_effects_follow_commit (C := Demo.collaborators) (Demo.env Demo.never)
              TaskRoutesAudit.POST Demo.alice
              (mkRequest None "" (Demo.new_body (Some (userId Demo.bob)))) Demo.w0)
    as (r & w1 & es & Hh & _ & _ & _ & Hiso).
  destruct (Hiso _ sinks_only_differ) as (w2 & Hh2 & Hw).
  by exists r, w1, w2.
Defined.

(** A write that the store rejects: the id the driver generated is already
    in use, the save fails, the answer is 500, the task that was there is
    untouched and neither sink is called. *)
Example rejected_write_fires_no_sink :
  let env := mkEnv 1700000000000%Z Demo.task1 false Demo.never in
  let out := TaskRoutesAudit.post (C := Demo.collaborators) env Demo.alice
               (Demo.new_body (Some (userId Demo.bob))) Demo.w0 in
  out.1 = Ok (mkResponse 500
                (JMessageError "Error creating task" (DuplicateKey Demo.task1))) ∧
  tasks out.2 !! Demo.task1 = Some Demo.t1 ∧
  notifications out.2 = [] ∧ auditLogs out.2 = [] ∧
  trace out.2 = [LoggerInfo "POST /api/tasks - Creating a new task"; Called TaskSave].
Proof. vm_compute. repeat split. Qed.

(** ** The scenarios of the specification, run *)

(** An admin deletes a task of alice's: 200, one audit entry for the admin,
    and the task can no longer be found. *)
Example scenario_admin_deletes :
  let out := TaskRoutesAudit.router (C := Demo.collaborators) (Demo.env Demo.never)
               TaskRoutesAudit.DELETE
               (mkRequest (Some "Bearer root.jwt") Demo.task1 (Demo.status_body ""))
               Demo.w0 in
  out.1 = Ok (mkResponse 200 (JMessage "Task deleted successfully")) ∧
  auditLogs out.2 =
    [AuditLog.mk (userId Demo.root) "DELETE" Demo.task1 1700000000000%Z "Task 'Write report' deleted"] ∧
  Task.findById (C := Demo.collaborators) Demo.task1 (tasks out.2) = Ok None.
Proof. vm_compute. repeat split. Qed.

(** Alice sends the status "Done" for her own task: 400, the task keeps its
    status and the audit log stays empty. *)
Example scenario_invalid_status :
  let out := TaskRoutesAudit.router (C := Demo.collaborators) (Demo.env Demo.never)
               TaskRoutesAudit.PUT_status
               (mkRequest (Some "Bearer alice.jwt") Demo.task1 (Demo.status_body "Done"))
               Demo.w0 in
  out.1 = Ok (mkResponse 400 (JMessage "Invalid status update")) ∧
  tasks out.2 !! Demo.task1 = Some Demo.t1 ∧ auditLogs out.2 = [].
Proof. vm_compute. repeat split. Qed.

(** Alice completes her task: 200, the status and [updatedAt] change, one
    audit entry is written, in this order. *)
Example scenario_owner_completes :
  let out := TaskRoutesAudit.router (C := Demo.collaborators) (Demo.env Demo.never)
               TaskRoutesAudit.PUT_status
               (mkRequest (Some "Bearer alice.jwt") Demo.task1 (Demo.status_body "Completed"))
               Demo.w0 in
  let t1' := Task.set_status "Completed" 1700000000000%Z Demo.t1 in
  out.1 = Ok (mkResponse 200 (JMessageTask "Task status updated" t1')) ∧
  tasks out.2 !! Demo.task1 = Some t1' ∧
  auditLogs out.2 =
    [AuditLog.mk (userId Demo.alice) "UPDATE" Demo.task1 1700000000000%Z
       "Task status changed to 'Completed'"] ∧
  trace out.2 =
    [LoggerInfo "PUT /api/tasks/7a5b00000000000000000001/status - Updating task status";
     Called TaskFindById; Called TaskSave; Called AuditLogCreate].
Proof. vm_compute. repeat split. Qed.

(** * Further properties of the code *)

(** ** The credential *)

Lemma replace_absent pat rep s : occurs pat s = false → replace pat rep s = s.
Proof.
  induction s as [|c s IH]; rewrite replace_unfold; simpl.
  - rewrite orb_false_r. by intros ->.
  - intros [Hp Ho]%orb_false_iff. rewrite Hp. by rewrite IH.
Qed.

Section Bearer.
Context `{C : Collaborators}.

(** X1. [token.replace("Bearer ", "")] makes the prefix optional: a token
    that does not contain "Bearer " is treated the same with and without the
    prefix, and what is verified is the bare token. *)
Theorem bearer_prefix_optional t next w :
  occurs "Bearer " t = false → t ≠ "" →
  authMiddleware (Some ("Bearer " ++ t)) next w = authMiddleware (Some t) next w
  ∧ authMiddleware (Some t) next w =
    match jwt_verify t with
    | Some user => next user w
    | None => (Ok (mkResponse 400 (JMessage "Invalid Token")), w)
    end.
Proof.
  intros Ho Ht. unfold authMiddleware.
  assert (truthy (Some t) = Some t) as ->.
  { simpl. destruct (String.eqb_spec t ""); [done|done]. }
  assert (truthy (Some ("Bearer " ++ t)) = Some ("Bearer " ++ t)) as -> by done.
  rewrite replace_prefix, replace_absent by done. simpl.
  split; [done|]. by destruct (jwt_verify t).
Qed.

(** The middleware in front of the read-only routers is the one in front of
    the task routers. *)
Lemma middleware_of_plain token user next rest :
  authMiddleware_of id token next = authMiddleware token next ∧
  adminMiddleware_of id user rest = adminMiddleware user rest.
Proof. done. Qed.

End Bearer.

Lemma bearer_prefix_optional_witness :
  let next := λ user : Identity, ret (mkResponse 200 (JText (userId user))) in
  occurs "Bearer " "alice.jwt" = false ∧ "alice.jwt" ≠ "" ∧
  authMiddleware (C := Demo.collaborators) (Some "Bearer alice.jwt") next Demo.w0 =
    authMiddleware (C := Demo.collaborators) (Some "alice.jwt") next Demo.w0.
Proof.
  intros next. split; [reflexivity|]. split; [discriminate|].
  exact (proj1 (bearer_prefix_optional (C := Demo.collaborators) "alice.jwt" next
                  Demo.w0 eq_refl ltac:(discriminate))).
Defined.

(** ** The store operations, inverted *)

Section StoreInversion.
Context `{C : Collaborators}.

Lemma save_throw now d c e c' : Task.save now d c = (Throw e, c') → c' = c.
Proof. intros Hs. by apply TaskFacts.save_inv in Hs. Qed.

Lemma save_status_inv now s t c r c' :
  Task.save_status now s t c = (r, c') →
  match r with
  | Throw _ => c' = c
  | Ok t' =>
      Task.invalid_doc_paths (Task.set_status s (Task.updatedAt t) t) = [] ∧
      ((Task.status t = s ∧ t' = t ∧ c' = c) ∨
       (Task.status t ≠ s ∧ t' = Task.set_status s now t ∧
        ∃ stored, c !! Task._id t = Some stored ∧
                  c' = <[Task._id t := Task.set_status s now stored]> c))
  end.
Proof.
  unfold Task.save_status. intros Hs.
  destruct (Task.invalid_doc_paths _) as [|p ps]; [|by simplify_eq].
  destruct (String.eqb_spec (Task.status t) s) as [Heq|Hne].
  - simplify_eq. split; [done|]. by left.
  - destruct (c !! Task._id t) as [stored|] eqn:Hst; simplify_eq; [|done].
    split; [done|]. right. eauto.
Qed.

Lemma findByIdAndUpdate_inv now id b c r c' :
  Task.findByIdAndUpdate now id b c = (r, c') →
  match r with
  | Ok (Some t') =>
      ∃ i t, castObjectId id = Some i ∧ c !! i = Some t ∧
             Task.apply_update now b t = Ok t' ∧ c' = <[i := t']> c
  | _ => c' = c
  end.
Proof.
  unfold Task.findByIdAndUpdate. intros Hu.
  destruct (castObjectId id) as [i|]; [|by simplify_eq].
  destruct (c !! i) as [t|] eqn:Hi; [|by simplify_eq].
  destruct (Task.apply_update now b t) as [t'|e] eqn:Ha; simplify_eq; [|done].
  by exists i, t.
Qed.

Lemma apply_update_fields now b t t' :
  Task.apply_update now b t = Ok t' →
  Task._id t' = Task._id t ∧ Task.createdAt t' = Task.createdAt t ∧
  Task.updatedAt t' = now ∧
  Task.title t' = default (Task.title t) (Req.title b) ∧
  Task.description t' = default (Task.description t) (Req.description b) ∧
  Task.status t' = default (Task.status t) (Req.status b) ∧
  (Req.dueDate b = None → Task.dueDate t' = Task.dueDate t) ∧
  (Req.assignedTo b = None → Task.assignedTo t' = Task.assignedTo t) ∧
  (Req.createdBy b = None → Task.createdBy t' = Task.createdBy t).
Proof.
  unfold Task.apply_update, Task.cast_with. intros Hu.
  repeat case_match; simplify_eq/=; repeat split; done.
Qed.

Lemma apply_update_casts now b t t' :
  Task.apply_update now b t = Ok t' →
  (∀ d, Req.dueDate b = Some d → castDate d = Some (Task.dueDate t')) ∧
  (∀ a, Req.assignedTo b = Some a →
        is_Some (castObjectId a) ∧ Task.assignedTo t' = castObjectId a) ∧
  (∀ c, Req.createdBy b = Some c → castObjectId c = Some (Task.createdBy t')).
Proof.
  unfold Task.apply_update, Task.cast_with. intros Hu.
  destruct (Req.dueDate b) as [d|]; [destruct (castDate d) eqn:Ed; [|done]|];
    (destruct (Req.assignedTo b) as [a|];
     [destruct (castObjectId a) eqn:Ea; simpl in Hu; [|done]|]);
    (destruct (Req.createdBy b) as [c|];
     [destruct (castObjectId c) eqn:Ec; [|done]|]);
    injection Hu as <-; simpl; repeat split; intros; simplify_eq; eauto.
Qed.

(** What a validated new document holds. *)
Lemma validate_fields now d t :
  Task.validate now d = Ok t →
  Task._id t = Task.d_id d ∧ Task.status t = "Pending" ∧
  Task.createdBy t = Task.d_createdBy d ∧
  Task.createdAt t = now ∧ Task.updatedAt t = now ∧
  Task.d_title d = Some (Task.title t) ∧ Task.title t ≠ "" ∧
  Task.d_description d = Some (Task.description t) ∧ Task.description t ≠ "" ∧
  Task.d_dueDate d ≫= castDate = Some (Task.dueDate t) ∧
  Task.assignedTo t = Task.d_assignedTo d ≫= castObjectId.
Proof.
  unfold Task.validate, Task.invalid_paths, Task.required_string.
  destruct (Task.d_title d) as [ti|]; [|done].
  destruct (String.eqb ti "") eqn:Eti; [done|].
  destruct (Task.d_description d) as [de|]; [|by destruct ti].
  destruct (String.eqb de "") eqn:Ede; [done|].
  destruct (Task.d_dueDate d ≫= castDate) as [due|]; [|done].
  apply String.eqb_neq in Eti, Ede.
  destruct (Task.d_assignedTo d) as [a|]; simpl.
  - destruct (castObjectId a); [|done]. intros [= <-]. by repeat split.
  - intros [= <-]. by repeat split.
Qed.

Lemma findById_keyed id w t :
  keyed w → Task.findById id (tasks w) = Ok (Some t) →
  castObjectId id = Some (Task._id t) ∧ tasks w !! Task._id t = Some t.
Proof.
  unfold Task.findById. intros Hk Hf.
  destruct (castObjectId id) as [i|]; [|done].
  injection Hf as Hf. by rewrite (Hk _ _ Hf).
Qed.

Lemma save_status_applied now s t c :
  s ∈ Task.statuses → Task.title t ≠ "" → Task.description t ≠ "" →
  c !! Task._id t = Some t →
  let t' := if String.eqb (Task.status t) s then t else Task.set_status s now t in
  Task.save_status now s t c = (Ok t', <[Task._id t := t']> c).
Proof.
  intros Hs Hti Hde Hc. unfold Task.save_status, Task.invalid_doc_paths. simpl.
  apply String.eqb_neq in Hti, Hde. rewrite Hti, Hde, bool_decide_eq_true_2 by done.
  simpl. destruct (String.eqb (Task.status t) s).
  - by rewrite insert_id.
  - by rewrite Hc.
Qed.

End StoreInversion.

(** Bring what is known of the store operations of a run into the form of
    the inversion lemmas. *)
Ltac invert_store :=
  repeat match goal with
         | H : Task.save _ _ _ = (Throw _, _) |- _ => apply save_throw in H
         | H : Task.save _ _ _ = (Ok _, _) |- _ =>
             apply TaskFacts.save_inv in H as (? & ? & ?)
         | H : Task.save_status _ _ _ _ = _ |- _ =>
             apply save_status_inv in H; simpl in H
         | H : Task.findByIdAndUpdate _ _ _ _ = _ |- _ =>
             apply findByIdAndUpdate_inv in H; simpl in H
         end.

(** ** The handlers of the other routers, step by step *)

Section MoreSteps.
Context `{C : Collaborators} (env : Env).

Lemma put_status_notify_run user id b w :
  TaskRoutesNotify.put_status env user id b w =
  let failed e := mkResponse 500 (JMessageError "Error updating task status" e) in
  if negb (Task.includes Task.statuses (Req.status b)) then
    (Ok (mkResponse 400 (JMessage "Invalid status update")), w)
  else
    let w2 := called TaskFindById w in
    if fails env TaskFindById then (Ok (failed StoreFailure), w2)
    else
      match Task.findById id (tasks w) with
      | Throw e => (Ok (failed e), w2)
      | Ok None => (Ok (mkResponse 404 (JMessage "Task not found")), w2)
      | Ok (Some t) =>
          if neither_owner_nor_admin t user then
            (Ok (mkResponse 403 (JMessage "Unauthorized to update this task")), w2)
          else
            let w3 := called TaskSave w2 in
            if fails env TaskSave then (Ok (failed StoreFailure), w3)
            else
              match Task.save_status (now env) (template (Req.status b)) t (tasks w) with
              | (Throw e, c) => (Ok (failed e), with_tasks c w3)
              | (Ok t', c) =>
                  (Ok (mkResponse 200 (JMessageTask "Task status updated" t')),
                   with_tasks c w3)
              end
      end.
Proof.
  unfold TaskRoutesNotify.put_status, called. unfold_calls. world_simpl.
  destruct (negb _); world_simpl; [done|].
  destruct (fails env TaskFindById); world_simpl; [done|].
  destruct (Task.findById id (tasks w)) as [[t|]|e]; world_simpl; [|done|done].
  destruct (neither_owner_nor_admin t user); world_simpl; [done|].
  destruct (fails env TaskSave); world_simpl; [done|].
  by destruct (Task.save_status _ _ _ _) as [[t'|e] c]; world_simpl.
Qed.

Lemma delete_notify_run user id w :
  TaskRoutesNotify.delete env user id w =
  let failed e := mkResponse 500 (JMessageError "Error deleting task" e) in
  let w2 := called TaskFindById w in
  if fails env TaskFindById then (Ok (failed StoreFailure), w2)
  else
    match Task.findById id (tasks w) with
    | Throw e => (Ok (failed e), w2)
    | Ok None => (Ok (mkResponse 404 (JMessage "Task not found")), w2)
    | Ok (Some t) =>
        if neither_owner_nor_admin t user then
          (Ok (mkResponse 403 (JMessage "Unauthorized to delete this task")), w2)
        else
          let w3 := called TaskDeleteOne w2 in
          if fails env TaskDeleteOne then (Ok (failed StoreFailure), w3)
          else
            (Ok (mkResponse 200 (JMessage "Task deleted successfully")),
             with_tasks (Task.deleteOne t (tasks w)) w3)
    end.
Proof.
  unfold TaskRoutesNotify.delete, called. unfold_calls. world_simpl.
  destruct (fails env TaskFindById); world_simpl; [done|].
  destruct (Task.findById id (tasks w)) as [[t|]|e]; world_simpl; [|done|done].
  destruct (neither_owner_nor_admin t user); world_simpl; [done|].
  by destruct (fails env TaskDeleteOne); world_simpl.
Qed.

Lemma put_run user id b w :
  TaskRoutes.put env user id b w =
  let failed e := mkResponse 500 (JMessageError "Error updating task" e) in
  let w2 := called TaskFindById w in
  if fails env TaskFindById then (Ok (failed StoreFailure), w2)
  else
    match Task.findById id (tasks w) with
    | Throw e => (Ok (failed e), w2)
    | Ok None => (Ok (mkResponse 404 (JMessage "Task not found")), w2)
    | Ok (Some t) =>
        if neither_owner_nor_admin t user then
          (Ok (mkResponse 403 (JMessage "Unauthorized to update this task")), w2)
        else
          let w3 := called TaskFindByIdAndUpdate w2 in
          if fails env TaskFindByIdAndUpdate then (Ok (failed StoreFailure), w3)
          else
            match Task.findByIdAndUpdate (now env) id b (tasks w) with
            | (Throw e, c) => (Ok (failed e), with_tasks c w3)
            | (Ok t', c) => (Ok (mkResponse 200 (JTaskOrNull t')), with_tasks c w3)
            end
    end.
Proof.
  unfold TaskRoutes.put, called. unfold_calls. world_simpl.
  destruct (fails env TaskFindById); world_simpl; [done|].
  destruct (Task.findById id (tasks w)) as [[t|]|e]; world_simpl; [|done|done].
  destruct (neither_owner_nor_admin t user); world_simpl; [done|].
  destruct (fails env TaskFindByIdAndUpdate); world_simpl; [done|].
  by destruct (Task.findByIdAndUpdate _ _ _ _) as [[t'|e] c]; world_simpl.
Qed.

Lemma post_notify_created user b w t w' :
  TaskRoutesNotify.post env user b w = (Ok (mkResponse 201 (JTask t)), w') →
  Task.validate (now env) (new_Task env user b) = Ok t ∧
  tasks w !! Task._id t = None ∧
  tasks w' = <[Task._id t := t]> (tasks w).
Proof.
  rewrite post_notify_run.
  destruct (fails env TaskSave); [done|].
  destruct (Task.save _ _ _) as [[t0|e] c] eqn:Hs; [|done].
  intros [= -> <-]. apply TaskFacts.save_inv in Hs as (Hv & Hfresh & ->).
  destruct (truthy (Req.assignedTo b)); by rewrite ?notified_tasks.
Qed.

Lemma audited_users u a t d w : users (audited env u a t d w) = users w.
Proof. unfold audited. by destruct (fails env AuditLogCreate). Qed.

Lemma notified_frame a m w v :
  notifications v = notifications w → tasks v = tasks w → users v = users w →
  tasks (notified env a m v) = tasks (notified env a m w) ∧
  notifications (notified env a m v) = notifications (notified env a m w) ∧
  users (notified env a m v) = users (notified env a m w).
Proof.
  unfold notified. intros Hn Ht Hu.
  destruct (notification_attempt env a); simpl; by rewrite ?Hn, ?Ht, ?Hu.
Qed.

End MoreSteps.

(** ** Requests that are not answered with success *)

Section Atomic.
Context `{C : Collaborators} (env : Env).

(** X2. A request to any endpoint of the three task routers that is not
    answered with success (rate limit, missing or invalid credential,
    validation, not found, forbidden, failure of the store) leaves tasks,
    users, notifications and audit log as they were: nothing is written
    before a check or a store call fails. *)
Theorem failure_changes_nothing req w r w' :
  success r = false →
  (∃ e, TaskRoutesAudit.router env e req w = (Ok r, w')) ∨
  (∃ e, TaskRoutesNotify.router env e req w = (Ok r, w')) ∨
  (∃ e, TaskRoutes.router env e req w = (Ok r, w')) →
  unchanged w w'.
Proof.
  intros Hs [[e Hr] | [[e Hr] | [e Hr]]]; destruct e; revert Hr; run; intros Hr;
    cases; try discriminate Hs; invert_store; subst; done.
Qed.

(** X3. Every handler of the audited router answers, whatever the store
    does: no error escapes its try/catch, and the status code is one of
    those of its endpoint. *)
Theorem answer_codes e user req w :
  ∃ r w', TaskRoutesAudit.handler env e user req w = (Ok r, w') ∧ code r ∈ codes e.
Proof.
  destruct e; unfold TaskRoutesAudit.handler, codes.
  - rewrite post_run. cbv zeta.
    repeat case_match; eexists _, _; (split; [reflexivity|]); simpl; decide_closed.
  - run. repeat case_match; simplify_eq/=; eexists _, _; (split; [reflexivity|]);
      simpl; decide_closed.
  - rewrite put_status_run. cbv zeta.
    repeat case_match; eexists _, _; (split; [reflexivity|]); simpl; decide_closed.
  - rewrite delete_run. cbv zeta.
    repeat case_match; eexists _, _; (split; [reflexivity|]); simpl; decide_closed.
Qed.

(** X4. An id that designates no stored task is answered 404 "Task not
    found" by DELETE, by the status route (once the status passed the enum
    test) and by PUT /:id, whoever the caller is, and nothing changes: the
    lookup comes before the ownership test. *)
Theorem absent_task_not_found user id b w :
  fails env TaskFindById = false →
  Task.findById id (tasks w) = Ok None →
  let not_found := mkResponse 404 (JMessage "Task not found") in
  (∃ w', TaskRoutesAudit.delete env user id w = (Ok not_found, w') ∧ unchanged w w') ∧
  (Task.includes Task.statuses (Req.status b) = true →
   ∃ w', TaskRoutesAudit.put_status env user id b w = (Ok not_found, w')
         ∧ unchanged w w') ∧
  (∃ w', TaskRoutes.delete env user id w = (Ok not_found, w') ∧ unchanged w w') ∧
  (∃ w', TaskRoutes.put env user id b w = (Ok not_found, w') ∧ unchanged w w').
Proof.
  intros Hf Hn not_found. repeat split.
  - rewrite delete_run. cbv zeta. rewrite Hf, Hn. by eexists.
  - intros Hs. rewrite put_status_run. cbv zeta. rewrite Hs, Hf, Hn. by eexists.
  - run. rewrite Hf, Hn. by eexists.
  - rewrite put_run. cbv zeta. rewrite Hf, Hn. by eexists.
Qed.

(** X5. An id that is not an ObjectId makes [findById] reject with a cast
    error, which the catch of the route turns into 500 with the message of
    the route (not 400 and not 404); nothing changes. *)
Theorem malformed_id_answered_500 user id b w :
  fails env TaskFindById = false →
  castObjectId id = None →
  let cast := CastError "_id" id in
  (∃ w', TaskRoutesAudit.delete env user id w =
           (Ok (mkResponse 500 (JMessageError "Error deleting task" cast)), w')
         ∧ unchanged w w') ∧
  (Task.includes Task.statuses (Req.status b) = true →
   ∃ w', TaskRoutesAudit.put_status env user id b w =
           (Ok (mkResponse 500 (JMessageError "Error updating task status" cast)), w')
         ∧ unchanged w w') ∧
  (∃ w', TaskRoutes.put env user id b w =
           (Ok (mkResponse 500 (JMessageError "Error updating task" cast)), w')
         ∧ unchanged w w').
Proof.
  intros Hf Hc cast.
  assert (Task.findById id (tasks w) = Throw cast) as Hn
    by (unfold Task.findById; by rewrite Hc).
  repeat split.
  - rewrite delete_run. cbv zeta. rewrite Hf, Hn. by eexists.
  - intros Hs. rewrite put_status_run. cbv zeta. rewrite Hs, Hf, Hn. by eexists.
  - rewrite put_run. cbv zeta. rewrite Hf, Hn. by eexists.
Qed.

(** X6. GET /api/tasks of the three routers only reads: it answers 200, or
    500 when the query rejects, and tasks, users, notifications and audit
    log are the same afterwards. *)
Theorem listing_read_only user w :
  read_only_answer env w (TaskRoutesAudit.get env user w) ∧
  read_only_answer env w (TaskRoutesNotify.get env user w) ∧
  read_only_answer env w (TaskRoutes.get env user w).
Proof.
  unfold read_only_answer. repeat split; run;
    destruct (String.eqb (role user) "admin"); world_simpl;
    destruct (fails env TaskFind); world_simpl;
    by eexists _, _.
Qed.

End Atomic.

Lemma failure_changes_nothing_witness :
  let req := mkRequest (Some "Bearer bob.jwt") Demo.task1 (Demo.status_body "Completed") in
  let out := TaskRoutesAudit.router (C := Demo.collaborators) (Demo.env Demo.never)
               TaskRoutesAudit.DELETE req Demo.w0 in
  out.1 = Ok (mkResponse 403 (JMessage "Unauthorized to delete this task")) ∧
  unchanged Demo.w0 out.2.
Proof.
  intros req out. split; [reflexivity|].
  apply (failure_changes_nothing (C := Demo.collaborators) (Demo.env Demo.never) req
           Demo.w0 (mkResponse 403 (JMessage "Unauthorized to delete this task")) out.2
           eq_refl).
  left. exists TaskRoutesAudit.DELETE. reflexivity.
Defined.

Lemma absent_task_not_found_witness :
  fails (Demo.env Demo.never) TaskFindById = false ∧
  Task.findById (C := Demo.collaborators) Demo.fresh (tasks Demo.w0) = Ok None ∧
  ∃ w', TaskRoutesAudit.delete (C := Demo.collaborators) (Demo.env Demo.never)
          Demo.bob Demo.fresh Demo.w0
        = (Ok (mkResponse 404 (JMessage "Task not found")), w') ∧ unchanged Demo.w0 w'.
Proof.
  split; [reflexivity|]. split; [reflexivity|].
  exact (proj1 (absent_task_not_found (C := Demo.collaborators) (Demo.env Demo.never)
                  Demo.bob Demo.fresh (Demo.status_body "Completed") Demo.w0
                  eq_refl eq_refl)).
Defined.

Lemma malformed_id_answered_500_witness :
  fails (Demo.env Demo.never) TaskFindById = false ∧
  @castObjectId Demo.collaborators "42" = None ∧
  ∃ w', TaskRoutesAudit.delete (C := Demo.collaborators) (Demo.env Demo.never)
          Demo.alice "42" Demo.w0
        = (Ok (mkResponse 500 (JMessageError "Error deleting task" (CastError "_id" "42"))),
           w') ∧ unchanged Demo.w0 w'.
Proof.
  split; [reflexivity|]. split; [reflexivity|].
  exact (proj1 (malformed_id_answered_500 (C := Demo.collaborators) (Demo.env Demo.never)
                  Demo.alice "42" (Demo.status_body "Completed") Demo.w0
                  eq_refl eq_refl)).
Defined.

(** ** Each task under its own id *)

Section Keyed.
Context `{C : Collaborators} (env : Env).

Lemma keyed_save now d r c w w' :
  Task.save now d (tasks w) = (r, c) → tasks w' = c → keyed w → keyed w'.
Proof.
  unfold keyed. intros Hs -> Hk k u. apply TaskFacts.save_inv in Hs.
  destruct r as [t|e]; [|by rewrite Hs; apply Hk].
  destruct Hs as (_ & _ & ->). rewrite lookup_insert.
  case_decide; [by intros [= <-] | apply Hk].
Qed.

Lemma keyed_save_status now s t r c w w' :
  Task.save_status now s t (tasks w) = (r, c) → tasks w' = c → keyed w → keyed w'.
Proof.
  unfold keyed. intros Hs -> Hk k u Hu.
  destruct (tasks w !! k) as [v|] eqn:Hv.
  - destruct (TaskFacts.save_status_frame _ _ _ _ _ _ _ _ Hs Hv)
      as (u' & Hu' & Hid & _).
    rewrite Hu in Hu'. injection Hu' as <-. rewrite Hid. by apply Hk.
  - by rewrite (TaskFacts.save_status_absent _ _ _ _ _ _ _ Hs Hv) in Hu.
Qed.

Lemma keyed_deleteOne t w w' :
  tasks w' = Task.deleteOne t (tasks w) → keyed w → keyed w'.
Proof.
  unfold keyed, Task.deleteOne. intros -> Hk k u [_ Hu]%lookup_delete_Some.
  by apply Hk.
Qed.

Lemma keyed_findByIdAndUpdate now id b r c w w' :
  Task.findByIdAndUpdate now id b (tasks w) = (r, c) → tasks w' = c →
  keyed w → keyed w'.
Proof.
  unfold keyed. intros Hu -> Hk k u. apply findByIdAndUpdate_inv in Hu.
  destruct r as [[t'|]|e]; try (rewrite Hu; apply Hk).
  destruct Hu as (i & t & _ & Hi & Ha & ->).
  apply apply_update_fields in Ha as (Hid & _).
  rewrite lookup_insert. case_decide; [|apply Hk].
  intros [= <-]. rewrite Hid. subst k. by apply Hk.
Qed.

Local Ltac keyed_leaf Hk :=
  first [ exact Hk
        | by eapply keyed_save
        | by eapply keyed_save_status
        | by eapply keyed_deleteOne
        | by eapply keyed_findByIdAndUpdate ].

(** Every handler of the three routers keeps each task stored under its own
    [_id]. *)
Lemma keyed_kept user req w :
  keyed w →
  (∀ e, keyed (TaskRoutesAudit.handler env e user req w).2) ∧
  (∀ e, keyed (TaskRoutesNotify.handler env e user req w).2) ∧
  (∀ e, keyed (TaskRoutes.handler env e user req w).2).
Proof.
  intros Hk. repeat split; intros e; destruct e; run; cases; keyed_leaf Hk.
Qed.

End Keyed.

Lemma keyed_w0 : keyed Demo.w0.
Proof.
  intros k t. unfold Demo.w0. cbn [tasks].
  intros [<- <-]%lookup_singleton_Some. reflexivity.
Qed.

Lemma keyed_w1 : keyed DemoJournal.w1.
Proof.
  intros k t. unfold DemoJournal.w1. cbn [tasks].
  intros [<- <-]%lookup_singleton_Some. reflexivity.
Qed.

(** ** Creation *)

Section Creation.
Context `{C : Collaborators} (env : Env).

(** X7. POST reads [title], [description], [dueDate] and [assignedTo] of the
    body and nothing else: two bodies that agree on these four fields get the
    same answer and leave the same world, in each of the three routers. A
    [status] or [createdBy] sent with a creation has no effect. *)
Theorem post_reads_four_fields user b b' w :
  same_fields b b' →
  TaskRoutesAudit.post env user b' w = TaskRoutesAudit.post env user b w ∧
  TaskRoutesNotify.post env user b' w = TaskRoutesNotify.post env user b w ∧
  TaskRoutes.post env user b' w = TaskRoutes.post env user b w.
Proof.
  destruct b, b'. intros (? & ? & ? & ?). simpl in *. subst. done.
Qed.

(** X8. The task that a POST answered 201 carries: its id is the one the
    driver generated and was not in use, its status is "Pending", its
    creator is the requester, both timestamps are the time of the request,
    title and description are those of the body and not empty, the due date
    is the cast date of the body; it is stored under its id and the other
    tasks are untouched. *)
Theorem post_creates_pending user b w t w' :
  TaskRoutesAudit.post env user b w = (Ok (mkResponse 201 (JTask t)), w') ∨
  TaskRoutesNotify.post env user b w = (Ok (mkResponse 201 (JTask t)), w') ∨
  TaskRoutes.post env user b w = (Ok (mkResponse 201 (JTask t)), w') →
  (Task._id t = fresh_id env ∧ Task.status t = "Pending" ∧
   Task.createdBy t = userId user ∧
   Task.createdAt t = now env ∧ Task.updatedAt t = now env ∧
   Req.title b = Some (Task.title t) ∧ Task.title t ≠ "" ∧
   Req.description b = Some (Task.description t) ∧ Task.description t ≠ "" ∧
   Req.dueDate b ≫= castDate = Some (Task.dueDate t) ∧
   Task.assignedTo t = Req.assignedTo b ≫= castObjectId) ∧
  tasks w !! fresh_id env = None ∧
  tasks w' = <[fresh_id env := t]> (tasks w).
Proof.
  intros Hp.
  assert (Task.validate (now env) (new_Task env user b) = Ok t ∧
          tasks w !! Task._id t = None ∧
          tasks w' = <[Task._id t := t]> (tasks w)) as (Hv & Hfresh & Hw).
  { destruct Hp as [Hp | [Hp | Hp]];
      eauto using post_created, post_notify_created, post_plain_created. }
  pose proof (validate_fields _ _ _ Hv) as Hf. simpl in Hf.
  destruct Hf as (Hid & Hf). rewrite Hid in Hfresh, Hw.
  by split; [split|].
Qed.

End Creation.

Lemma post_reads_four_fields_witness :
  let b := Demo.new_body None in
  let b' := Req.mk (Some "Plan sprint") (Some "Backlog grooming") (Some "2025-01-31")
                   None (Some "Completed") (Some (userId Demo.bob)) in
  same_fields b b' ∧
  TaskRoutesAudit.post (C := Demo.collaborators) (Demo.env Demo.never) Demo.alice b' Demo.w0
  = TaskRoutesAudit.post (C := Demo.collaborators) (Demo.env Demo.never) Demo.alice b Demo.w0.
Proof.
  intros b b'.
  assert (same_fields b b') as Hs by (repeat split; reflexivity).
  split; [exact Hs|].
  exact (proj1 (post_reads_four_fields (C := Demo.collaborators) (Demo.env Demo.never)
                  Demo.alice b b' Demo.w0 Hs)).
Defined.

Lemma post_creates_pending_witness :
  let out := TaskRoutesAudit.post (C := Demo.collaborators) (Demo.env Demo.never)
               Demo.alice (Demo.new_body None) Demo.w0 in
  out.1 = Ok (mkResponse 201 (JTask (Demo.created None))) ∧
  tasks out.2 = <[Demo.fresh := Demo.created None]> (tasks Demo.w0).
Proof.
  intros out. split; [vm_compute; reflexivity|].
  refine (proj2 (proj2 (post_creates_pending (C := Demo.collaborators)
                          (Demo.env Demo.never) Demo.alice (Demo.new_body None)
                          Demo.w0 (Demo.created None) out.2 _))).
  left. vm_compute. reflexivity.
Defined.

(** ** Updates and deletion *)

Section Updates.
Context `{C : Collaborators} (env : Env).

Lemma owner_or_admin_passes t user :
  role user = "admin" ∨ Task.createdBy t = userId user →
  neither_owner_nor_admin t user = false.
Proof. by intros ?%neither_owner_nor_admin_false. Qed.

Lemma put_status_applied user id b w t s :
  Req.status b = Some s → s ∈ Task.statuses →
  Task.findById id (tasks w) = Ok (Some t) →
  role user = "admin" ∨ Task.createdBy t = userId user →
  Task.title t ≠ "" → Task.description t ≠ "" →
  keyed w →
  fails env TaskFindById = false → fails env TaskSave = false →
  let t' := if String.eqb (Task.status t) s then t
            else Task.set_status s (now env) t in
  let r := mkResponse 200 (JMessageTask "Task status updated" t') in
  ∃ w', TaskRoutesAudit.put_status env user id b w = (Ok r, w') ∧
        tasks w' = <[Task._id t := t']> (tasks w).
Proof.
  intros Hb Hs Hf Ho Hti Hde Hk Hf1 Hf2 t' r.
  destruct (findById_keyed _ _ _ Hk Hf) as [_ Hc].
  pose proof (save_status_applied (now env) s t (tasks w) Hs Hti Hde Hc) as Hsave.
  cbv zeta in Hsave. fold t' in Hsave.
  apply owner_or_admin_passes in Ho.
  assert (Task.includes Task.statuses (Req.status b) = true) as Hi
    by (rewrite Hb; by apply bool_decide_eq_true_2).
  rewrite put_status_run. cbv zeta. rewrite Hi, Hf1, Hf, Ho, Hf2, Hb. simpl.
  rewrite Hsave. eexists. split; [reflexivity|]. by rewrite audited_tasks.
Qed.

Lemma put_status_notify_applied user id b w t s :
  Req.status b = Some s → s ∈ Task.statuses →
  Task.findById id (tasks w) = Ok (Some t) →
  role user = "admin" ∨ Task.createdBy t = userId user →
  Task.title t ≠ "" → Task.description t ≠ "" →
  keyed w →
  fails env TaskFindById = false → fails env TaskSave = false →
  let t' := if String.eqb (Task.status t) s then t
            else Task.set_status s (now env) t in
  let r := mkResponse 200 (JMessageTask "Task status updated" t') in
  ∃ w', TaskRoutesNotify.put_status env user id b w = (Ok r, w') ∧
        tasks w' = <[Task._id t := t']> (tasks w).
Proof.
  intros Hb Hs Hf Ho Hti Hde Hk Hf1 Hf2 t' r.
  destruct (findById_keyed _ _ _ Hk Hf) as [_ Hc].
  pose proof (save_status_applied (now env) s t (tasks w) Hs Hti Hde Hc) as Hsave.
  cbv zeta in Hsave. fold t' in Hsave.
  apply owner_or_admin_passes in Ho.
  assert (Task.includes Task.statuses (Req.status b) = true) as Hi
    by (rewrite Hb; by apply bool_decide_eq_true_2).
  rewrite put_status_notify_run. cbv zeta. rewrite Hi, Hf1, Hf, Ho, Hf2, Hb. simpl.
  rewrite Hsave. by eexists.
Qed.

(** X9. The status route succeeds for whoever may use it: when the creator
    of a stored task, or an admin, sends a status of the enum and the store
    does not fail, both routers of src/unnamed/part_002 answer 200 with the
    task, now with that status and [updatedAt] at the time of the request,
    and this is the task stored under the id. When the task already had the
    status it is answered and left as it was, [updatedAt] included. *)
Theorem status_update_applied user id b w t s :
  Req.status b = Some s → s ∈ Task.statuses →
  Task.findById id (tasks w) = Ok (Some t) →
  role user = "admin" ∨ Task.createdBy t = userId user →
  Task.title t ≠ "" → Task.description t ≠ "" →
  keyed w →
  fails env TaskFindById = false → fails env TaskSave = false →
  let t' := if String.eqb (Task.status t) s then t
            else Task.set_status s (now env) t in
  let r := mkResponse 200 (JMessageTask "Task status updated" t') in
  (∃ w', TaskRoutesAudit.put_status env user id b w = (Ok r, w') ∧
         tasks w' = <[Task._id t := t']> (tasks w)) ∧
  (∃ w', TaskRoutesNotify.put_status env user id b w = (Ok r, w') ∧
         tasks w' = <[Task._id t := t']> (tasks w)).
Proof.
  intros. split; [by apply put_status_applied | by apply put_status_notify_applied].
Qed.

(** X10. After a DELETE answered with success the task is gone and only it:
    the collection is the former one without the id of the request, and a
    lookup of that id finds nothing (so that the next request for it is
    answered 404). *)
Theorem delete_then_not_found user id w r w' :
  keyed w → success r = true →
  TaskRoutesAudit.delete env user id w = (Ok r, w') ∨
  TaskRoutesNotify.delete env user id w = (Ok r, w') ∨
  TaskRoutes.delete env user id w = (Ok r, w') →
  (∃ i, castObjectId id = Some i ∧ is_Some (tasks w !! i) ∧
        tasks w' = delete i (tasks w)) ∧
  Task.findById id (tasks w') = Ok None.
Proof.
  intros Hk Hs Hd.
  assert (∃ t, Task.findById id (tasks w) = Ok (Some t) ∧
               tasks w' = Task.deleteOne t (tasks w)) as (t & Hf & Hw).
  { destruct Hd as [Hd | [Hd | Hd]]; revert Hd; run; intros Hd; cases;
      try discriminate Hs; eauto. }
  destruct (findById_keyed _ _ _ Hk Hf) as [Hc Ht].
  unfold Task.deleteOne in Hw.
  split.
  - exists (Task._id t). by rewrite Ht.
  - unfold Task.findById. by rewrite Hc, Hw, lookup_delete_eq.
Qed.

(** X11. What PUT /:id of src/routes/taskRoutes.js does when it answers
    with success, for a body whose fields are strings or absent and whose
    [dueDate] is not the empty string: the caller is the creator or an
    admin, the answer is 200 with the updated task, which replaces the
    stored one; [_id] and [createdAt] are kept, [updatedAt] is the time of
    the request, title, description and status are those of the body where
    it has them, [dueDate], [assignedTo] and [createdBy] are the casts of
    those of the body where it has them, and a field the body does not have
    is kept. *)
Theorem put_applies_body user id b w r w' :
  Req.dueDate b ≠ Some "" →
  TaskRoutes.put env user id b w = (Ok r, w') → success r = true →
  ∃ i t t',
    castObjectId id = Some i ∧ tasks w !! i = Some t ∧
    (role user = "admin" ∨ Task.createdBy t = userId user) ∧
    r = mkResponse 200 (JTaskOrNull (Some t')) ∧
    tasks w' = <[i := t']> (tasks w) ∧
    Task._id t' = Task._id t ∧ Task.createdAt t' = Task.createdAt t ∧
    Task.updatedAt t' = now env ∧
    Task.title t' = default (Task.title t) (Req.title b) ∧
    Task.description t' = default (Task.description t) (Req.description b) ∧
    Task.status t' = default (Task.status t) (Req.status b) ∧
    (Req.dueDate b = None → Task.dueDate t' = Task.dueDate t) ∧
    (Req.assignedTo b = None → Task.assignedTo t' = Task.assignedTo t) ∧
    (Req.createdBy b = None → Task.createdBy t' = Task.createdBy t) ∧
    (∀ d, Req.dueDate b = Some d → castDate d = Some (Task.dueDate t')) ∧
    (∀ a, Req.assignedTo b = Some a →
          is_Some (castObjectId a) ∧ Task.assignedTo t' = castObjectId a) ∧
    (∀ c, Req.createdBy b = Some c → castObjectId c = Some (Task.createdBy t')).
Proof.
  intros _. rewrite put_run. cbv zeta. intros Hp Hs.
  destruct (fails env TaskFindById); [by simplify_eq|].
  unfold Task.findById, Task.findByIdAndUpdate in Hp.
  destruct (castObjectId id) as [i|]; [|by simplify_eq].
  destruct (tasks w !! i) as [t|] eqn:Ht; [|by simplify_eq].
  destruct (neither_owner_nor_admin t user) eqn:Ho; [by simplify_eq|].
  destruct (fails env TaskFindByIdAndUpdate); [by simplify_eq|].
  destruct (Task.apply_update (now env) b t) as [t'|e] eqn:Hu; [|by simplify_eq].
  injection Hp as <- <-. exists i, t, t'.
  apply neither_owner_nor_admin_false in Ho.
  pose proof (apply_update_casts _ _ _ _ Hu) as (Hd & Ha & Hc).
  apply apply_update_fields in Hu.
  destruct Hu as (? & ? & ? & ? & ? & ? & ? & ? & ?).
  by repeat (split; [done|]).
Qed.

(** X12. PUT /:id of src/routes/taskRoutes.js runs no validator:
    [findByIdAndUpdate] is called without [runValidators], so for the
    creator or an admin any title, description and status of the body, an
    empty one or a status outside the enum included, is stored as it is and
    answered 200. *)
Theorem put_skips_validators user id b w t :
  Task.findById id (tasks w) = Ok (Some t) →
  role user = "admin" ∨ Task.createdBy t = userId user →
  Req.dueDate b = None → Req.assignedTo b = None → Req.createdBy b = None →
  fails env TaskFindById = false → fails env TaskFindByIdAndUpdate = false →
  let t' := Task.mk (Task._id t) (default (Task.title t) (Req.title b))
              (default (Task.description t) (Req.description b))
              (default (Task.status t) (Req.status b))
              (Task.dueDate t) (Task.assignedTo t) (Task.createdBy t)
              (Task.createdAt t) (now env) in
  ∃ i w', castObjectId id = Some i ∧
    TaskRoutes.put env user id b w = (Ok (mkResponse 200 (JTaskOrNull (Some t'))), w') ∧
    tasks w' = <[i := t']> (tasks w).
Proof.
  intros Hf Ho Hd Ha Hc Hf1 Hf2 t'.
  apply neither_owner_nor_admin_false in Ho.
  rewrite put_run. cbv zeta. rewrite Hf1, Hf, Ho, Hf2.
  unfold Task.findById in Hf. unfold Task.findByIdAndUpdate.
  destruct (castObjectId id) as [i|]; [|done]. injection Hf as Hf. rewrite Hf.
  unfold Task.apply_update. rewrite Hd, Ha, Hc. simpl.
  by exists i; eexists.
Qed.

Lemma valid_insert i t w w' :
  valid_store w → Task.invalid_doc_paths t = [] →
  tasks w' = <[i := t]> (tasks w) → valid_store w'.
Proof.
  intros Hv Ht Hw k u. rewrite Hw, lookup_insert. case_decide; [|apply Hv].
  by intros [= <-].
Qed.

Lemma validate_valid now d t :
  Task.validate now d = Ok t → Task.invalid_doc_paths t = [].
Proof.
  intros (_ & Hs & _ & _ & _ & _ & Hti & _ & Hde & _)%validate_fields.
  unfold Task.invalid_doc_paths. apply String.eqb_neq in Hti, Hde.
  by rewrite Hti, Hde, Hs.
Qed.

Lemma set_status_valid s now now' t u :
  Task.invalid_doc_paths (Task.set_status s now t) = [] →
  Task.invalid_doc_paths u = [] →
  Task.invalid_doc_paths (Task.set_status s now' u) = [].
Proof.
  unfold Task.invalid_doc_paths. simpl. intros Ht Hu.
  destruct (String.eqb (Task.title u) ""); [done|].
  destruct (String.eqb (Task.description u) ""); [done|].
  destruct (bool_decide (s ∈ Task.statuses)); [done|]. simpl in *.
  by repeat case_match.
Qed.

Lemma valid_save now d r c w w' :
  Task.save now d (tasks w) = (r, c) → tasks w' = c → valid_store w → valid_store w'.
Proof.
  intros Hs Hw Hv. apply TaskFacts.save_inv in Hs. destruct r as [t|e].
  - destruct Hs as (Hval & _ & ->). eauto using valid_insert, validate_valid.
  - subst c. intros k u. rewrite Hw. apply Hv.
Qed.

Lemma valid_save_status now s t r c w w' :
  Task.save_status now s t (tasks w) = (r, c) → tasks w' = c →
  valid_store w → valid_store w'.
Proof.
  intros Hs Hw Hv. apply save_status_inv in Hs. destruct r as [t'|e].
  - destruct Hs as (Hval & [(_ & _ & ->) | (_ & _ & stored & Hst & ->)]).
    + intros k u. rewrite Hw. apply Hv.
    + eapply valid_insert; [done| |done]. eauto using set_status_valid.
  - subst c. intros k u. rewrite Hw. apply Hv.
Qed.

Lemma valid_deleteOne t w w' :
  tasks w' = Task.deleteOne t (tasks w) → valid_store w → valid_store w'.
Proof.
  intros Hw Hv k u. rewrite Hw. unfold Task.deleteOne.
  intros [_ Hu]%lookup_delete_Some. by eapply Hv.
Qed.

Local Ltac valid_leaf Hv :=
  first [ exact Hv
        | by eapply valid_save
        | by eapply valid_save_status
        | by eapply valid_deleteOne ].

(** X13. The routers of src/unnamed/part_002 keep the schema: if every
    stored task has a title, a description and a status of the enum, this is
    still so after any request to any of their endpoints, whatever the
    answer. PUT /:id of src/routes/taskRoutes.js, which
    runs no validator, is not among them. *)
Theorem schema_kept user req w :
  valid_store w →
  (∀ e, valid_store (TaskRoutesAudit.handler env e user req w).2) ∧
  (∀ e, valid_store (TaskRoutesNotify.handler env e user req w).2).
Proof.
  intros Hv. split; intros e; destruct e; run; cases; valid_leaf Hv.
Qed.

End Updates.

Lemma valid_w0 : valid_store Demo.w0.
Proof.
  intros k t. unfold Demo.w0. cbn [tasks].
  intros [<- <-]%lookup_singleton_Some. reflexivity.
Qed.

Lemma status_update_applied_witness :
  let t' := Task.set_status "Completed" 1700000000000%Z Demo.t1 in
  ∃ w', TaskRoutesAudit.put_status (C := Demo.collaborators) (Demo.env Demo.never)
          Demo.alice Demo.task1 (Demo.status_body "Completed") Demo.w0
        = (Ok (mkResponse 200 (JMessageTask "Task status updated" t')), w') ∧
        tasks w' = <[Demo.task1 := t']> (tasks Demo.w0).
Proof.
  intros t'.
  refine (proj1 (status_update_applied (C := Demo.collaborators) (Demo.env Demo.never)
                   Demo.alice Demo.task1 (Demo.status_body "Completed") Demo.w0 Demo.t1
                   "Completed" eq_refl _ eq_refl (or_intror eq_refl) _ _ keyed_w0
                   eq_refl eq_refl)).
  - decide_closed.
  - discriminate.
  - discriminate.
Defined.

Lemma delete_then_not_found_witness :
  let out := TaskRoutesAudit.delete (C := Demo.collaborators) (Demo.env Demo.never)
               Demo.root Demo.task1 Demo.w0 in
  out.1 = Ok (mkResponse 200 (JMessage "Task deleted successfully")) ∧
  Task.findById (C := Demo.collaborators) Demo.task1 (tasks out.2) = Ok None.
Proof.
  intros out. split; [vm_compute; reflexivity|].
  refine (proj2 (delete_then_not_found (C := Demo.collaborators) (Demo.env Demo.never)
                   Demo.root Demo.task1 Demo.w0
                   (mkResponse 200 (JMessage "Task deleted successfully")) out.2
                   keyed_w0 eq_refl _)).
  left. vm_compute. reflexivity.
Defined.

Lemma put_applies_body_witness :
  let out := TaskRoutes.put (C := Demo.collaborators) (Demo.env Demo.never)
               Demo.alice Demo.task1 (Demo.status_body "Completed") Demo.w0 in
  Req.dueDate (Demo.status_body "Completed") ≠ Some "" ∧
  ∃ r, out.1 = Ok r ∧ success r = true ∧
    ∃ i t t', tasks Demo.w0 !! i = Some t ∧ tasks out.2 = <[i := t']> (tasks Demo.w0) ∧
              Task.status t' = "Completed" ∧ Task.createdBy t' = Task.createdBy t.
Proof.
  intros out. split; [discriminate|].
  exists (mkResponse 200 (JTaskOrNull
            (Some (Task.set_status "Completed" 1700000000000%Z Demo.t1)))).
  split; [vm_compute; reflexivity|]. split; [reflexivity|].
  destruct (put_applies_body (C := Demo.collaborators) (Demo.env Demo.never)
              Demo.alice Demo.task1 (Demo.status_body "Completed") Demo.w0
              (mkResponse 200 (JTaskOrNull
                 (Some (Task.set_status "Completed" 1700000000000%Z Demo.t1))))
              out.2 ltac:(discriminate) ltac:(vm_compute; reflexivity) eq_refl)
    as (i & t & t' & _ & Ht & _ & _ & Hw & _ & _ & _ & _ & _ & Hs & _ & _ & Hc & _).
  exists i, t, t'. split; [exact Ht|]. split; [exact Hw|].
  split; [exact Hs | exact (Hc eq_refl)].
Defined.

Lemma put_skips_validators_witness :
  let b := Req.mk (Some "") None None None (Some "Done") None in
  let t' := Task.mk Demo.task1 "" "Quarterly numbers" "Done" 1738281600000%Z
              None (userId Demo.alice) 1600000000000%Z 1700000000000%Z in
  Task.includes Task.statuses (Req.status b) = false ∧
  ∃ i w', @castObjectId Demo.collaborators Demo.task1 = Some i ∧
    TaskRoutes.put (C := Demo.collaborators) (Demo.env Demo.never)
      Demo.alice Demo.task1 b Demo.w0
    = (Ok (mkResponse 200 (JTaskOrNull (Some t'))), w') ∧
    tasks w' = <[i := t']> (tasks Demo.w0).
Proof.
  intros b t'. split; [reflexivity|].
  exact (put_skips_validators (C := Demo.collaborators) (Demo.env Demo.never)
           Demo.alice Demo.task1 b Demo.w0 Demo.t1 eq_refl (or_intror eq_refl)
           eq_refl eq_refl eq_refl eq_refl eq_refl).
Defined.

Lemma schema_kept_witness :
  valid_store Demo.w0 ∧
  valid_store
    (TaskRoutesAudit.handler (C := Demo.collaborators) (Demo.env Demo.never)
       TaskRoutesAudit.PUT_status Demo.alice
       (mkRequest None Demo.task1 (Demo.status_body "Completed")) Demo.w0).2.
Proof.
  split; [exact valid_w0|].
  exact (proj1 (schema_kept (C := Demo.collaborators) (Demo.env Demo.never) Demo.alice
                  (mkRequest None Demo.task1 (Demo.status_body "Completed")) Demo.w0
                  valid_w0) TaskRoutesAudit.PUT_status).
Defined.

(** ** The three versions of the task router *)

Section Versions.
Context `{C : Collaborators} (env : Env).

(** X14. The second router of src/unnamed/part_002 adds the rate limit, the
    validators of POST, the logging and the audit log to the first one, and
    changes nothing else: for every endpoint, caller and request (for POST,
    one that passes the validators) both handlers give the same answer and
    leave the same tasks, notifications and users. *)
Theorem audited_router_extends_notify e user req w :
  (e = TaskRoutesAudit.POST → TaskRoutesAudit.validationResult (body req) = []) →
  same_answer (TaskRoutesAudit.handler env e user req w)
              (TaskRoutesNotify.handler env (plain_endpoint e) user req w).
Proof.
  intros Hv. unfold same_answer.
  destruct e; unfold TaskRoutesAudit.handler, TaskRoutesNotify.handler, plain_endpoint.
  - rewrite post_run, post_notify_run. cbv zeta. rewrite Hv by done. simpl.
    destruct (fails env TaskSave); [done|].
    destruct (Task.save _ _ _) as [[t|e] c]; [|done]. simpl.
    rewrite audited_tasks, audited_notifications, audited_users.
    destruct (truthy _); [|done].
    split; [done|]. by apply notified_frame.
  - run. by repeat case_match; simplify_eq/=.
  - rewrite put_status_run, put_status_notify_run. cbv zeta.
    repeat case_match; simplify_eq/=;
      by rewrite ?audited_tasks, ?audited_notifications, ?audited_users.
  - rewrite delete_run, delete_notify_run. cbv zeta.
    repeat case_match; simplify_eq/=;
      by rewrite ?audited_tasks, ?audited_notifications, ?audited_users.
Qed.

(** X15. The first router of src/unnamed/part_002 and the router of
    src/routes/taskRoutes.js have the same GET and the same DELETE, and
    their POST gives the same answer and the same tasks: the notification to
    the assignee is the only difference. *)
Theorem notify_router_extends_plain user req w :
  TaskRoutesNotify.get env user = TaskRoutes.get env user ∧
  TaskRoutesNotify.delete env user (params_id req) =
    TaskRoutes.delete env user (params_id req) ∧
  (TaskRoutesNotify.post env user (body req) w).1 =
    (TaskRoutes.post env user (body req) w).1 ∧
  tasks (TaskRoutesNotify.post env user (body req) w).2 =
    tasks (TaskRoutes.post env user (body req) w).2.
Proof.
  split; [done|]. split; [done|].
  rewrite post_notify_run. run.
  destruct (fails env TaskSave); world_simpl; [done|].
  destruct (Task.save _ _ _) as [[t|e] c]; world_simpl; [|done].
  destruct (truthy _); [|done]. by rewrite notified_tasks.
Qed.

End Versions.

Lemma audited_router_extends_notify_witness :
  let req := mkRequest None "" (Demo.new_body (Some (userId Demo.bob))) in
  TaskRoutesAudit.validationResult (C := Demo.collaborators) (body req) = [] ∧
  same_answer
    (TaskRoutesAudit.handler (C := Demo.collaborators) (Demo.env Demo.never)
       TaskRoutesAudit.POST Demo.alice req Demo.w0)
    (TaskRoutesNotify.handler (C := Demo.collaborators) (Demo.env Demo.never)
       TaskRoutesNotify.POST Demo.alice req Demo.w0).
Proof.
  intros req. split; [reflexivity|].
  exact (audited_router_extends_notify (C := Demo.collaborators) (Demo.env Demo.never)
           TaskRoutesAudit.POST Demo.alice req Demo.w0 (λ _, eq_refl)).
Defined.

(** ** The read-only routers *)

Section ReadOnlyRouters.
Context `{C : Collaborators} (rejects : Query → bool).

Lemma audit_newer_total : Total AuditRoutes.newer.
Proof. intros a b. unfold AuditRoutes.newer. lia. Qed.

Lemma audit_newer_trans : Transitive AuditRoutes.newer.
Proof. intros a b c. unfold AuditRoutes.newer. lia. Qed.

Lemma notification_newer_total : Total NotificationRoutes.newer.
Proof. intros a b. unfold NotificationRoutes.newer. lia. Qed.

Lemma notification_newer_trans : Transitive NotificationRoutes.newer.
Proof. intros a b c. unfold NotificationRoutes.newer. lia. Qed.

Lemma audit_get_run w :
  AuditRoutes.get rejects w =
  if rejects AuditLogFind then
    (Ok (Plain (mkResponse 500 (JMessageError "Error fetching audit logs" StoreFailure))), w)
  else
    (Ok (Listed 200 (AuditRoutes.populate w <$>
                     merge_sort AuditRoutes.newer (auditLogs w))), w).
Proof.
  unfold AuditRoutes.get, AuditRoutes.AuditLog_find, try_catch, bind, ret.
  by destruct (rejects AuditLogFind).
Qed.

Lemma notification_get_run user w :
  NotificationRoutes.get rejects user w =
  if rejects NotificationFind then
    (Ok (Plain (mkResponse 500
                  (JMessageError "Error fetching notifications" StoreFailure))), w)
  else
    (Ok (Listed 200
           (merge_sort NotificationRoutes.newer
              (filter (λ n, Notification.user n = userId user) (notifications w)))), w).
Proof.
  unfold NotificationRoutes.get, NotificationRoutes.Notification_find,
    try_catch, bind, ret.
  by destruct (rejects NotificationFind).
Qed.

Lemma populated_audit_docs w (l : list AuditLog.doc) :
  AuditRoutes.j_doc <$> (AuditRoutes.populate w <$> l) = l.
Proof. induction l as [|d l IH]; [done|]. cbn. by f_equal. Qed.

(** X16. GET /api/audit-logs is for admins only and only reads: the router
    always answers and leaves the world as it is; it answers with a list
    only to a credential that verifies as a user of role "admin", and every
    other authenticated caller gets 403 "Admin access required". *)
Theorem audit_logs_admin_only req w :
  ∃ l, AuditRoutes.router rejects req w = (Ok l, w) ∧
    (∀ c items, l = Listed c items →
       c = 200 ∧ ∃ user, authenticated (authorization req) user ∧ role user = "admin") ∧
    (∀ user, authenticated (authorization req) user → role user ≠ "admin" →
       l = Plain (mkResponse 403 (JMessage "Admin access required"))).
Proof.
  unfold AuditRoutes.router, authMiddleware_of, adminMiddleware_of, authenticated, ret.
  destruct (truthy (authorization req)) as [s|] eqn:Ht.
  - destruct (jwt_verify _) as [user|] eqn:Hj.
    + destruct (String.eqb (role user) "admin") eqn:Hr; simpl.
      * apply String.eqb_eq in Hr. rewrite audit_get_run.
        destruct (rejects AuditLogFind); eexists; (split; [reflexivity|]); split.
        -- intros ? ? [=].
        -- intros u (s' & [= <-] & Hu) Hne. congruence.
        -- intros ? ? [= <- _]. split; [done|]. exists user. eauto.
        -- intros u (s' & [= <-] & Hu) Hne. congruence.
      * eexists; (split; [reflexivity|]); split; [intros ? ? [=]|].
        intros u (s' & [= <-] & Hu) Hne. done.
    + eexists; (split; [reflexivity|]); split; [intros ? ? [=]|].
      intros u (s' & [= <-] & Hu). congruence.
  - eexists; (split; [reflexivity|]); split; [intros ? ? [=]|].
    by intros u (s' & [=] & _).
Qed.

(** X17. What an admin gets from GET /api/audit-logs when the query does
    not reject: 200 with every entry of the audit log, each once, newest
    first (no entry comes before a newer one), each with its user and its
    task populated from the collections as they are now. *)
Theorem audit_logs_newest_first req w user :
  authenticated (authorization req) user → role user = "admin" →
  rejects AuditLogFind = false →
  ∃ items, AuditRoutes.router rejects req w = (Ok (Listed 200 items), w) ∧
    AuditRoutes.j_doc <$> items ≡ₚ auditLogs w ∧
    StronglySorted AuditRoutes.newer (AuditRoutes.j_doc <$> items) ∧
    Forall (λ j, j = AuditRoutes.populate w (AuditRoutes.j_doc j)) items.
Proof.
  intros (s & Ht & Hj) Hr Hq.
  unfold AuditRoutes.router, authMiddleware_of, adminMiddleware_of.
  rewrite Ht, Hj, Hr. simpl. rewrite audit_get_run, Hq.
  eexists. split; [reflexivity|]. rewrite populated_audit_docs.
  pose proof audit_newer_total. pose proof audit_newer_trans.
  split; [apply merge_sort_Permutation|].
  split; [by apply StronglySorted_merge_sort|].
  apply Forall_fmap, Forall_true. done.
Qed.

(** X18. What an authenticated caller gets from GET /api/notifications when
    the query does not reject: 200 with exactly the notifications whose
    recipient the caller is, each once, newest first; the world is left as
    it is. Nobody is shown a notification of somebody else, an admin
    included. *)
Theorem notifications_own_newest_first req w user :
  authenticated (authorization req) user →
  rejects NotificationFind = false →
  ∃ items, NotificationRoutes.router rejects req w = (Ok (Listed 200 items), w) ∧
    (∀ n, n ∈ items ↔ n ∈ notifications w ∧ Notification.user n = userId user) ∧
    items ≡ₚ filter (λ n, Notification.user n = userId user) (notifications w) ∧
    StronglySorted NotificationRoutes.newer items.
Proof.
  intros (s & Ht & Hj) Hq.
  unfold NotificationRoutes.router, authMiddleware_of.
  rewrite Ht, Hj. rewrite notification_get_run, Hq.
  eexists. split; [reflexivity|].
  pose proof notification_newer_total. pose proof notification_newer_trans.
  split; [|split; [apply merge_sort_Permutation | by apply StronglySorted_merge_sort]].
  intros n. rewrite merge_sort_Permutation, list_elem_of_filter. tauto.
Qed.

End ReadOnlyRouters.

Lemma root_authenticated :
  authenticated (C := Demo.collaborators) (Some "Bearer root.jwt") Demo.root.
Proof. exists "Bearer root.jwt". split; reflexivity. Qed.

Lemma bob_authenticated :
  authenticated (C := Demo.collaborators) (Some "Bearer bob.jwt") Demo.bob.
Proof. exists "Bearer bob.jwt". split; reflexivity. Qed.

Lemma audit_logs_newest_first_witness :
  let req := mkRequest (Some "Bearer root.jwt") "" (Demo.status_body "") in
  ∃ items,
    AuditRoutes.router (C := Demo.collaborators) DemoJournal.accepts req DemoJournal.w1
    = (Ok (Listed 200 items), DemoJournal.w1) ∧
    AuditRoutes.j_doc <$> items ≡ₚ auditLogs DemoJournal.w1 ∧
    StronglySorted AuditRoutes.newer (AuditRoutes.j_doc <$> items).
Proof.
  intros req.
  destruct (audit_logs_newest_first (C := Demo.collaborators) DemoJournal.accepts req
              DemoJournal.w1 Demo.root root_authenticated eq_refl eq_refl)
    as (items & Hr & Hp & Hs & _).
  by exists items.
Defined.

Lemma notifications_own_newest_first_witness :
  let req := mkRequest (Some "Bearer bob.jwt") "" (Demo.status_body "") in
  ∃ items,
    NotificationRoutes.router (C := Demo.collaborators) DemoJournal.accepts req
      DemoJournal.w1 = (Ok (Listed 200 items), DemoJournal.w1) ∧
    (∀ n, n ∈ items ↔
          n ∈ notifications DemoJournal.w1 ∧ Notification.user n = userId Demo.bob) ∧
    StronglySorted NotificationRoutes.newer items.
Proof.
  intros req.
  destruct (notifications_own_newest_first (C := Demo.collaborators) DemoJournal.accepts
              req DemoJournal.w1 Demo.bob bob_authenticated eq_refl)
    as (items & Hr & Hn & _ & Hs).
  by exists items.
Defined.

(** The two listings of the journal, run. *)
Example journal_listings :
  (AuditRoutes.router (C := Demo.collaborators) DemoJournal.accepts
     (mkRequest (Some "Bearer root.jwt") "" (Demo.status_body "")) DemoJournal.w1).1
  = Ok (Listed 200
          [AuditRoutes.mk_json DemoJournal.entry2
             (Task.RefDoc (userId Demo.root) "Root" "root@example.org")
             AuditRoutes.TaskNull;
           AuditRoutes.mk_json DemoJournal.entry1 Task.RefNull
             (AuditRoutes.TaskTitle Demo.task1 "Write report")]) ∧
  (AuditRoutes.router (C := Demo.collaborators) DemoJournal.accepts
     (mkRequest (Some "Bearer alice.jwt") "" (Demo.status_body "")) DemoJournal.w1).1
  = Ok (Plain (mkResponse 403 (JMessage "Admin access required"))) ∧
  (NotificationRoutes.router (C := Demo.collaborators) DemoJournal.accepts
     (mkRequest (Some "Bearer bob.jwt") "" (Demo.status_body "")) DemoJournal.w1).1
  = Ok (Listed 200 [DemoJournal.note3; DemoJournal.note1]).
Proof. vm_compute. repeat split. Qed.

(** ** From one request to the next *)

Section Journeys.
Context `{C : Collaborators} (env : Env) (rejects : Query → bool).

(** X19. The assignee is told: after a creation answered 201 (either router
    of src/unnamed/part_002) whose body names an assignee, and unless the
    write of the notification failed, GET /api/notifications of the assignee
    lists the notification "You have been assigned a new task: <title>" of
    that moment. *)
Theorem assignment_reaches_assignee user b w t w' a assignee :
  TaskRoutesAudit.post env user b w = (Ok (mkResponse 201 (JTask t)), w') ∨
  TaskRoutesNotify.post env user b w = (Ok (mkResponse 201 (JTask t)), w') →
  Req.assignedTo b = Some a → a ≠ "" →
  Task.assignedTo t = Some (userId assignee) →
  fails env NotificationCreate = false →
  rejects NotificationFind = false →
  ∃ items,
    NotificationRoutes.get rejects assignee w' = (Ok (Listed 200 items), w') ∧
    Notification.mk (userId assignee)
      ("You have been assigned a new task: " ++ Task.title t) (now env) ∈ items.
Proof.
  intros Hp Ha Hne Ht Hn Hq.
  assert (truthy (Req.assignedTo b) = Some a) as Htr.
  { rewrite Ha. simpl. apply String.eqb_neq in Hne. by rewrite Hne. }
  assert (Task.validate (now env) (new_Task env user b) = Ok t) as Hv.
  { destruct Hp as [Hp | Hp]; [apply post_created in Hp | apply post_notify_created in Hp];
      by destruct Hp. }
  apply validate_fields in Hv as (_ & _ & _ & _ & _ & Hti & _ & _ & _ & _ & Hat).
  simpl in Hti, Hat. rewrite Ha, Ht in Hat. simpl in Hat. symmetry in Hat.
  assert (notifications w' =
          (notifications w ++
           [Notification.mk (userId assignee)
              ("You have been assigned a new task: " ++ Task.title t) (now env)])%list)
    as Hw.
  { destruct Hp as [Hp | Hp]; revert Hp;
      [rewrite post_run; cbv zeta; destruct (negb _); [done|]
      | rewrite post_notify_run];
      (destruct (fails env TaskSave); [done|]);
      (destruct (Task.save _ _ _) as [[t0|e] c]; [|done]);
      rewrite Htr; intros [= -> <-];
      rewrite ?audited_notifications, (notified_notifications _ _ _ _ _ Hat), Hn;
      rewrite Hti; done. }
  rewrite notification_get_run, Hq. eexists. split; [reflexivity|].
  rewrite merge_sort_Permutation, list_elem_of_filter, Hw. split; [done|].
  apply elem_of_app. right. by apply list_elem_of_singleton.
Qed.

(** X20. The audit entry of a deletion outlives its task: after a DELETE of
    the audited router answered with success, and unless the write to the
    audit log failed, GET /api/audit-logs lists the entry of the caller's
    "DELETE" of that id, with the title in its details and with [task]
    populated as null, since the task is no longer there. *)
Theorem deleted_task_audit_entry user id w r w' :
  TaskRoutesAudit.delete env user id w = (Ok r, w') → success r = true →
  keyed w → fails env AuditLogCreate = false → rejects AuditLogFind = false →
  ∃ i t items,
    castObjectId id = Some i ∧ tasks w !! i = Some t ∧
    AuditRoutes.get rejects w' = (Ok (Listed 200 items), w') ∧
    AuditRoutes.mk_json
      (AuditLog.mk (userId user) "DELETE" i (now env)
         ("Task '" ++ Task.title t ++ "' deleted"))
      (Task.populate_ref (users w) (userId user)) AuditRoutes.TaskNull ∈ items.
Proof.
  rewrite delete_run. cbv zeta. intros Hd Hs Hk Ha Hq.
  destruct (fails env TaskFindById); [by simplify_eq|].
  destruct (Task.findById id (tasks w)) as [[t|]|e] eqn:Hf; [|by simplify_eq..].
  destruct (neither_owner_nor_admin t user); [by simplify_eq|].
  destruct (fails env TaskDeleteOne); [by simplify_eq|].
  injection Hd as <- <-.
  destruct (findById_keyed _ _ _ Hk Hf) as [Hc Ht].
  exists (Task._id t), t. rewrite audit_get_run, Hq.
  eexists. split; [done|]. split; [done|]. split; [reflexivity|].
  apply list_elem_of_fmap. eexists. split; last first.
  - rewrite merge_sort_Permutation, audited_auditLogs, Ha.
    apply elem_of_app. right. by apply list_elem_of_singleton.
  - unfold AuditRoutes.populate, AuditRoutes.populate_task. simpl.
    rewrite audited_tasks, audited_users. simpl.
    unfold Task.deleteOne. by rewrite lookup_delete_eq.
Qed.

(** X21. A task that was just created can be moved on by its creator: after
    a POST answered 201, a status update of the new id by the same user with
    a status of the enum is answered 200, and the stored task then has that
    status (given that the generated id reads back as itself and that the
    store does not fail). *)
Theorem created_task_updatable user b w t w' bs s :
  TaskRoutesAudit.post env user b w = (Ok (mkResponse 201 (JTask t)), w') →
  keyed w →
  castObjectId (fresh_id env) = Some (fresh_id env) →
  Req.status bs = Some s → s ∈ Task.statuses →
  fails env TaskFindById = false → fails env TaskSave = false →
  let t' := if String.eqb "Pending" s then t else Task.set_status s (now env) t in
  ∃ w'', TaskRoutesAudit.put_status env user (fresh_id env) bs w' =
           (Ok (mkResponse 200 (JMessageTask "Task status updated" t')), w'') ∧
         tasks w'' !! fresh_id env = Some t' ∧
         Task.status t' = s.
Proof.
  intros Hp Hk Hc Hb Hs Hf1 Hf2 t'.
  assert (keyed w') as Hk'.
  { pose proof (proj1 (keyed_kept env user (mkRequest None "" b) w Hk)
                  TaskRoutesAudit.POST) as Hk'.
    simpl in Hk'. by rewrite Hp in Hk'. }
  apply post_created in Hp as (Hv & _ & Hw).
  apply validate_fields in Hv
    as (Hid & Hst & Hcr & _ & _ & _ & Hti & _ & Hde & _). simpl in Hid, Hcr.
  rewrite Hid in Hw.
  assert (Task.findById (fresh_id env) (tasks w') = Ok (Some t)) as Hf.
  { unfold Task.findById. by rewrite Hc, Hw, lookup_insert_eq. }
  destruct (put_status_applied env user (fresh_id env) bs w' t s)
    as (w'' & Hput & Hw''); try done; [by right|].
  rewrite Hst, Hid in *. fold t' in Hput, Hw''.
  exists w''. split; [done|]. split; [by rewrite Hw'', lookup_insert_eq|].
  unfold t'. destruct (String.eqb "Pending" s) eqn:E; [|done].
  apply String.eqb_eq in E. by rewrite Hst.
Qed.

End Journeys.

Lemma assignment_reaches_assignee_witness :
  let out := TaskRoutesAudit.post (C := Demo.collaborators) (Demo.env Demo.never)
               Demo.alice (Demo.new_body (Some (userId Demo.bob))) Demo.w0 in
  out.1 = Ok (mkResponse 201 (JTask (Demo.created (Some (userId Demo.bob))))) ∧
  ∃ items,
    NotificationRoutes.get DemoJournal.accepts Demo.bob out.2
    = (Ok (Listed 200 items), out.2) ∧
    Notification.mk (userId Demo.bob) "You have been assigned a new task: Plan sprint"
                    1700000000000%Z ∈ items.
Proof.
  intros out. split; [vm_compute; reflexivity|].
  refine (assignment_reaches_assignee (C := Demo.collaborators) (Demo.env Demo.never)
            DemoJournal.accepts Demo.alice (Demo.new_body (Some (userId Demo.bob)))
            Demo.w0 (Demo.created (Some (userId Demo.bob))) out.2
            (userId Demo.bob) Demo.bob _ eq_refl _ eq_refl eq_refl eq_refl).
  - left. vm_compute. reflexivity.
  - discriminate.
Defined.

Lemma deleted_task_audit_entry_witness :
  let out := TaskRoutesAudit.delete (C := Demo.collaborators) (Demo.env Demo.never)
               Demo.root Demo.task1 DemoJournal.w1 in
  out.1 = Ok (mkResponse 200 (JMessage "Task deleted successfully")) ∧
  ∃ i t items,
    @castObjectId Demo.collaborators Demo.task1 = Some i ∧
    tasks DemoJournal.w1 !! i = Some t ∧
    AuditRoutes.get DemoJournal.accepts out.2 = (Ok (Listed 200 items), out.2) ∧
    AuditRoutes.mk_json
      (AuditLog.mk (userId Demo.root) "DELETE" i 1700000000000%Z
         ("Task '" ++ Task.title t ++ "' deleted"))
      (Task.populate_ref (users DemoJournal.w1) (userId Demo.root))
      AuditRoutes.TaskNull ∈ items.
Proof.
  intros out. split; [vm_compute; reflexivity|].
  exact (deleted_task_audit_entry (C := Demo.collaborators) (Demo.env Demo.never)
           DemoJournal.accepts Demo.root Demo.task1 DemoJournal.w1
           (mkResponse 200 (JMessage "Task deleted successfully")) out.2
           ltac:(vm_compute; reflexivity) eq_refl keyed_w1 eq_refl eq_refl).
Defined.

Lemma created_task_updatable_witness :
  let out := TaskRoutesAudit.post (C := Demo.collaborators) (Demo.env Demo.never)
               Demo.alice (Demo.new_body None) Demo.w0 in
  let t' := Task.set_status "In Progress" 1700000000000%Z (Demo.created None) in
  out.1 = Ok (mkResponse 201 (JTask (Demo.created None))) ∧
  ∃ w'', TaskRoutesAudit.put_status (C := Demo.collaborators) (Demo.env Demo.never)
           Demo.alice Demo.fresh (Demo.status_body "In Progress") out.2
         = (Ok (mkResponse 200 (JMessageTask "Task status updated" t')), w'') ∧
         tasks w'' !! Demo.fresh = Some t' ∧ Task.status t' = "In Progress".
Proof.
  intros out t'. split; [vm_compute; reflexivity|].
  refine (created_task_updatable (C := Demo.collaborators) (Demo.env Demo.never)
            Demo.alice (Demo.new_body None) Demo.w0 (Demo.created None) out.2
            (Demo.status_body "In Progress") "In Progress"
            _ keyed_w0 eq_refl eq_refl _ eq_refl eq_refl).
  - vm_compute. reflexivity.
  - decide_closed.
Defined.

(** ** What a listing populates *)

Section Population.
Context (env : Env).

Lemma get_lists user w l w' :
  TaskRoutesAudit.get env user w = (Ok (mkResponse 200 (JTasks l)), w') ∨
  TaskRoutesNotify.get env user w = (Ok (mkResponse 200 (JTasks l)), w') ∨
  TaskRoutes.get env user w = (Ok (mkResponse 200 (JTasks l)), w') →
  l = if String.eqb (role user) "admin" then
        Task.populate_assignedTo (users w) <$>
          (Task.populate_createdBy (users w) <$> (Task.to_json <$> Task.find (tasks w)))
      else
        Task.populate_assignedTo (users w) <$>
          (Task.to_json <$> Task.find_createdBy (userId user) (tasks w)).
Proof.
  intros [Hg | [Hg | Hg]]; revert Hg; run;
    destruct (String.eqb (role user) "admin"); world_simpl;
    destruct (fails env TaskFind); world_simpl; by intros [= <-].
Qed.

(** X22. What the items of a GET /api/tasks answered 200 carry besides the
    document: [assignedTo] is always populated from the users (name and
    email, or null when the user is unknown); [createdBy] is populated in
    the same way for an admin, and stays a bare id, the caller's own, for
    any other caller. *)
Theorem listing_population user w l w' :
  TaskRoutesAudit.get env user w = (Ok (mkResponse 200 (JTasks l)), w') ∨
  TaskRoutesNotify.get env user w = (Ok (mkResponse 200 (JTasks l)), w') ∨
  TaskRoutes.get env user w = (Ok (mkResponse 200 (JTasks l)), w') →
  Forall (λ j,
    Task.j_assignedTo j =
      Task.populate_ref (users w) <$> Task.assignedTo (Task.j_doc j) ∧
    Task.j_createdBy j =
      if String.eqb (role user) "admin"
      then Task.populate_ref (users w) (Task.createdBy (Task.j_doc j))
      else Task.RefId (userId user)) l.
Proof.
  intros ->%get_lists.
  destruct (String.eqb (role user) "admin"); rewrite !Forall_fmap; apply Forall_forall.
  - by intros t _.
  - intros t [_ Hc]%TaskFacts.elem_of_find_createdBy. simpl. by rewrite Hc.
Qed.

End Population.

Lemma listing_population_witness :
  let out := TaskRoutesAudit.get (Demo.env Demo.never) Demo.root DemoJournal.w1 in
  let l := [Task.mk_json Demo.t1 Task.RefNull None] in
  out.1 = Ok (mkResponse 200 (JTasks l)) ∧
  Forall (λ j, Task.j_createdBy j =
               Task.populate_ref (users DemoJournal.w1) (Task.createdBy (Task.j_doc j))) l.
Proof.
  intros out l. split; [vm_compute; reflexivity|].
  eapply Forall_impl.
  - apply (listing_population (Demo.env Demo.never) Demo.root
             DemoJournal.w1 l out.2).
    left. vm_compute. reflexivity.
  - intros j [_ Hc]. exact Hc.
Defined.
